(** * ClawDice: a provably fair dice engine, its ledger and its HTTP shell

    A shallow embedding of [config.js], [dice.js], [db.js], [payout.js]
    and [server.js], followed by the properties of the specification that
    this code decides.

    - JavaScript Numbers are IEEE 754 binary64 values: Rocq's primitive
      [float], whose operations the kernel evaluates and [FloatAxioms]
      specifies.
    - JavaScript strings are kept as their UTF-8 octets (a Rocq [string]),
      which is what [crypto]'s [update] hashes.
    - [crypto.createHash('sha256')] and [crypto.createHmac('sha256', key)]
      are FIPS 180-4 SHA-256 and RFC 2104 HMAC, written out so that every
      game can be evaluated.
    - The games table is the list of its rows, and a statement of
      [db.js] is what the engine (SQLite, through sql.js) does with it:
      the rows it returns, in the order it returns them, or [None] when
      [db.run] or [db.exec] raises.
    - The handlers of [server.js] are state-passing functions on the games
      table; the values a request draws from [crypto.randomBytes] are an
      explicit argument. *)

From Stdlib Require Import ZArith List String Ascii Bool Lia.
From Stdlib Require Import Floats Uint63 QArith Qabs Permutation Sorted.
From Stdlib Require OrderedTypeEx.
Import ListNotations.

Set Warnings "-inexact-float".

Local Open Scope string_scope.
Local Open Scope Z_scope.

(* ================================================================== *)
(** * Octets, big-endian words and hexadecimal text *)
(* ================================================================== *)

Module Bytes.

(** A Node [Buffer]: a list of octets, each a [Z] in [0, 255]. *)
Definition buffer := list Z.

Definition of_ascii (c : ascii) : Z := Z.of_N (N_of_ascii c).

(** The UTF-8 octets of a string. *)
Fixpoint of_string (s : string) : buffer :=
  match s with
  | EmptyString => []
  | String c rest => of_ascii c :: of_string rest
  end.

(** Big-endian value of a run of octets. *)
Definition be_value (bs : buffer) : Z :=
  fold_left (fun acc b => Z.lor (Z.shiftl acc 8) b) bs 0.

(** The [n] low octets of [v], most significant first. *)
Fixpoint be_octets (n : nat) (v : Z) : buffer :=
  match n with
  | O => []
  | S k => Z.land (Z.shiftr v (8 * Z.of_nat k)) 255 :: be_octets k v
  end.

(** [buf.readUInt16BE(0)]; [None] stands for the RangeError Node raises
    when fewer than two octets are there. *)
Definition readUInt16BE (buf : buffer) : option Z :=
  match buf with
  | b0 :: b1 :: _ => Some (Z.lor (Z.shiftl b0 8) b1)
  | _ => None
  end.

Definition hex_digit (d : Z) : ascii :=
  if d <? 10 then ascii_of_N (Z.to_N (48 + d))
  else ascii_of_N (Z.to_N (87 + d)).

(** [digest('hex')]: two lower-case digits per octet. *)
Fixpoint to_hex (bs : buffer) : string :=
  match bs with
  | [] => EmptyString
  | b :: rest =>
      String (hex_digit (Z.shiftr b 4))
        (String (hex_digit (Z.land b 15)) (to_hex rest))
  end.

End Bytes.

(* ================================================================== *)
(** * SHA-256 (FIPS 180-4) and HMAC (RFC 2104) *)
(* ================================================================== *)

Module SHA256.

Definition wrap32 (x : Z) : Z := Z.land x 0xFFFFFFFF.
Definition add32 (x y : Z) : Z := wrap32 (x + y).
Definition rotr (n x : Z) : Z :=
  Z.lor (Z.shiftr x n) (wrap32 (Z.shiftl x (32 - n))).
Definition not32 (x : Z) : Z := Z.lxor x 0xFFFFFFFF.

Definition Ch (x y z : Z) := Z.lxor (Z.land x y) (Z.land (not32 x) z).
Definition Maj (x y z : Z) :=
  Z.lxor (Z.lxor (Z.land x y) (Z.land x z)) (Z.land y z).
Definition bsig0 x := Z.lxor (Z.lxor (rotr 2 x) (rotr 13 x)) (rotr 22 x).
Definition bsig1 x := Z.lxor (Z.lxor (rotr 6 x) (rotr 11 x)) (rotr 25 x).
Definition ssig0 x := Z.lxor (Z.lxor (rotr 7 x) (rotr 18 x)) (Z.shiftr x 3).
Definition ssig1 x :=
  Z.lxor (Z.lxor (rotr 17 x) (rotr 19 x)) (Z.shiftr x 10).

(** Round constants: the fractional parts of the cube roots of the first
    sixty-four primes. *)
Definition round_constants : list Z :=
  [0x428A2F98; 0x71374491; 0xB5C0FBCF; 0xE9B5DBA5;
   0x3956C25B; 0x59F111F1; 0x923F82A4; 0xAB1C5ED5;
   0xD807AA98; 0x12835B01; 0x243185BE; 0x550C7DC3;
   0x72BE5D74; 0x80DEB1FE; 0x9BDC06A7; 0xC19BF174;
   0xE49B69C1; 0xEFBE4786; 0x0FC19DC6; 0x240CA1CC;
   0x2DE92C6F; 0x4A7484AA; 0x5CB0A9DC; 0x76F988DA;
   0x983E5152; 0xA831C66D; 0xB00327C8; 0xBF597FC7;
   0xC6E00BF3; 0xD5A79147; 0x06CA6351; 0x14292967;
   0x27B70A85; 0x2E1B2138; 0x4D2C6DFC; 0x53380D13;
   0x650A7354; 0x766A0ABB; 0x81C2C92E; 0x92722C85;
   0xA2BFE8A1; 0xA81A664B; 0xC24B8B70; 0xC76C51A3;
   0xD192E819; 0xD6990624; 0xF40E3585; 0x106AA070;
   0x19A4C116; 0x1E376C08; 0x2748774C; 0x34B0BCB5;
   0x391C0CB3; 0x4ED8AA4A; 0x5B9CCA4F; 0x682E6FF3;
   0x748F82EE; 0x78A5636F; 0x84C87814; 0x8CC70208;
   0x90BEFFFA; 0xA4506CEB; 0xBEF9A3F7; 0xC67178F2].

(** The eight working words. *)
Record state := mkState
  { sa : Z; sb : Z; sc : Z; sd : Z; se : Z; sf : Z; sg : Z; sh : Z }.

Definition initial_state : state :=
  mkState 0x6A09E667 0xBB67AE85 0x3C6EF372 0xA54FF53A
          0x510E527F 0x9B05688C 0x1F83D9AB 0x5BE0CD19.

(** Padding: a 1 bit, zeros up to 56 modulo 64 octets, then the bit
    length on eight octets. *)
Definition pad (msg : Bytes.buffer) : Bytes.buffer :=
  let len := Z.of_nat (List.length msg) in
  let zeros := Z.to_nat ((55 - len) mod 64) in
  (msg ++ 0x80 :: repeat 0 zeros ++ Bytes.be_octets 8 (8 * len))%list.

(** Octets to 32-bit big-endian words; [fuel] bounds the number of
    words. *)
Fixpoint words_of (fuel : nat) (bs : Bytes.buffer) : list Z :=
  match fuel, bs with
  | S k, b0 :: b1 :: b2 :: b3 :: rest =>
      Bytes.be_value [b0; b1; b2; b3] :: words_of k rest
  | _, _ => []
  end.

(** The message schedule, most recent word first: from the sixteen words
    of a block to all sixty-four. *)
Fixpoint extend (n : nat) (rev_w : list Z) : list Z :=
  match n with
  | O => rev_w
  | S k =>
      let w2 := nth 1 rev_w 0 in
      let w7 := nth 6 rev_w 0 in
      let w15 := nth 14 rev_w 0 in
      let w16 := nth 15 rev_w 0 in
      extend k
        (add32 (add32 (add32 (ssig1 w2) w7) (ssig0 w15)) w16 :: rev_w)
  end.

Definition schedule (block : list Z) : list Z :=
  rev (extend 48 (rev block)).

Definition round (s : state) (kw : Z * Z) : state :=
  let '(k, w) := kw in
  let t1 :=
    add32 (add32 (add32 (add32 (sh s) (bsig1 (se s)))
                        (Ch (se s) (sf s) (sg s))) k) w in
  let t2 := add32 (bsig0 (sa s)) (Maj (sa s) (sb s) (sc s)) in
  mkState (add32 t1 t2) (sa s) (sb s) (sc s)
          (add32 (sd s) t1) (se s) (sf s) (sg s).

Definition compress (h : state) (block : list Z) : state :=
  let s := fold_left round (combine round_constants (schedule block)) h in
  mkState (add32 (sa h) (sa s)) (add32 (sb h) (sb s))
          (add32 (sc h) (sc s)) (add32 (sd h) (sd s))
          (add32 (se h) (se s)) (add32 (sf h) (sf s))
          (add32 (sg h) (sg s)) (add32 (sh h) (sh s)).

Fixpoint blocks (fuel : nat) (h : state) (ws : list Z) : state :=
  match fuel with
  | O => h
  | S k =>
      match ws with
      | [] => h
      | _ => blocks k (compress h (firstn 16 ws)) (skipn 16 ws)
      end
  end.

Definition digest_of (s : state) : Bytes.buffer :=
  flat_map (Bytes.be_octets 4)
    [sa s; sb s; sc s; sd s; se s; sf s; sg s; sh s].

(** [crypto.createHash('sha256').update(msg).digest()] *)
Definition hash (msg : Bytes.buffer) : Bytes.buffer :=
  let padded := pad msg in
  let ws := words_of (List.length padded) padded in
  digest_of (blocks (List.length ws) initial_state ws).

(** [crypto.createHmac('sha256', key).update(msg).digest()] *)
Definition hmac (key msg : Bytes.buffer) : Bytes.buffer :=
  let k0 := if 64 <? Z.of_nat (List.length key) then hash key else key in
  let k := (k0 ++ repeat 0 (64 - List.length k0))%list in
  let ipad := map (fun b => Z.lxor b 0x36) k in
  let opad := map (fun b => Z.lxor b 0x5C) k in
  hash (opad ++ hash (ipad ++ msg))%list.

End SHA256.

(* ================================================================== *)
(** * JavaScript Numbers and the built-ins the sources call *)
(* ================================================================== *)

Module JS.

(** A JavaScript Number. *)
Definition number := float.

(** The Number nearest to an integer (the integer itself below 2^53). *)
Definition num_of_Z (z : Z) : number :=
  if Z.abs z <? 2 ^ 62 then
    if z <? 0 then (- of_uint63 (Uint63.of_Z (- z)))%float
    else of_uint63 (Uint63.of_Z z)
  else SF2Prim (binary_normalize prec emax z 0 false).

(** [x < y], [x > y], [x === y] and [x !== y] on Numbers. *)
Definition lt (x y : number) : bool := (x <? y)%float.
Definition gt (x y : number) : bool := (y <? x)%float.
Definition strict_eq (x y : number) : bool := (x =? y)%float.
Definition strict_ne (x y : number) : bool := negb (x =? y)%float.

(** [Math.floor]: the largest whole Number not above [x]; NaN, the
    infinities, the zeros and every Number without fractional bits are
    returned unchanged. *)
Definition floor (x : number) : number :=
  match Prim2SF x with
  | S754_finite s m e =>
      if 0 <=? e then x
      else
        let a := if s then Z.neg m else Z.pos m in
        num_of_Z (a / 2 ^ (- e))
  | _ => x
  end.

(** [Math.round]: the nearest whole Number, halves going up; a negative
    argument that rounds to zero gives [-0]. *)
Definition round (x : number) : number :=
  match Prim2SF x with
  | S754_finite s m e =>
      if 0 <=? e then x
      else
        let a := if s then Z.neg m else Z.pos m in
        let q := (2 * a + 2 ^ (- e)) / 2 ^ (- e + 1) in
        if (q =? 0) && s then neg_zero else num_of_Z q
  | _ => x
  end.

(** [Math.min] of two Numbers: NaN if either is, and [-0] below [+0]. *)
Definition min (x y : number) : number :=
  if is_nan x || is_nan y then nan
  else if (x <? y)%float then x
  else if (y <? x)%float then y
  else if get_sign x then x else y.

(** ** Strings *)

(** The truthiness of a value that is [undefined] or a string: the empty
    string is falsy. *)
Definition truthy (s : option string) : option string :=
  match s with
  | Some EmptyString => None
  | other => other
  end.

(** [a || b] with [b] a string, and with [b] a string or [null]. *)
Definition or_str (a : option string) (b : string) : string :=
  match truthy a with Some s => s | None => b end.

Definition or_opt (a b : option string) : option string :=
  match truthy a with Some s => Some s | None => b end.

(** One WhiteSpace or LineTerminator code point at the head of the text,
    removed: TAB, LF, VT, FF, CR, SP, U+00A0, U+1680, U+2000..U+200A,
    U+2028, U+2029, U+202F, U+205F, U+3000 and U+FEFF in UTF-8. *)
Definition drop_space (s : string) : option string :=
  match s with
  | String a1 rest1 =>
      let b := Bytes.of_ascii a1 in
      if (9 <=? b) && (b <=? 13) || (b =? 32) then Some rest1
      else
        match rest1 with
        | String a2 rest2 =>
            let c := Bytes.of_ascii a2 in
            if (b =? 0xC2) && (c =? 0xA0) then Some rest2
            else
              match rest2 with
              | String a3 rest3 =>
                  let d := Bytes.of_ascii a3 in
                  if ((b =? 0xE1) && (c =? 0x9A) && (d =? 0x80))
                     || ((b =? 0xE2) && (c =? 0x80)
                         && ((0x80 <=? d) && (d <=? 0x8A)
                             || (d =? 0xA8) || (d =? 0xA9) || (d =? 0xAF)))
                     || ((b =? 0xE2) && (c =? 0x81) && (d =? 0x9F))
                     || ((b =? 0xE3) && (c =? 0x80) && (d =? 0x80))
                     || ((b =? 0xEF) && (c =? 0xBB) && (d =? 0xBF))
                  then Some rest3
                  else None
              | EmptyString => None
              end
        | EmptyString => None
        end
  | EmptyString => None
  end.

(** [String.prototype.trimStart]; the fuel is the length of the text. *)
Fixpoint trim_start_fuel (fuel : nat) (s : string) : string :=
  match fuel with
  | O => s
  | S k =>
      match drop_space s with
      | Some rest => trim_start_fuel k rest
      | None => s
      end
  end.

Definition trimStart (s : string) : string :=
  trim_start_fuel (String.length s) s.

(** [String.prototype.trimEnd] and [trim]. *)
Fixpoint trimEnd (s : string) : string :=
  match s with
  | EmptyString => EmptyString
  | String c rest =>
      match trimStart s with
      | EmptyString => EmptyString
      | _ => String c (trimEnd rest)
      end
  end.

Definition trim (s : string) : string := trimEnd (trimStart s).

(** [s.startsWith(p)] *)
Fixpoint startsWith (p s : string) : bool :=
  match p, s with
  | EmptyString, _ => true
  | String a p', String b s' => Ascii.eqb a b && startsWith p' s'
  | _, _ => false
  end.

(** The value of a digit in radix [r], if it is one. *)
Definition digit_value (r : Z) (c : ascii) : option Z :=
  let b := Bytes.of_ascii c in
  let v :=
    if (48 <=? b) && (b <=? 57) then b - 48
    else if (97 <=? b) && (b <=? 122) then b - 87
    else if (65 <=? b) && (b <=? 90) then b - 55
    else 99 in
  if v <? r then Some v else None.

(** The longest prefix of radix-[r] digits: how many there are and the
    integer they spell. *)
Fixpoint digits_prefix (r : Z) (s : string) (count : nat) (acc : Z)
  : nat * Z :=
  match s with
  | EmptyString => (count, acc)
  | String c rest =>
      match digit_value r c with
      | Some v => digits_prefix r rest (S count) (acc * r + v)
      | None => (count, acc)
      end
  end.

(** [parseInt(s)] with no radix argument (ECMA-262, 19.2.5): leading
    white space and a sign are skipped, a [0x] prefix selects radix 16,
    the digits that follow are read and whatever comes after them is
    ignored; no digit at all gives NaN. *)
Definition parseInt (s : string) : number :=
  let s1 := trimStart s in
  let '(negative, s2) :=
    match s1 with
    | String "-" rest => (true, rest)
    | String "+" rest => (false, rest)
    | _ => (false, s1)
    end in
  let '(radix, s3) :=
    match s2 with
    | String "0" (String "x" rest) => (16, rest)
    | String "0" (String "X" rest) => (16, rest)
    | _ => (10, s2)
    end in
  match digits_prefix radix s3 O 0 with
  | (O, _) => nan
  | (_, v) =>
      if v =? 0 then (if negative then neg_zero else zero)
      else num_of_Z (if negative then - v else v)
  end.

End JS.

(* ================================================================== *)
(** * config.js *)
(* ================================================================== *)

Module Config.

Import JS.
Local Open Scope float_scope.

(** The [config] object: [config.game], [config.bankroll], [devMode].
    The fields read from the process environment are Numbers like the
    others. *)
Record t := mk
  { maxRoll : number;
    houseEdge : number;
    defaultTarget : number;
    minBet : number;
    maxBet : number;
    defaultBet : number;
    initial : number;
    pauseThreshold : number;
    safetyFactor : number;
    devMode : bool }.

(** The configuration of an empty environment: [HOUSE_EDGE] '0.015',
    [MIN_BET] '10', [MAX_BET] '50000', [INITIAL_BANKROLL] '1000000',
    [PAUSE_THRESHOLD] '100000', [NODE_ENV] unset. *)
Definition default : t :=
  {| maxRoll := 65535;
     houseEdge := 0.015;
     defaultTarget := 32768;
     minBet := parseInt "10";
     maxBet := parseInt "50000";
     defaultBet := 100;
     initial := parseInt "1000000";
     pauseThreshold := parseInt "100000";
     safetyFactor := 3;
     devMode := true |}.

(** [config.game.getMultiplier] *)
Definition getMultiplier (config : t) (target : number) : number :=
  let winProbability := target / (maxRoll config + 1) in
  let fairMultiplier := 1 / winProbability in
  fairMultiplier * (1 - houseEdge config).

(** [config.game.getDynamicMaxBet] *)
Definition getDynamicMaxBet (config : t) (currentBankroll : number)
  : number :=
  let highestMultiplier := getMultiplier config 1 in
  let bankrollLimit :=
    floor (currentBankroll / highestMultiplier / safetyFactor config) in
  min (maxBet config) bankrollLimit.

End Config.

(* ================================================================== *)
(** * dice.js *)
(* ================================================================== *)

Module Dice.

Import JS.

(** The result tag. *)
Inductive outcome := win | loss.

(** The string a result tag is in JavaScript. *)
Definition tag (r : outcome) : string :=
  match r with win => "win" | loss => "loss" end.

(** [commitSeed]: SHA-256 of the seed text, in hexadecimal. *)
Definition commitSeed (serverSeed : string) : string :=
  Bytes.to_hex (SHA256.hash (Bytes.of_string serverSeed)).

(** The first two octets of the HMAC, big-endian, as an integer; the
    digest has thirty-two octets, so the [None] branch is never taken. *)
Definition rollZ (serverSeed clientEntropy : string) : Z :=
  match
    Bytes.readUInt16BE
      (SHA256.hmac (Bytes.of_string serverSeed)
                   (Bytes.of_string clientEntropy))
  with
  | Some v => v
  | None => 0
  end.

(** [generateRoll] *)
Definition generateRoll (serverSeed clientEntropy : string) : number :=
  num_of_Z (rollZ serverSeed clientEntropy).

(** [getMultiplier] *)
Definition getMultiplier (config : Config.t) (target : number) : number :=
  Config.getMultiplier config target.

(** The object [resolveGame] returns. *)
Record game := mkGame
  { roll : number;
    target : number;
    result : outcome;
    betSats : number;
    multiplier : number;
    payoutSats : number;
    serverSeed : string;
    serverSeedHash : string;
    clientEntropy : string }.

(** [resolveGame] *)
Definition resolveGame (config : Config.t)
    (target betSats : number) (serverSeed clientEntropy : string) : game :=
  let roll := generateRoll serverSeed clientEntropy in
  let multiplier := getMultiplier config target in
  let win_ := lt roll target in
  let payoutSats :=
    if win_ then floor (betSats * multiplier)%float else 0%float in
  {| roll := roll;
     target := target;
     result := if win_ then win else loss;
     betSats := betSats;
     multiplier := (round (multiplier * 1000) / 1000)%float;
     payoutSats := payoutSats;
     serverSeed := serverSeed;
     serverSeedHash := commitSeed serverSeed;
     clientEntropy := clientEntropy |}.

(** The five fields [verifyGame] takes from its argument. *)
Record evidence := mkEvidence
  { ev_serverSeed : string;
    ev_serverSeedHash : string;
    ev_clientEntropy : string;
    ev_roll : number;
    ev_target : number }.

(** What [verifyGame] returns: [{verified: false, reason}] or
    [{verified: true, serverSeed, serverSeedHash, clientEntropy,
    computedRoll, target, result}]. *)
Inductive verification :=
| Refuted (reason : string)
| Verified (serverSeed serverSeedHash clientEntropy : string)
           (computedRoll target : number) (result : outcome).

Definition verified (v : verification) : bool :=
  match v with Refuted _ => false | Verified _ _ _ _ _ _ => true end.

(** [verifyGame] *)
Definition verifyGame (e : evidence) : verification :=
  let computedHash := commitSeed (ev_serverSeed e) in
  if negb (String.eqb computedHash (ev_serverSeedHash e)) then
    Refuted "Server seed does not match committed hash"
  else
    let computedRoll :=
      generateRoll (ev_serverSeed e) (ev_clientEntropy e) in
    if strict_ne computedRoll (ev_roll e) then
      Refuted "Roll does not match HMAC computation"
    else
      let expectedResult :=
        if lt (ev_roll e) (ev_target e) then win else loss in
      Verified (ev_serverSeed e) (ev_serverSeedHash e)
               (ev_clientEntropy e) computedRoll (ev_target e)
               expectedResult.

(** The fields of a resolved game that a verifier is given. *)
Definition evidence_of (g : game) : evidence :=
  {| ev_serverSeed := serverSeed g;
     ev_serverSeedHash := serverSeedHash g;
     ev_clientEntropy := clientEntropy g;
     ev_roll := roll g;
     ev_target := target g |}.

(** [generateServerSeed] and [generateDevEntropy]:
    [crypto.randomBytes(32).toString('hex')], where [randomBytes n]
    stands for the octets a call of [crypto.randomBytes(n)] draws. *)
Definition generateServerSeed (randomBytes : nat -> Bytes.buffer) : string :=
  Bytes.to_hex (randomBytes 32%nat).

Definition generateDevEntropy (randomBytes : nat -> Bytes.buffer) : string :=
  Bytes.to_hex (randomBytes 32%nat).

End Dice.

(* ================================================================== *)
(** * db.js: the games table *)
(* ================================================================== *)

Module Db.

Import JS.

(** A row of [games], as [getAsObject] returns it.  [created_at] is set
    by the engine's clock and is left out. *)
Record row := mkRow
  { id : string;
    roll : number;
    target : number;
    result : string;
    bet_sats : number;
    multiplier : number;
    payout_sats : number;
    payout_method : string;
    payout_status : string;
    server_seed : string;
    server_seed_hash : string;
    client_entropy : string;
    player_pubkey : option string }.

(** The table, oldest row first. *)
Definition t := list row.

(** The object [server.js] hands to [saveGame]: a resolved game with an
    identifier and the payout and player fields. *)
Record record := mkRecord
  { rec_id : string;
    rec_game : Dice.game;
    payoutMethod : option string;
    payoutStatus : option string;
    playerPubkey : option string }.

(** [getGame]: the row with that identifier, or [null]. *)
Definition getGame (db : t) (gameId : string) : option row :=
  find (fun r => String.eqb (id r) gameId) db.

(** The values [saveGame] binds to its INSERT. *)
Definition row_of (game : record) : row :=
  let g := rec_game game in
  {| id := rec_id game;
     roll := Dice.roll g;
     target := Dice.target g;
     result := Dice.tag (Dice.result g);
     bet_sats := Dice.betSats g;
     multiplier := Dice.multiplier g;
     payout_sats := Dice.payoutSats g;
     payout_method := or_str (payoutMethod game) "keysend";
     payout_status :=
       or_str (payoutStatus game)
         (match Dice.result g with
          | Dice.loss => "n/a"
          | Dice.win => "pending"
          end);
     server_seed := Dice.serverSeed g;
     server_seed_hash := Dice.serverSeedHash g;
     client_entropy := Dice.clientEntropy g;
     player_pubkey := truthy (playerPubkey game) |}.

(** A bound Number that is NaN is stored as NULL by the engine, which
    the NOT NULL columns refuse. *)
Definition violates_not_null (r : row) : bool :=
  is_nan (roll r) || is_nan (target r) || is_nan (bet_sats r)
  || is_nan (multiplier r) || is_nan (payout_sats r).

(** [saveGame]: one INSERT.  [None] stands for the exception [db.run]
    raises on a constraint (PRIMARY KEY on [id], NOT NULL).  No other
    statement of [db.js] writes to [games].  The [saveDb()] that follows
    the INSERT writes the database file and changes no row; that it may
    raise is followed in [Server.roll_to_file]. *)
Definition saveGame (db : t) (game : record) : option t :=
  let r := row_of game in
  match getGame db (id r) with
  | Some _ => None
  | None => if violates_not_null r then None else Some (db ++ [r])%list
  end.

(** ** Leaderboard *)

(** The integer a stored amount holds.  The aggregates below are taken
    on these integers: they are what the queries return on a ledger
    whose stakes and payouts are whole numbers of sats with totals below
    2^53 ([Books.exact]), which the engine keeps and sums as INTEGER and
    sql.js hands back as the same Numbers.  A fractional amount (summed
    as REAL) or a greater total (rounded in the Number) is outside this
    model: the statements about aggregates assume [Books.exact]. *)
Definition sats (x : number) : Z :=
  match Prim2SF x with
  | S754_finite s m e =>
      let a := if s then Z.neg m else Z.pos m in
      if 0 <=? e then a * 2 ^ e else Z.quot a (2 ^ (- e))
  | _ => 0
  end.

(** One row of the query's result. *)
Record standing := mkStanding
  { st_player : string;
    games : Z;
    total_wagered : Z;
    total_won : Z;
    net_profit : Z;
    biggest_win : Z }.

Definition played_by (p : string) (r : row) : bool :=
  match player_pubkey r with
  | Some q => String.eqb q p
  | None => false
  end.

(** The aggregates of one GROUP BY group. *)
Definition aggregate (db : t) (p : string) : standing :=
  let rows := filter (played_by p) db in
  let wagered := fold_left Z.add (map (fun r => sats (bet_sats r)) rows) 0 in
  let won := fold_left Z.add (map (fun r => sats (payout_sats r)) rows) 0 in
  {| st_player := p;
     games := Z.of_nat (List.length rows);
     total_wagered := wagered;
     total_won := won;
     net_profit := won - wagered;
     biggest_win :=
       match map (fun r => sats (payout_sats r)) rows with
       | [] => 0
       | x :: xs => fold_left Z.max xs x
       end |}.

(** The distinct non-NULL values of [player_pubkey], by first game. *)
Fixpoint players (db : t) (seen : list string) : list string :=
  match db with
  | [] => []
  | r :: rest =>
      match player_pubkey r with
      | Some p =>
          if existsb (String.eqb p) seen then players rest seen
          else p :: players rest (p :: seen)
      | None => players rest seen
      end
  end.

(** The groups of [WHERE player_pubkey IS NOT NULL GROUP BY
    player_pubkey]. *)
Definition groups (db : t) : list standing :=
  map (aggregate db) (players db []).


(** [LIMIT ?]: a negative limit means none. *)
Definition sql_limit {A} (limit : Z) (l : list A) : list A :=
  if limit <? 0 then l else firstn (Z.to_nat limit) l.

(** [GROUP BY player_pubkey]: the engine puts the rows in the order of
    the grouping column, compared octet by octet (the BINARY collation),
    and emits one group per value: the groups come in ascending
    [player_pubkey]. *)
Fixpoint insert_player (p : string) (l : list string) : list string :=
  match l with
  | [] => [p]
  | q :: rest =>
      match String.compare p q with
      | Lt => p :: l
      | _ => q :: insert_player p rest
      end
  end.

Definition grouped (db : t) : list standing :=
  map (aggregate db) (fold_right insert_player [] (players db [])).

(** [ORDER BY net_profit DESC] of a statement with a [LIMIT]: the engine
    keeps the rows in a b-tree keyed by [net_profit], descending, and
    then by the order in which they arrived, so rows of equal
    [net_profit] stay in the order of their groups. *)
Fixpoint insert_ranked (s : standing) (l : list standing) : list standing :=
  match l with
  | [] => [s]
  | x :: rest =>
      if net_profit s <? net_profit x then x :: insert_ranked s rest
      else s :: l
  end.

Definition ranked (l : list standing) : list standing :=
  fold_right insert_ranked [] l.

(** The integer [LIMIT ?] receives for the Number bound to it.  sql.js
    binds a Number as an INTEGER or a REAL, and NaN as NULL; [LIMIT]
    takes a value that is an integer or converts to one without loss,
    and the statement raises ('datatype mismatch') on any other: on NaN,
    on an infinity, on a Number with a fractional part and on one
    outside the 64-bit integers.  [None] stands for that exception. *)
Definition limit_of (limit : number) : option Z :=
  match Prim2SF limit with
  | S754_zero _ => Some 0
  | S754_finite s m e =>
      let a := if s then Z.neg m else Z.pos m in
      if 0 <=? e then
        if Z.abs (a * 2 ^ e) <? 2 ^ 63 then Some (a * 2 ^ e) else None
      else if Z.pos m mod 2 ^ (- e) =? 0 then Some (a / 2 ^ (- e))
      else None
  | _ => None
  end.

(** [getLeaderboard]: the rows of
    [SELECT ... FROM games WHERE player_pubkey IS NOT NULL
     GROUP BY player_pubkey ORDER BY net_profit DESC LIMIT ?],
    or [None] when [db.exec] raises.  A result without rows gives the
    empty list. *)
Definition getLeaderboard (db : t) (limit : number)
  : option (list standing) :=
  match limit_of limit with
  | Some n => Some (sql_limit n (ranked (grouped db)))
  | None => None
  end.

(** ** Identifiers and statistics *)

(** [generateGameId]: ['g_' + crypto.randomBytes(4).toString('hex')],
    where [randomBytes n] stands for the octets a call of
    [crypto.randomBytes(n)] draws. *)
Definition generateGameId (randomBytes : nat -> Bytes.buffer) : string :=
  "g_" ++ Bytes.to_hex (randomBytes 4%nat).

(** The object [getStats] returns, without [last_24h], which compares
    [created_at] with the engine's clock. *)
Record stats := mkStats
  { total_games : Z;
    total_wagered_sats : Z;
    total_paid_out_sats : Z;
    house_profit_sats : Z;
    unique_players : Z;
    biggest_win_sats : Z }.

(** [getStats]: [COUNT( * )], [COALESCE(SUM(bet_sats), 0)],
    [COALESCE(SUM(payout_sats), 0)], [COUNT(DISTINCT player_pubkey)] and
    [COALESCE(MAX(payout_sats), 0)] over the whole table, and the
    difference [t[1] - t[2]].  As for the leaderboard the amounts are
    whole sats and the aggregates are taken on their integer values,
    which is what the Numbers of the result hold below 2^53. *)
Definition getStats (db : t) : stats :=
  let wagered := fold_left Z.add (map (fun r => sats (bet_sats r)) db) 0 in
  let paid := fold_left Z.add (map (fun r => sats (payout_sats r)) db) 0 in
  {| total_games := Z.of_nat (List.length db);
     total_wagered_sats := wagered;
     total_paid_out_sats := paid;
     house_profit_sats := wagered - paid;
     unique_players := Z.of_nat (List.length (players db []));
     biggest_win_sats :=
       match map (fun r => sats (payout_sats r)) db with
       | [] => 0
       | x :: xs => fold_left Z.max xs x
       end |}.

End Db.

(* ================================================================== *)
(** * payout.js *)
(* ================================================================== *)

Module Payout.

(** [sendPayout]: in development the stub answers [status: 'sent']; in
    production the function throws.  [inr] carries the error message. *)
Definition sendPayout (config : Config.t) : string + string :=
  if Config.devMode config then inl "sent"
  else inr ("Production LND payouts not yet implemented. "
            ++ "Set NODE_ENV=development to use stub payouts.").

End Payout.

(* ================================================================== *)
(** * server.js *)
(* ================================================================== *)

Module Server.

Import JS.

(** What the handlers read of an Express request in which each query
    parameter is absent or given once, so that Express hands it over as
    a string.  A parameter given several times reaches the handler as
    an array; such requests are not among these. *)
Record request := mkRequest
  { q_target : option string;      (* req.query.target *)
    q_bet : option string;         (* req.query.bet *)
    q_payout : option string;      (* req.query.payout *)
    q_pubkey : option string;      (* req.query.pubkey *)
    h_authorization : option string;
    h_x_player_pubkey : option string }.

(** The values one request draws from [crypto.randomBytes]. *)
Record draws := mkDraws
  { fresh_seed : string;           (* generateServerSeed() *)
    fresh_entropy : string;        (* generateDevEntropy() *)
    fresh_id : string }.           (* generateGameId() *)

(** The JSON of a successful [/roll]; [win_probability] and [timestamp]
    are presentation and are left out. *)
Record roll_body := mkRollBody
  { game_id : string;
    roll : number;
    target : number;
    result : Dice.outcome;
    bet_sats : number;
    multiplier : number;
    payout_sats : number;
    payout_method : string;
    payout_status : string;
    server_seed : string;
    server_seed_hash : string;
    client_entropy : string;
    verify_url : string }.

(** The JSON of a successful [/verify/:gameId], without [created_at] and
    the fixed [how_to_verify] text. *)
Record verify_body := mkVerifyBody
  { v_game_id : string;
    v_verification : Dice.verification;
    v_bet_sats : number;
    v_payout_sats : number;
    v_multiplier : number }.

(** A response: an error with its status and [error] code, or one of the
    two bodies with status 200. *)
Inductive response :=
| Failure (status : Z) (error : string)
| Rolled (body : roll_body)
| Checked (body : verify_body).

Definition status_of (r : response) : Z :=
  match r with Failure s _ => s | _ => 200 end.

(** The last element of [s.split(':')] when there are at least two. *)
Fixpoint after_last_colon (s : string) : option string :=
  match s with
  | EmptyString => None
  | String c rest =>
      match after_last_colon rest with
      | Some tail => Some tail
      | None => if Ascii.eqb c ":" then Some rest else None
      end
  end.

(** [extractClientEntropy] *)
Definition extractClientEntropy (config : Config.t) (rnd : draws)
    (req : request) : option string :=
  let from_header :=
    match h_authorization req with
    | Some authHeader =>
        if startsWith "L402 " authHeader then
          match after_last_colon authHeader with
          | Some last => Some (trim last)
          | None => None
          end
        else None
    | None => None
    end in
  match from_header with
  | Some e => Some e
  | None => if Config.devMode config then Some (fresh_entropy rnd) else None
  end.

(** [extractPlayerPubkey] *)
Definition extractPlayerPubkey (req : request) : option string :=
  or_opt (h_x_player_pubkey req) (truthy (q_pubkey req)).

(** [parseInt(q || d)] for a query value [q] and a default [d] that is a
    whole Number, which [parseInt] gives back unchanged. *)
Definition parse_or (q : option string) (d : number) : number :=
  match truthy q with
  | Some s => parseInt s
  | None => d
  end.

(** [app.get('/roll', ...)]: the response and the table afterwards. *)
Definition roll_handler (config : Config.t) (rnd : draws) (req : request)
    (db : Db.t) : response * Db.t :=
  let target := parse_or (q_target req) (Config.defaultTarget config) in
  let betSats := parse_or (q_bet req) (Config.defaultBet config) in
  let payoutMethod := or_str (q_payout req) "keysend" in
  if lt target 1%float || gt target (Config.maxRoll config) then
    (Failure 400 "invalid_target", db)
  else if lt betSats (Config.minBet config)
          || gt betSats (Config.maxBet config) then
    (Failure 400 "invalid_bet", db)
  else
    match truthy (extractClientEntropy config rnd req) with
    | None => (Failure 402 "payment_required", db)
    | Some clientEntropy =>
        let serverSeed := fresh_seed rnd in
        let gameResult :=
          Dice.resolveGame config target betSats serverSeed clientEntropy in
        let gameId := fresh_id rnd in
        let playerPubkey := extractPlayerPubkey req in
        let initialStatus :=
          match Dice.result gameResult with
          | Dice.loss => "n/a"
          | Dice.win => "pending"
          end in
        let gameRecord :=
          {| Db.rec_id := gameId;
             Db.rec_game := gameResult;
             Db.payoutMethod := Some payoutMethod;
             Db.payoutStatus := Some initialStatus;
             Db.playerPubkey := playerPubkey |} in
        match Db.saveGame db gameRecord with
        | None => (Failure 500 "internal", db)
        | Some db' =>
            (* the payout: [gameRecord.payoutStatus] is assigned, and
               nothing is written to the table *)
            let finalStatus :=
              match Dice.result gameResult with
              | Dice.win =>
                  if gt (Dice.payoutSats gameResult) 0%float then
                    match Payout.sendPayout config with
                    | inl _ => "sent"
                    | inr _ => "failed"
                    end
                  else initialStatus
              | Dice.loss => initialStatus
              end in
            (Rolled
               {| game_id := gameId;
                  roll := Dice.roll gameResult;
                  target := target;
                  result := Dice.result gameResult;
                  bet_sats := betSats;
                  multiplier := Dice.multiplier gameResult;
                  payout_sats := Dice.payoutSats gameResult;
                  payout_method := payoutMethod;
                  payout_status := finalStatus;
                  server_seed := Dice.serverSeed gameResult;
                  server_seed_hash := Dice.serverSeedHash gameResult;
                  client_entropy := Dice.clientEntropy gameResult;
                  verify_url := "/verify/" ++ gameId |},
             db')
        end
    end.

(** The argument of the call [verifyGame({serverSeed: game.server_seed,
    ...})] in the [/verify] handler. *)
Definition evidence_of_row (game : Db.row) : Dice.evidence :=
  {| Dice.ev_serverSeed := Db.server_seed game;
     Dice.ev_serverSeedHash := Db.server_seed_hash game;
     Dice.ev_clientEntropy := Db.client_entropy game;
     Dice.ev_roll := Db.roll game;
     Dice.ev_target := Db.target game |}.

(** [app.get('/verify/:gameId', ...)] *)
Definition verify_handler (gameId : string) (db : Db.t) : response :=
  match Db.getGame db gameId with
  | None => Failure 404 "not_found"
  | Some game =>
      Checked
        {| v_game_id := gameId;
           v_verification := Dice.verifyGame (evidence_of_row game);
           v_bet_sats := Db.bet_sats game;
           v_payout_sats := Db.payout_sats game;
           v_multiplier := Db.multiplier game |}
  end.

(** One line of the payout table of [/odds]; [win_probability], a text,
    is left out. *)
Record odds_row := mkOddsRow
  { o_target : number;
    o_multiplier : number;
    o_example_bet_100 : number }.

Definition odds_targets : list number :=
  [1000; 4096; 8192; 16384; 32768; 49152; 56000; 60000; 64000]%float.

(** [app.get('/odds', ...)]: the [payout_table] of the response. *)
Definition odds_handler (config : Config.t) : list odds_row :=
  map (fun target =>
         let multiplier := Dice.getMultiplier config target in
         {| o_target := target;
            o_multiplier := (round (multiplier * 1000) / 1000)%float;
            o_example_bet_100 := floor (100 * multiplier)%float |})
      odds_targets.

(** [Math.min(parseInt(req.query.limit || '20'), 100)]: the limit that
    [/leaderboard] and [/recent] hand to their query. *)
Definition page_limit (q_limit : option string) : number :=
  JS.min (parseInt (or_str q_limit "20")) 100%float.



End Server.

(* ================================================================== *)
(** * Vocabulary of the statements *)
(* ================================================================== *)

Module Binary64.

(** [y] is [+Infinity] or a positive normal Number [m * 2^e] with a
    53-digit mantissa and exponent at least [emin]. *)
Definition normal_positive (y : float) (emin : Z) : Prop :=
  Prim2SF y = S754_infinity false
  \/ exists m e,
       Prim2SF y = S754_finite false m e
       /\ 2 ^ 52 <= Z.pos m < 2 ^ 53 /\ emin <= e.

(** The rational a finite Number stands for. *)
Definition exact (x : float) : option Q :=
  match Prim2SF x with
  | S754_zero _ => Some 0%Q
  | S754_finite s m e =>
      let a := if s then Z.neg m else Z.pos m in
      Some (if 0 <=? e then inject_Z (a * 2 ^ e)
            else (a # Z.to_pos (2 ^ (- e)))%Q)
  | _ => None
  end.

(** [x] is within the relative distance [2^-50] of the rational [q]. *)
Definition close (x : float) (q : Q) : bool :=
  match exact x with
  | Some v => Qle_bool (Qabs (v - q)) (q * (1 # 2 ^ 50))
  | None => false
  end.

(** [all_in d f lo]: [f] holds of the [2 ^ d] integers from [lo] on. *)
Fixpoint all_in (d : nat) (f : Z -> bool) (lo : Z) : bool :=
  match d with
  | O => f lo
  | S k => all_in k f lo && all_in k f (lo + 2 ^ Z.of_nat k)
  end.

End Binary64.

Module Pricing.

(** The multiplier as the specification writes it, over the rationals:
    [(1 / (threshold / 65536)) * (1 - houseEdge)]. *)
Definition multiplier_formula (houseEdge : Q) (threshold : Z) : Q :=
  ((1 / (inject_Z threshold / 65536)) * (1 - houseEdge))%Q.

(** The multiplier of threshold [t] is a normal Number not below 1/2. *)
Definition multiplier_normal (t : Z) : bool :=
  match Prim2SF (Config.getMultiplier Config.default (JS.num_of_Z t)) with
  | S754_finite false m e =>
      (2 ^ 52 <=? Z.pos m) && (Z.pos m <? 2 ^ 53) && (-53 <=? e)
  | _ => false
  end.

(** The multiplier of threshold [t] is close to the formula at house edge
    15/1000. *)
Definition multiplier_close (t : Z) : bool :=
  Binary64.close (Config.getMultiplier Config.default (JS.num_of_Z t))
                 (multiplier_formula (15 # 1000) t).

End Pricing.

Module Sample.

(** A server seed and a client entropy whose roll is 28441. *)
Definition seed : string :=
  "0ebc7f868ce3f2c192abdfd239f982e0341e7a0c17731c6336f747421307ba70".
Definition entropy : string :=
  "ba44a0da0eaf108defaf78c6c0ede823c7b08c5c4a163f5ad69f9bea27b157d4".

Definition draws (id : string) : Server.draws :=
  {| Server.fresh_seed := seed;
     Server.fresh_entropy := entropy;
     Server.fresh_id := id |}.

(** [GET /roll?target=T&bet=B&pubkey=P] with no header. *)
Definition get_roll (target bet pubkey : option string) : Server.request :=
  {| Server.q_target := target;
     Server.q_bet := bet;
     Server.q_payout := None;
     Server.q_pubkey := pubkey;
     Server.h_authorization := None;
     Server.h_x_player_pubkey := None |}.

(** The same request behind the L402 proxy, the entropy in its header. *)
Definition paid_roll (target bet pubkey : option string) : Server.request :=
  {| Server.q_target := target;
     Server.q_bet := bet;
     Server.q_payout := None;
     Server.q_pubkey := pubkey;
     Server.h_authorization := Some ("L402 AgEDbG5k:" ++ entropy);
     Server.h_x_player_pubkey := None |}.

(** The default configuration with [NODE_ENV=production]. *)
Definition production : Config.t :=
  {| Config.maxRoll := Config.maxRoll Config.default;
     Config.houseEdge := Config.houseEdge Config.default;
     Config.defaultTarget := Config.defaultTarget Config.default;
     Config.minBet := Config.minBet Config.default;
     Config.maxBet := Config.maxBet Config.default;
     Config.defaultBet := Config.defaultBet Config.default;
     Config.initial := Config.initial Config.default;
     Config.pauseThreshold := Config.pauseThreshold Config.default;
     Config.safetyFactor := Config.safetyFactor Config.default;
     Config.devMode := false |}.

(** A record whose commitment is the hash of another text, and one whose
    roll was changed from 28441 to 28442. *)
Definition forged : Dice.evidence :=
  {| Dice.ev_serverSeed := seed;
     Dice.ev_serverSeedHash := Dice.commitSeed entropy;
     Dice.ev_clientEntropy := entropy;
     Dice.ev_roll := 28441%float;
     Dice.ev_target := 32768%float |}.

Definition altered : Dice.evidence :=
  {| Dice.ev_serverSeed := seed;
     Dice.ev_serverSeedHash := Dice.commitSeed seed;
     Dice.ev_clientEntropy := entropy;
     Dice.ev_roll := 28442%float;
     Dice.ev_target := 32768%float |}.

Definition honest : Dice.evidence :=
  Dice.evidence_of
    (Dice.resolveGame Config.default 32768%float 100%float seed entropy).

(** The table after two requests, each a lost game of 100 sats, by "bob"
    and then by "alice". *)
Definition after_bob : Db.t :=
  snd (Server.roll_handler Config.default (draws "g_0000000b")
         (get_roll (Some "1000") (Some "100") (Some "bob")) []).

Definition ledger : Db.t :=
  snd (Server.roll_handler Config.default (draws "g_0000000a")
         (get_roll (Some "1000") (Some "100") (Some "alice")) after_bob).

Definition bob : Db.standing := Db.mkStanding "bob" 1 100 0 (-100) 0.
Definition alice : Db.standing := Db.mkStanding "alice" 1 100 0 (-100) 0.

End Sample.

Module Ledger.



(** A stored row with its result, payout and multiplier overwritten. *)
Definition with_outcome (r : Db.row) (result : string)
    (payout_sats multiplier : JS.number) : Db.row :=
  {| Db.id := Db.id r;
     Db.roll := Db.roll r;
     Db.target := Db.target r;
     Db.result := result;
     Db.bet_sats := Db.bet_sats r;
     Db.multiplier := multiplier;
     Db.payout_sats := payout_sats;
     Db.payout_method := Db.payout_method r;
     Db.payout_status := Db.payout_status r;
     Db.server_seed := Db.server_seed r;
     Db.server_seed_hash := Db.server_seed_hash r;
     Db.client_entropy := Db.client_entropy r;
     Db.player_pubkey := Db.player_pubkey r |}.

End Ledger.

Module Hex.

(** A lower-case hexadecimal digit. *)
Definition digit (c : ascii) : bool :=
  let b := Bytes.of_ascii c in
  ((48 <=? b) && (b <=? 57)) || ((97 <=? b) && (b <=? 102)).

Fixpoint text (s : string) : bool :=
  match s with
  | EmptyString => true
  | String c rest => digit c && text rest
  end.

(** The value of a hexadecimal digit. *)
Definition value (c : ascii) : Z :=
  let b := Bytes.of_ascii c in
  if b <=? 57 then b - 48 else b - 87.

(** Every element is an octet. *)
Definition octets (bs : Bytes.buffer) : Prop :=
  Forall (fun b => 0 <= b < 256) bs.

(** What [crypto.randomBytes] promises: as many octets as were asked
    for. *)
Definition source (randomBytes : nat -> Bytes.buffer) : Prop :=
  forall n, List.length (randomBytes n) = n /\ octets (randomBytes n).

End Hex.

Module Odds.

(** A normal positive Number as an integer that grows with it: the
    exponent above the 53-digit mantissa. *)
Definition key (x : float) : option Z :=
  match Prim2SF x with
  | S754_finite false m e =>
      if (2 ^ 52 <=? Z.pos m) && (Z.pos m <? 2 ^ 53)
      then Some (e * 2 ^ 53 + Z.pos m) else None
  | _ => None
  end.

(** The multiplier is normal at thresholds [t] and [t + 1] and smaller
    at [t + 1]. *)
Definition falls_at (t : Z) : bool :=
  match key (Config.getMultiplier Config.default (JS.num_of_Z t)),
        key (Config.getMultiplier Config.default (JS.num_of_Z (t + 1)))
  with
  | Some a, Some b => b <? a
  | _, _ => false
  end.

End Odds.

Module Traffic.

(** The table after a run of [/roll] requests, each with the values it
    draws. *)
Fixpoint serve (config : Config.t)
    (calls : list (Server.draws * Server.request)) (db : Db.t) : Db.t :=
  match calls with
  | [] => db
  | (rnd, req) :: rest =>
      serve config rest (snd (Server.roll_handler config rnd req db))
  end.

(** A row of the ledger is sound when it passes [verifyGame], its result
    is the one its roll and target give, no Number in it is NaN, its
    payout status is the one a game is inserted with, and a lost game
    pays nothing. *)
Definition sound (r : Db.row) : Prop :=
  Dice.verified (Dice.verifyGame (Server.evidence_of_row r)) = true
  /\ Db.result r
     = Dice.tag (if JS.lt (Db.roll r) (Db.target r)
                 then Dice.win else Dice.loss)
  /\ Db.violates_not_null r = false
  /\ Db.payout_status r
     = (if JS.lt (Db.roll r) (Db.target r) then "pending" else "n/a")
  /\ (JS.lt (Db.roll r) (Db.target r) = false ->
      Db.payout_sats r = 0%float).

(** No colon in the text. *)
Fixpoint colon_free (s : string) : bool :=
  match s with
  | EmptyString => true
  | String c rest => negb (Ascii.eqb c ":") && colon_free rest
  end.

(** Text that the table gives back as it was stored: sql.js reads a
    TEXT column up to the first character U+0000, so it is text without
    that character. *)
Fixpoint kept (s : string) : bool :=
  match s with
  | EmptyString => true
  | String c rest => negb (Ascii.eqb c Ascii.zero) && kept rest
  end.

(** A request whose [payout] and [pubkey] parameters and
    [x-player-pubkey] header are absent or such text. *)
Definition plain (req : Server.request) : bool :=
  match Server.q_payout req with Some s => kept s | None => true end
  && match Server.q_pubkey req with Some s => kept s | None => true end
  && match Server.h_x_player_pubkey req with
     | Some s => kept s
     | None => true
     end.

(** The game settings of [config] are those of the default
    configuration; [devMode] is free. *)
Definition default_game (config : Config.t) : Prop :=
  Config.maxRoll config = Config.maxRoll Config.default
  /\ Config.houseEdge config = Config.houseEdge Config.default
  /\ Config.defaultTarget config = Config.defaultTarget Config.default
  /\ Config.minBet config = Config.minBet Config.default
  /\ Config.maxBet config = Config.maxBet Config.default
  /\ Config.defaultBet config = Config.defaultBet Config.default.

End Traffic.

Module Books.

(** A Number that is a whole number of sats. *)
Definition whole (x : JS.number) : bool :=
  (JS.num_of_Z (Db.sats x) =? x)%float.

(** A ledger on which the integer aggregates of the model are the
    Numbers the queries return: every stake and every payout is a whole
    number of sats, and their absolute values add up to less than 2^53,
    so that the engine keeps every amount and every sum as an INTEGER
    and no Number is rounded. *)
Definition exact (db : Db.t) : bool :=
  forallb (fun r => whole (Db.bet_sats r) && whole (Db.payout_sats r)) db
  && (fold_left Z.add
        (map (fun r => Z.abs (Db.sats (Db.bet_sats r))
                       + Z.abs (Db.sats (Db.payout_sats r))) db) 0
      <? 2 ^ 53).

(** A row as [/roll] writes it under the default limits: a whole stake
    from 10 to 50000 and a whole payout below 2^33. *)
Definition modest (r : Db.row) : Prop :=
  exists b k,
    Db.bet_sats r = JS.num_of_Z b /\ 10 <= b <= 50000
    /\ Db.payout_sats r = JS.num_of_Z k /\ 0 <= k < 2 ^ 33.

End Books.

(* ================================================================== *)
(** * Test vectors *)
(* ================================================================== *)

(** FIPS 180-4, "abc" and the empty message. *)
Example sha256_abc :
  Bytes.to_hex (SHA256.hash (Bytes.of_string "abc"))
  = "ba7816bf8f01cfea414140de5dae2223b00361a396177a9cb410ff61f20015ad".
Proof. vm_compute. reflexivity. Qed.

Example sha256_empty :
  Bytes.to_hex (SHA256.hash [])
  = "e3b0c44298fc1c149afbf4c8996fb92427ae41e4649b934ca495991b7852b855".
Proof. vm_compute. reflexivity. Qed.

(** RFC 4231, test case 2. *)
Example hmac_rfc4231_2 :
  Bytes.to_hex
    (SHA256.hmac (Bytes.of_string "Jefe")
                 (Bytes.of_string "what do ya want for nothing?"))
  = "5bdcc146bf60754e6a042426089575c75a003f089d2739839dec58b964ec3843".
Proof. vm_compute. reflexivity. Qed.

Example parseInt_examples :
  JS.parseInt "32768" = 32768%float
  /\ JS.parseInt " 12abc" = 12%float
  /\ JS.parseInt "1.5" = 1%float
  /\ JS.parseInt "0x10" = 16%float
  /\ JS.parseInt "-7" = (-7)%float
  /\ is_nan (JS.parseInt "abc") = true
  /\ is_nan (JS.parseInt "") = true.
Proof. vm_compute. repeat split; reflexivity. Qed.

Example floor_round_examples :
  (JS.floor 197.00000000000003 = 197
   /\ JS.floor (-0.5) = (-1) /\ JS.floor 0.5 = 0
   /\ JS.round 1969.9999999999998 = 1970 /\ JS.round 2.5 = 3
   /\ JS.round (-2.5) = (-2))%float.
Proof. vm_compute. repeat split; reflexivity. Qed.

(** The scenario of the specification: roll 28441, threshold 32768, stake
    100 is a win paid 197 at multiplier 1.97; threshold 1000 is a loss. *)
Example sample_roll : Dice.rollZ Sample.seed Sample.entropy = 28441.
Proof. vm_compute. reflexivity. Qed.

Example scenario_win :
  let g := Dice.resolveGame Config.default 32768%float 100%float
             Sample.seed Sample.entropy in
  Dice.result g = Dice.win /\ Dice.multiplier g = 1.97%float
  /\ Dice.payoutSats g = 197%float.
Proof. vm_compute. repeat split; reflexivity. Qed.

Example scenario_loss :
  let g := Dice.resolveGame Config.default 1000%float 100%float
             Sample.seed Sample.entropy in
  Dice.result g = Dice.loss /\ Dice.payoutSats g = 0%float.
Proof. vm_compute. repeat split; reflexivity. Qed.

(* ================================================================== *)
(** * Binary64 arithmetic *)
(* ================================================================== *)

(** [digits2_pos] counts the binary digits. *)
Lemma digits2_bounds (p : positive) :
  2 ^ (Z.pos (digits2_pos p) - 1) <= Z.pos p < 2 ^ Z.pos (digits2_pos p).
Proof.
  induction p as [p IH | p IH | ]; cbn [digits2_pos].
  - rewrite Pos2Z.inj_succ.
    replace (Z.succ (Z.pos (digits2_pos p)) - 1) with
      (Z.succ (Z.pos (digits2_pos p) - 1)) by lia.
    rewrite !Z.pow_succ_r by lia. lia.
  - rewrite Pos2Z.inj_succ.
    replace (Z.succ (Z.pos (digits2_pos p)) - 1) with
      (Z.succ (Z.pos (digits2_pos p) - 1)) by lia.
    rewrite !Z.pow_succ_r by lia. lia.
  - cbn. lia.
Qed.

(** Conversely, bounds by powers of two give the digit count. *)
Lemma digits2_unique (p : positive) (d : Z) :
  2 ^ (d - 1) <= Z.pos p < 2 ^ d -> Z.pos (digits2_pos p) = d.
Proof.
  intros [Hlo Hhi]. pose proof (digits2_bounds p) as [Blo Bhi].
  assert (0 < d).
  { destruct (Z_lt_le_dec 0 d) as [|Hd]; [assumption|].
    assert (2 ^ d <= 2 ^ 0) by (apply Z.pow_le_mono_r; lia).
    change (2 ^ 0) with 1 in *. lia. }
  assert (Z.pos (digits2_pos p) - 1 < d).
  { apply (Z.pow_lt_mono_r_iff 2); lia. }
  assert (d - 1 < Z.pos (digits2_pos p)).
  { apply (Z.pow_lt_mono_r_iff 2); lia. }
  lia.
Qed.

Lemma shr_1_half (r : shr_record) :
  0 <= shr_m r -> shr_m (shr_1 r) = shr_m r / 2.
Proof.
  destruct r as [m r s]; cbn [shr_m]. intros Hm.
  destruct m as [ | [p | p | ] | p ]; cbn [shr_1 shr_m]; try lia.
  - reflexivity.
  - rewrite Pos2Z.inj_xI. apply Z.div_unique with (r := 1); lia.
  - rewrite Pos2Z.inj_xO. apply Z.div_unique with (r := 0); lia.
  - reflexivity.
Qed.

Lemma shr_1_nonneg (r : shr_record) : 0 <= shr_m r -> 0 <= shr_m (shr_1 r).
Proof.
  intros H. rewrite shr_1_half by assumption. apply Z.div_pos; lia.
Qed.

(** Shifting right [n] times divides the mantissa by [2 ^ n]. *)
Lemma iter_shr_1 (n : positive) :
  forall r, 0 <= shr_m r ->
    shr_m (SpecFloat.iter_pos shr_1 n r) = shr_m r / 2 ^ Z.pos n.
Proof.
  induction n as [n IH | n IH | ]; intros r Hr; cbn [SpecFloat.iter_pos].
  - assert (H1 : 0 <= shr_m (shr_1 r)) by (apply shr_1_nonneg; assumption).
    assert (H2 : 0 <= shr_m (SpecFloat.iter_pos shr_1 n (shr_1 r))).
    { rewrite IH by assumption. apply Z.div_pos; lia. }
    rewrite IH by assumption. rewrite IH by assumption.
    rewrite shr_1_half by assumption.
    rewrite !Z.div_div by lia.
    replace (Z.pos n~1) with (1 + Z.pos n + Z.pos n) by lia.
    rewrite !Z.pow_add_r by lia. f_equal. change (2 ^ 1) with 2. ring.
  - assert (H2 : 0 <= shr_m (SpecFloat.iter_pos shr_1 n r)).
    { rewrite IH by assumption. apply Z.div_pos; lia. }
    rewrite IH by assumption. rewrite IH by assumption.
    rewrite !Z.div_div by lia.
    replace (Z.pos n~0) with (Z.pos n + Z.pos n) by lia.
    rewrite Z.pow_add_r by lia. reflexivity.
  - rewrite shr_1_half by assumption. reflexivity.
Qed.

Lemma shr_m_of_loc (m : Z) (l : location) :
  shr_m (shr_record_of_loc m l) = m.
Proof. destruct l as [ | [ | | ] ]; reflexivity. Qed.

(** The first step of rounding a mantissa of at least 53 digits keeps
    exactly its 53 leading digits. *)
Lemma shr_fexp_normal (p : positive) (e : Z) (l : location) :
  let d := Z.pos (digits2_pos p) in
  53 <= d -> -1074 <= e + d - 53 ->
  exists r,
    shr_fexp prec emax (Z.pos p) e l = (r, e + d - 53)
    /\ shr_m r = Z.pos p / 2 ^ (d - 53)
    /\ 2 ^ 52 <= shr_m r < 2 ^ 53.
Proof.
  intros d Hd He.
  pose proof (digits2_bounds p) as [Blo Bhi]. fold d in Blo, Bhi.
  assert (Hpow : 2 ^ (d - 1) = 2 ^ 52 * 2 ^ (d - 53)).
  { rewrite <- Z.pow_add_r by lia. f_equal. lia. }
  assert (Hpow' : 2 ^ d = 2 ^ 53 * 2 ^ (d - 53)).
  { rewrite <- Z.pow_add_r by lia. f_equal. lia. }
  assert (Hpos : 0 < 2 ^ (d - 53)) by (apply Z.pow_pos_nonneg; lia).
  assert (Hq : 2 ^ 52 <= Z.pos p / 2 ^ (d - 53) < 2 ^ 53).
  { split.
    - apply Z.div_le_lower_bound; [lia|]. rewrite Z.mul_comm. lia.
    - apply Z.div_lt_upper_bound; [lia|]. rewrite Z.mul_comm. lia. }
  unfold shr_fexp. cbn [Zdigits2]. fold d.
  assert (Hf : fexp prec emax (d + e) - e = d - 53).
  { unfold fexp, SpecFloat.emin, prec, emax. lia. }
  rewrite Hf. unfold shr.
  destruct (d - 53) as [ | n | n ] eqn:Hn; try lia.
  - exists (shr_record_of_loc (Z.pos p) l). rewrite shr_m_of_loc.
    rewrite Z.pow_0_r, Z.div_1_r in *. repeat split; try lia.
    f_equal. lia.
  - exists (SpecFloat.iter_pos shr_1 n (shr_record_of_loc (Z.pos p) l)).
    rewrite iter_shr_1 by (rewrite shr_m_of_loc; lia).
    rewrite shr_m_of_loc. repeat split; try lia.
    f_equal. lia.
Qed.

Lemma round_nearest_even_bounds (m : Z) (l : location) :
  m <= round_nearest_even m l <= m + 1.
Proof.
  destruct l as [ | [ | | ] ]; cbn [round_nearest_even]; try lia.
  destruct (Z.even m); lia.
Qed.

(** Rounding a positive mantissa of at least 53 digits gives a normal
    Number, no smaller in exponent, or overflows to [+Infinity]. *)
Lemma round_aux_normal (p : positive) (e : Z) (l : location) :
  let d := Z.pos (digits2_pos p) in
  53 <= d -> -1074 <= e + d - 53 ->
  binary_round_aux prec emax false (Z.pos p) e l = S754_infinity false
  \/ exists m e',
       binary_round_aux prec emax false (Z.pos p) e l
       = S754_finite false m e'
       /\ 2 ^ 52 <= Z.pos m < 2 ^ 53
       /\ e + d - 53 <= e'.
Proof.
  intros d Hd He. unfold binary_round_aux.
  destruct (shr_fexp_normal p e l Hd He) as (r1 & -> & _ & Hr1).
  fold d.
  cbv beta iota.
  pose proof (round_nearest_even_bounds (shr_m r1) (loc_of_shr_record r1))
    as Hrne.
  destruct (round_nearest_even (shr_m r1) (loc_of_shr_record r1))
    as [ | p2 | p2 ] eqn:Hm2; try lia.
  assert (Hd2 : 53 <= Z.pos (digits2_pos p2)).
  { pose proof (digits2_bounds p2) as [_ Bhi].
    destruct (Z_lt_le_dec (Z.pos (digits2_pos p2)) 53) as [Hlt|]; [|lia].
    assert (2 ^ Z.pos (digits2_pos p2) <= 2 ^ 52)
      by (apply Z.pow_le_mono_r; lia).
    lia. }
  destruct (shr_fexp_normal p2 (e + d - 53) loc_Exact Hd2 ltac:(lia))
    as (r2 & -> & _ & Hr2).
  cbv beta iota.
  destruct (shr_m r2) as [ | m | m ] eqn:Hm; try lia.
  destruct (_ <=? _); [right | left; reflexivity].
  exists m, (e + d - 53 + Z.pos (digits2_pos p2) - 53).
  repeat split; try lia.
Qed.

(** A mantissa of exactly 53 digits within the exponent range is
    already a Number. *)
Lemma round_aux_exact (p : positive) (e : Z) :
  Z.pos (digits2_pos p) = 53 -> -1074 <= e <= 971 ->
  binary_round_aux prec emax false (Z.pos p) e loc_Exact
  = S754_finite false p e.
Proof.
  intros Hd He. unfold binary_round_aux, shr_fexp. cbn [Zdigits2].
  rewrite Hd.
  assert (Hf : fexp prec emax (53 + e) - e = 0).
  { unfold fexp, SpecFloat.emin, prec, emax. lia. }
  rewrite Hf. cbn [shr shr_record_of_loc shr_m loc_of_shr_record
                   round_nearest_even Zdigits2].
  rewrite Hd, Hf. cbn [shr shr_record_of_loc shr_m].
  unfold emax, prec. destruct (Z.leb_spec e (1024 - 53)); [reflexivity|lia].
Qed.

Lemma iter_xO_value (k p : positive) :
  Z.pos (Pos.iter xO p k) = Z.pos p * 2 ^ Z.pos k.
Proof.
  induction k as [ | k IH ] using Pos.peano_ind.
  - cbn [Pos.iter]. rewrite Pos2Z.inj_xO. change (2 ^ 1) with 2. lia.
  - rewrite Pos.iter_succ, Pos2Z.inj_xO, IH, Pos2Z.inj_succ.
    rewrite Z.pow_succ_r by lia. ring.
Qed.

Lemma iter_xO_digits (k p : positive) :
  Z.pos (digits2_pos (Pos.iter xO p k))
  = Z.pos (digits2_pos p) + Z.pos k.
Proof.
  induction k as [ | k IH ] using Pos.peano_ind.
  - cbn [Pos.iter digits2_pos]. lia.
  - rewrite Pos.iter_succ. cbn [digits2_pos].
    rewrite Pos2Z.inj_succ, IH. lia.
Qed.

(** The Number of a positive integer below 2^53 is that integer,
    written with a 53-digit mantissa. *)
Lemma Prim2SF_num_of_pos (q : positive) :
  Z.pos q < 2 ^ 53 ->
  exists m e,
    Prim2SF (JS.num_of_Z (Z.pos q)) = S754_finite false m e
    /\ 2 ^ 52 <= Z.pos m < 2 ^ 53
    /\ -52 <= e <= 0
    /\ Z.pos m = Z.pos q * 2 ^ (- e).
Proof.
  intros Hq. unfold JS.num_of_Z.
  replace (Z.abs (Z.pos q) <? 2 ^ 62) with true
    by (symmetry; apply Z.ltb_lt; cbn [Z.abs]; lia).
  replace (Z.pos q <? 0) with false by (symmetry; apply Z.ltb_ge; lia).
  rewrite of_uint63_spec, Uint63.of_Z_spec.
  rewrite Z.mod_small by (change wB with (2 ^ 63); lia).
  cbn [binary_normalize]. unfold binary_round.
  pose proof (digits2_bounds q) as [Blo Bhi].
  set (d := Z.pos (digits2_pos q)) in *.
  assert (Hd : 1 <= d <= 53).
  { split; [subst d; lia|].
    destruct (Z_lt_le_dec 53 d) as [Hlt|]; [|lia].
    assert (2 ^ 53 <= 2 ^ (d - 1)) by (apply Z.pow_le_mono_r; lia). lia. }
  assert (Hf : fexp prec emax (d + 0) = d - 53).
  { unfold fexp, SpecFloat.emin, prec, emax. lia. }
  rewrite Hf. unfold shl_align.
  destruct (d - 53 - 0) as [ | k | k ] eqn:Hk; try lia.
  - rewrite round_aux_exact by (fold d; lia).
    exists q, 0. change (2 ^ (- 0)) with 1.
    assert (d = 53) by lia.
    replace (d - 1) with 52 in Blo by lia. replace d with 53 in Bhi by lia.
    repeat split; lia.
  - assert (Hdig : Z.pos (digits2_pos (Pos.iter xO q k)) = 53).
    { rewrite iter_xO_digits. fold d. lia. }
    rewrite round_aux_exact by (try exact Hdig; lia).
    exists (Pos.iter xO q k), (d - 53).
    pose proof (digits2_bounds (Pos.iter xO q k)) as Hb.
    rewrite Hdig in Hb. change (53 - 1) with 52 in Hb.
    repeat split; try lia.
    rewrite iter_xO_value. f_equal. f_equal. lia.
Qed.

Lemma Prim2SF_num_of_0 : Prim2SF (JS.num_of_Z 0) = S754_zero false.
Proof. reflexivity. Qed.

(** On whole Numbers below 2^53 the order of Numbers is the order of
    integers. *)
Lemma compare_num_of_Z (a b : Z) :
  0 <= a < 2 ^ 53 -> 0 <= b < 2 ^ 53 ->
  SFcompare (Prim2SF (JS.num_of_Z a)) (Prim2SF (JS.num_of_Z b))
  = Some (a ?= b).
Proof.
  intros Ha Hb.
  destruct a as [ | pa | pa ], b as [ | pb | pb ]; try lia.
  - reflexivity.
  - destruct (Prim2SF_num_of_pos pb) as (m & e & -> & _); [lia|].
    rewrite Prim2SF_num_of_0. reflexivity.
  - destruct (Prim2SF_num_of_pos pa) as (m & e & -> & _); [lia|].
    rewrite Prim2SF_num_of_0. reflexivity.
  - destruct (Prim2SF_num_of_pos pa) as (ma & ea & -> & Hma & Hea & Eqa);
      [lia|].
    destruct (Prim2SF_num_of_pos pb) as (mb & eb & -> & Hmb & Heb & Eqb);
      [lia|].
    cbn [SFcompare]. f_equal.
    assert (Hpa : 0 < 2 ^ (- ea)) by (apply Z.pow_pos_nonneg; lia).
    assert (Hpb : 0 < 2 ^ (- eb)) by (apply Z.pow_pos_nonneg; lia).
    destruct (Z.compare_spec ea eb) as [Heq | Hlt | Hgt].
    + subst eb.
      change (Pos.compare_cont Eq ma mb) with (Z.pos ma ?= Z.pos mb).
      rewrite Eqa, Eqb. symmetry. apply Zmult_compare_compat_r. lia.
    + symmetry. apply Z.compare_lt_iff.
      assert (Hs : 2 ^ (- ea) = 2 ^ (- eb) * 2 ^ (eb - ea)).
      { rewrite <- Z.pow_add_r by lia. f_equal. lia. }
      assert (2 ^ 1 <= 2 ^ (eb - ea)) by (apply Z.pow_le_mono_r; lia).
      change (2 ^ 1) with 2 in *. change (2 ^ 53) with (2 * 2 ^ 52) in *.
      nia.
    + symmetry. apply Z.compare_gt_iff.
      assert (Hs : 2 ^ (- eb) = 2 ^ (- ea) * 2 ^ (ea - eb)).
      { rewrite <- Z.pow_add_r by lia. f_equal. lia. }
      assert (2 ^ 1 <= 2 ^ (ea - eb)) by (apply Z.pow_le_mono_r; lia).
      change (2 ^ 1) with 2 in *. change (2 ^ 53) with (2 * 2 ^ 52) in *.
      nia.
Qed.

Lemma ltb_num_of_Z (a b : Z) :
  0 <= a < 2 ^ 53 -> 0 <= b < 2 ^ 53 ->
  (JS.num_of_Z a <? JS.num_of_Z b)%float = (a <? b).
Proof.
  intros Ha Hb. rewrite FloatAxioms.ltb_spec. unfold SFltb.
  rewrite compare_num_of_Z by assumption.
  unfold Z.ltb. destruct (a ?= b); reflexivity.
Qed.

Lemma eqb_num_of_Z (a b : Z) :
  0 <= a < 2 ^ 53 -> 0 <= b < 2 ^ 53 ->
  (JS.num_of_Z a =? JS.num_of_Z b)%float = (a =? b).
Proof.
  intros Ha Hb. rewrite FloatAxioms.eqb_spec. unfold SFeqb.
  rewrite compare_num_of_Z by assumption.
  unfold Z.eqb. destruct (a ?= b) eqn:Hc; try reflexivity.
  - apply Z.compare_eq in Hc. subst. destruct b; try reflexivity.
    all: now rewrite Pos.eqb_refl.
  - destruct a, b; try reflexivity; try discriminate.
    all: symmetry; apply Pos.eqb_neq; intros ->;
      rewrite Z.compare_refl in Hc; discriminate.
  - destruct a, b; try reflexivity; try discriminate.
    all: symmetry; apply Pos.eqb_neq; intros ->;
      rewrite Z.compare_refl in Hc; discriminate.
Qed.

(** A Number at least a normal positive Number is [+Infinity] or a
    normal positive Number of no smaller exponent. *)
Lemma above_normal (c x : float) (mc : positive) (ec : Z) :
  Prim2SF c = S754_finite false mc ec -> -1074 < ec ->
  (c <=? x)%float = true ->
  Prim2SF x = S754_infinity false
  \/ exists m e,
       Prim2SF x = S754_finite false m e
       /\ 2 ^ 52 <= Z.pos m < 2 ^ 53 /\ ec <= e.
Proof.
  intros Hc Hec Hle. rewrite FloatAxioms.leb_spec, Hc in Hle.
  pose proof (Prim2SF_valid x) as Hv.
  destruct (Prim2SF x) as [ s | s | | s m e ]; cbn in Hle;
    try discriminate.
  - destruct s; [discriminate | left; reflexivity].
  - destruct s; [discriminate|]. right. exists m, e.
    assert (He : ec <= e).
    { destruct (Z.compare_spec ec e); lia. }
    cbn [valid_binary] in Hv. unfold bounded, canonical_mantissa in Hv.
    apply andb_prop in Hv. destruct Hv as [Hcan _].
    apply Z.eqb_eq in Hcan.
    unfold fexp, SpecFloat.emin, prec, emax in Hcan.
    assert (Hd : Z.pos (digits2_pos m) = 53) by lia.
    pose proof (digits2_bounds m) as Hb. rewrite Hd in Hb.
    change (53 - 1) with 52 in Hb. repeat split; lia.
Qed.

(** The product of two normal positive Numbers, when it is not
    subnormal, is a normal positive Number or [+Infinity]. *)
Lemma mul_normal (x y : float) (mx my : positive) (ex ey : Z) :
  Prim2SF x = S754_finite false mx ex -> 2 ^ 52 <= Z.pos mx < 2 ^ 53 ->
  Prim2SF y = S754_finite false my ey -> 2 ^ 52 <= Z.pos my < 2 ^ 53 ->
  -1074 <= ex + ey + 52 ->
  Prim2SF (x * y)%float = S754_infinity false
  \/ exists m e,
       Prim2SF (x * y)%float = S754_finite false m e
       /\ 2 ^ 52 <= Z.pos m < 2 ^ 53 /\ ex + ey + 52 <= e.
Proof.
  intros Hx Hmx Hy Hmy He.
  rewrite FloatAxioms.mul_spec, Hx, Hy. unfold SF64mul, SFmul.
  cbn [xorb].
  pose proof (digits2_bounds (mx * my)) as [_ Bhi].
  set (d := Z.pos (digits2_pos (mx * my))) in *.
  assert (Hp : 2 ^ 104 <= Z.pos (mx * my)).
  { rewrite Pos2Z.inj_mul. change (2 ^ 104) with (2 ^ 52 * 2 ^ 52). nia. }
  assert (Hd : 105 <= d).
  { destruct (Z_lt_le_dec d 105) as [Hlt|]; [|lia].
    assert (2 ^ d <= 2 ^ 104) by (apply Z.pow_le_mono_r; subst d; lia).
    lia. }
  destruct (round_aux_normal (mx * my) (ex + ey) loc_Exact)
    as [Hinf | (m & e & Hfin & Hm & Hexp)]; fold d; try lia.
  - left. exact Hinf.
  - right. exists m, e. fold d in Hexp. repeat split; try lia. exact Hfin.
Qed.

(** [Math.floor] of a Number that is at least 1 is positive. *)
Lemma floor_positive (y : float) :
  Binary64.normal_positive y (-52) -> (0 <? JS.floor y)%float = true.
Proof.
  intros [Hinf | (m & e & Hfin & Hm & He)]; unfold JS.floor.
  - rewrite Hinf, FloatAxioms.ltb_spec, Hinf. reflexivity.
  - rewrite Hfin. destruct (Z.leb_spec 0 e) as [Hpos | Hneg].
    + rewrite FloatAxioms.ltb_spec, Hfin. reflexivity.
    + assert (Hpow : 0 < 2 ^ (- e)) by (apply Z.pow_pos_nonneg; lia).
      assert (Hle : 2 ^ (- e) <= 2 ^ 52) by (apply Z.pow_le_mono_r; lia).
      assert (Hq : 1 <= Z.pos m / 2 ^ (- e) < 2 ^ 53).
      { split.
        - apply Z.div_le_lower_bound; lia.
        - apply Z.div_lt_upper_bound; nia. }
      destruct (Z.pos m / 2 ^ (- e)) as [ | q | q ]; try lia.
      destruct (Prim2SF_num_of_pos q) as (m' & e' & Hq' & _); [lia|].
      rewrite FloatAxioms.ltb_spec, Hq'. reflexivity.
Qed.

(** A positive Number is not [=== 0]. *)
Lemma positive_nonzero (p : float) :
  (0 <? p)%float = true -> (p =? 0)%float = false.
Proof.
  rewrite FloatAxioms.ltb_spec, FloatAxioms.eqb_spec.
  destruct (Prim2SF p) as [ s | [ | ] | | [ | ] m e ]; cbn;
    intros H; try discriminate; reflexivity.
Qed.

(** A check by [all_in] covers every integer of its range. *)
Lemma all_in_spec (d : nat) (f : Z -> bool) :
  forall lo, Binary64.all_in d f lo = true ->
  forall z, lo <= z < lo + 2 ^ Z.of_nat d -> f z = true.
Proof.
  induction d as [ | k IH ]; intros lo H z Hz.
  - cbn in Hz. replace z with lo by lia. exact H.
  - cbn [Binary64.all_in] in H. apply andb_prop in H. destruct H as [H1 H2].
    rewrite Nat2Z.inj_succ, Z.pow_succ_r in Hz by lia.
    destruct (Z_lt_le_dec z (lo + 2 ^ Z.of_nat k)).
    + apply (IH lo H1). lia.
    + apply (IH _ H2). lia.
Qed.

(* ================================================================== *)
(** * The multiplier table and the roll *)
(* ================================================================== *)

(** Every threshold from 1 to 65535 has a normal multiplier with exponent
    at least -53: checked on the whole table. *)
Lemma multiplier_table :
  Binary64.all_in 16 (fun t => (t =? 0) || Pricing.multiplier_normal t) 0
  = true.
Proof. vm_compute. reflexivity. Qed.

Lemma multiplier_is_normal (t : Z) :
  1 <= t <= 65535 ->
  exists m e,
    Prim2SF (Config.getMultiplier Config.default (JS.num_of_Z t))
    = S754_finite false m e
    /\ 2 ^ 52 <= Z.pos m < 2 ^ 53 /\ -53 <= e.
Proof.
  intros Ht.
  pose proof (all_in_spec 16 _ 0 multiplier_table t ltac:(cbn; lia)) as H.
  cbv beta in H. apply orb_prop in H. destruct H as [H | H]; [lia|].
  unfold Pricing.multiplier_normal in H.
  destruct (Prim2SF _) as [ | | | [ | ] m e ]; try discriminate.
  exists m, e. split; [reflexivity|].
  apply andb_prop in H. destruct H as [H H3].
  apply andb_prop in H. destruct H as [H1 H2].
  lia.
Qed.

(** Every multiplier of the table is within [2^-50], relatively, of the
    rational formula: checked on the whole table. *)
Lemma multiplier_close_table :
  Binary64.all_in 16 (fun t => (t =? 0) || Pricing.multiplier_close t) 0
  = true.
Proof. vm_compute. reflexivity. Qed.

Lemma minBet_default :
  Prim2SF (Config.minBet Config.default)
  = S754_finite false 5629499534213120 (-49).
Proof. reflexivity. Qed.

(** A stake of at least the minimum bet times a multiplier of the table
    is at least 1, so its floor is positive. *)
Lemma winning_payout_positive (t : Z) (betSats : JS.number) :
  1 <= t <= 65535 ->
  (Config.minBet Config.default <=? betSats)%float = true ->
  (0 <? JS.floor
          (betSats * Dice.getMultiplier Config.default (JS.num_of_Z t)))%float
  = true.
Proof.
  intros Ht Hbet. apply floor_positive. unfold Dice.getMultiplier.
  destruct (multiplier_is_normal t Ht) as (my & ey & Hy & Hmy & Hey).
  destruct (above_normal _ betSats _ _ minBet_default ltac:(lia) Hbet)
    as [Hinf | (mx & ex & Hx & Hmx & Hex)].
  - left. rewrite FloatAxioms.mul_spec, Hinf, Hy. reflexivity.
  - destruct (mul_normal _ _ _ _ _ _ Hx Hmx Hy Hmy ltac:(lia))
      as [Hi | (m & e & Hf & Hm & He)].
    + left. exact Hi.
    + right. exists m, e. repeat split; try lia. exact Hf.
Qed.

Lemma lor_below (n a b : Z) :
  0 <= n -> 0 <= a < 2 ^ n -> 0 <= b < 2 ^ n -> 0 <= Z.lor a b < 2 ^ n.
Proof.
  intros Hn Ha Hb. split; [apply Z.lor_nonneg; lia|].
  destruct (Z.eq_dec (Z.lor a b) 0) as [E | NE].
  - rewrite E. apply Z.pow_pos_nonneg; lia.
  - apply Z.log2_lt_pow2;
      [assert (0 <= Z.lor a b) by (apply Z.lor_nonneg; lia); lia|].
    rewrite Z.log2_lor by lia.
    destruct (Z.eq_dec a 0) as [-> | Ha0], (Z.eq_dec b 0) as [-> | Hb0].
    + cbn in NE. lia.
    + cbn [Z.log2]. rewrite Z.max_r by apply Z.log2_nonneg.
      apply Z.log2_lt_pow2; lia.
    + rewrite Z.max_l by (cbn [Z.log2]; apply Z.log2_nonneg).
      apply Z.log2_lt_pow2; lia.
    + apply Z.max_lub_lt; apply Z.log2_lt_pow2; lia.
Qed.

Lemma land_255 (v : Z) : 0 <= Z.land v 255 < 256.
Proof.
  change 255 with (Z.ones 8). rewrite Z.land_ones by lia.
  apply Z.mod_pos_bound. reflexivity.
Qed.

(** A digest starts with two octets. *)
Lemma digest_head (s : SHA256.state) :
  exists b0 b1 rest,
    SHA256.digest_of s = b0 :: b1 :: rest
    /\ 0 <= b0 < 256 /\ 0 <= b1 < 256.
Proof.
  unfold SHA256.digest_of. cbn [flat_map Bytes.be_octets app].
  eexists _, _, _. split; [reflexivity|]. split; apply land_255.
Qed.

Lemma hash_head (msg : Bytes.buffer) :
  exists b0 b1 rest,
    SHA256.hash msg = b0 :: b1 :: rest
    /\ 0 <= b0 < 256 /\ 0 <= b1 < 256.
Proof. unfold SHA256.hash. apply digest_head. Qed.

(** [readUInt16BE(0)] never raises on an HMAC: [rollZ] is what it reads. *)
Lemma hmac_readable (serverSeed clientEntropy : string) :
  Bytes.readUInt16BE
    (SHA256.hmac (Bytes.of_string serverSeed)
                 (Bytes.of_string clientEntropy))
  = Some (Dice.rollZ serverSeed clientEntropy).
Proof.
  unfold Dice.rollZ, SHA256.hmac.
  match goal with
  | |- context [SHA256.hash (?a ++ ?b)%list] =>
      destruct (hash_head (a ++ b)%list) as (b0 & b1 & rest & -> & _)
  end.
  reflexivity.
Qed.

(** The roll is a sixteen-bit unsigned integer. *)
Lemma rollZ_range (serverSeed clientEntropy : string) :
  0 <= Dice.rollZ serverSeed clientEntropy <= 65535.
Proof.
  unfold Dice.rollZ, SHA256.hmac.
  match goal with
  | |- context [SHA256.hash (?a ++ ?b)%list] =>
      destruct (hash_head (a ++ b)%list) as (b0 & b1 & rest & -> & H0 & H1)
  end.
  cbn [Bytes.readUInt16BE].
  assert (Hs : 0 <= Z.shiftl b0 8 < 2 ^ 16).
  { rewrite Z.shiftl_mul_pow2 by lia. change (2 ^ 8) with 256.
    change (2 ^ 16) with 65536. lia. }
  pose proof (lor_below 16 (Z.shiftl b0 8) b1 ltac:(lia) ltac:(lia)
                ltac:(change (2 ^ 16) with 65536; lia)) as H.
  change (2 ^ 16) with 65536 in H. lia.
Qed.

(** [resolveGame] compares the integer roll with an integer threshold as
    integers. *)
Lemma roll_below_target (t : Z) (serverSeed clientEntropy : string) :
  0 <= t < 2 ^ 53 ->
  JS.lt (Dice.generateRoll serverSeed clientEntropy) (JS.num_of_Z t)
  = (Dice.rollZ serverSeed clientEntropy <? t).
Proof.
  intros Ht. pose proof (rollZ_range serverSeed clientEntropy) as Hr.
  unfold JS.lt, Dice.generateRoll. apply ltb_num_of_Z; lia.
Qed.

(** The payout comes from the multiplier before it is rounded for the
    record. *)
Lemma resolveGame_payout (config : Config.t) (target betSats : JS.number)
    (serverSeed clientEntropy : string) :
  let g := Dice.resolveGame config target betSats serverSeed clientEntropy in
  Dice.payoutSats g
  = match Dice.result g with
    | Dice.win =>
        JS.floor (betSats * Config.getMultiplier config target)%float
    | Dice.loss => 0%float
    end
  /\ Dice.multiplier g
     = (JS.round (Config.getMultiplier config target * 1000) / 1000)%float.
Proof.
  cbv zeta. unfold Dice.resolveGame.
  cbn [Dice.payoutSats Dice.result Dice.multiplier].
  destruct (JS.lt _ target); split; reflexivity.
Qed.

(** A game as [resolveGame] returns it passes [verifyGame]. *)
Lemma resolved_game_verifies (config : Config.t)
    (target betSats : JS.number) (serverSeed clientEntropy : string) :
  Dice.verifyGame
    (Dice.evidence_of
       (Dice.resolveGame config target betSats serverSeed clientEntropy))
  = Dice.Verified serverSeed (Dice.commitSeed serverSeed) clientEntropy
      (Dice.generateRoll serverSeed clientEntropy) target
      (if JS.lt (Dice.generateRoll serverSeed clientEntropy) target
       then Dice.win else Dice.loss).
Proof.
  pose proof (rollZ_range serverSeed clientEntropy) as Hr.
  unfold Dice.verifyGame, Dice.evidence_of, Dice.resolveGame.
  cbn [Dice.ev_serverSeed Dice.ev_serverSeedHash Dice.ev_clientEntropy
       Dice.ev_roll Dice.ev_target Dice.serverSeed Dice.serverSeedHash
       Dice.clientEntropy Dice.roll Dice.target].
  rewrite String.eqb_refl. cbn [negb].
  unfold JS.strict_ne. unfold Dice.generateRoll at 1 2.
  rewrite eqb_num_of_Z by lia. rewrite Z.eqb_refl. reflexivity.
Qed.

(* ================================================================== *)
(** * The table and the handlers *)
(* ================================================================== *)

Lemma getGame_app_new (db : Db.t) (r : Db.row) :
  Db.getGame db (Db.id r) = None ->
  Db.getGame (db ++ [r])%list (Db.id r) = Some r.
Proof.
  unfold Db.getGame. induction db as [ | x rest IH ]; cbn [find app].
  - rewrite String.eqb_refl. reflexivity.
  - destruct (String.eqb (Db.id x) (Db.id r)); [discriminate | exact IH].
Qed.

(** A successful [saveGame] appends the row it bound, and [getGame]
    returns that row. *)
Lemma saveGame_appends (db db' : Db.t) (game : Db.record) :
  Db.saveGame db game = Some db' ->
  db' = (db ++ [Db.row_of game])%list
  /\ Db.getGame db' (Db.rec_id game) = Some (Db.row_of game).
Proof.
  unfold Db.saveGame. cbv zeta.
  destruct (Db.getGame db (Db.id (Db.row_of game))) eqn:Hget;
    [discriminate|].
  destruct (Db.violates_not_null (Db.row_of game)); [discriminate|].
  intros [= <-]. split; [reflexivity|].
  apply (getGame_app_new db (Db.row_of game) Hget).
Qed.

(** Whatever the payout does, the row a successful [/roll] leaves in the
    table carries the status it was inserted with. *)
Lemma roll_persists_initial_status (config : Config.t) (rnd : Server.draws)
    (req : Server.request) (db db' : Db.t) (body : Server.roll_body) :
  Server.roll_handler config rnd req db = (Server.Rolled body, db') ->
  exists row,
    db' = (db ++ [row])%list
    /\ Db.getGame db' (Server.game_id body) = Some row
    /\ Db.payout_status row
       = match Server.result body with
         | Dice.win => "pending"
         | Dice.loss => "n/a"
         end.
Proof.
  unfold Server.roll_handler.
  set (target := Server.parse_or (Server.q_target req) _).
  set (betSats := Server.parse_or (Server.q_bet req) _).
  destruct (JS.lt target 1%float || JS.gt target (Config.maxRoll config));
    [discriminate|].
  destruct (JS.lt betSats (Config.minBet config)
            || JS.gt betSats (Config.maxBet config)); [discriminate|].
  destruct (JS.truthy (Server.extractClientEntropy config rnd req))
    as [clientEntropy|]; [|discriminate].
  set (g := Dice.resolveGame config target betSats _ clientEntropy).
  set (game := Db.mkRecord _ _ _ _ _).
  destruct (Db.saveGame db game) as [db1|] eqn:Hsave; [|discriminate].
  intros H.
  pose proof (f_equal snd H) as Hdb. cbn [snd] in Hdb. subst db1.
  pose proof (f_equal fst H) as Hfst. cbn [fst] in Hfst.
  pose proof (f_equal (fun r => match r with
                                | Server.Rolled b => Server.game_id b
                                | _ => ""
                                end) Hfst) as Hid.
  pose proof (f_equal (fun r => match r with
                                | Server.Rolled b => Server.result b
                                | _ => Dice.loss
                                end) Hfst) as Hres.
  cbv beta iota in Hid, Hres. cbn [Server.game_id Server.result] in Hid, Hres.
  apply saveGame_appends in Hsave. destruct Hsave as [Hdb Hget].
  exists (Db.row_of game). split; [exact Hdb|].
  rewrite <- Hid, <- Hres. split; [exact Hget|].
  unfold Db.row_of, game.
  cbn [Db.payout_status Db.payoutStatus Db.rec_game JS.or_str JS.truthy].
  destruct (Dice.result g); reflexivity.
Qed.

(** The stake check of [/roll] compares with the configured limits and
    with nothing else. *)
Lemma roll_bet_check (config : Config.t) (rnd : Server.draws)
    (req : Server.request) (db : Db.t) :
  let target :=
    Server.parse_or (Server.q_target req) (Config.defaultTarget config) in
  let betSats :=
    Server.parse_or (Server.q_bet req) (Config.defaultBet config) in
  JS.lt target 1%float || JS.gt target (Config.maxRoll config) = false ->
  (Server.roll_handler config rnd req db
   = (Server.Failure 400 "invalid_bet", db)
   <-> JS.lt betSats (Config.minBet config)
       || JS.gt betSats (Config.maxBet config) = true).
Proof.
  intros target betSats Ht. unfold Server.roll_handler.
  fold target betSats. rewrite Ht.
  destruct (JS.lt betSats (Config.minBet config)
            || JS.gt betSats (Config.maxBet config)); [tauto|].
  split; [|discriminate].
  destruct (JS.truthy (Server.extractClientEntropy config rnd req));
    [|discriminate].
  match goal with
  | |- context [Db.saveGame db ?game] => destruct (Db.saveGame db game)
  end; discriminate.
Qed.

(** A target that compares below 1 or above [maxRoll] is refused and
    nothing is written. *)
Lemma roll_target_check (config : Config.t) (rnd : Server.draws)
    (req : Server.request) (db : Db.t) :
  let target :=
    Server.parse_or (Server.q_target req) (Config.defaultTarget config) in
  JS.lt target 1%float || JS.gt target (Config.maxRoll config) = true ->
  Server.roll_handler config rnd req db
  = (Server.Failure 400 "invalid_target", db).
Proof.
  intros target Ht. unfold Server.roll_handler.
  fold target. rewrite Ht. reflexivity.
Qed.

(** NaN compares neither below nor above any Number. *)
Lemma nan_unordered (x y : JS.number) :
  is_nan x = true -> JS.lt x y = false /\ JS.gt x y = false.
Proof.
  intros Hx. unfold JS.lt, JS.gt. rewrite !FloatAxioms.ltb_spec.
  unfold Prim2SF at 1 4. rewrite Hx. split; [reflexivity|].
  destruct (Prim2SF y); reflexivity.
Qed.

(** A target that parses to NaN is never answered 'invalid_target'. *)
Lemma nan_target_not_refused (config : Config.t) (rnd : Server.draws)
    (req : Server.request) (db : Db.t) :
  is_nan (Server.parse_or (Server.q_target req)
            (Config.defaultTarget config)) = true ->
  fst (Server.roll_handler config rnd req db)
  <> Server.Failure 400 "invalid_target".
Proof.
  intros Hnan. unfold Server.roll_handler.
  set (target := Server.parse_or (Server.q_target req) _) in *.
  set (betSats := Server.parse_or (Server.q_bet req) _).
  destruct (nan_unordered target 1%float Hnan) as [-> _].
  destruct (nan_unordered target (Config.maxRoll config) Hnan) as [_ ->].
  cbn [orb].
  destruct (JS.lt betSats (Config.minBet config)
            || JS.gt betSats (Config.maxBet config)); [discriminate|].
  destruct (JS.truthy (Server.extractClientEntropy config rnd req));
    [|discriminate].
  match goal with
  | |- context [Db.saveGame db ?game] => destruct (Db.saveGame db game)
  end; discriminate.
Qed.

Section Leaderboard.

Import Db.



Lemma players_fresh (db : t) :
  forall seen p, In p (players db seen) -> ~ In p seen.
Proof.
  induction db as [ | r rest IH ]; intros seen p Hin; [destruct Hin|].
  cbn [players] in Hin. destruct (player_pubkey r) as [q|]; [|eauto].
  destruct (existsb (String.eqb q) seen) eqn:Hex; [eauto|].
  destruct Hin as [<- | Hin].
  - intros Hq. assert (existsb (String.eqb q) seen = true).
    { apply existsb_exists. exists q. split; [assumption|].
      apply String.eqb_refl. }
    congruence.
  - intros Hp. apply (IH _ _ Hin). right. assumption.
Qed.

Lemma players_NoDup (db : t) : forall seen, NoDup (players db seen).
Proof.
  induction db as [ | r rest IH ]; intros seen; [constructor|].
  cbn [players]. destruct (player_pubkey r) as [q|]; [|apply IH].
  destruct (existsb (String.eqb q) seen); [apply IH|].
  constructor; [|apply IH].
  intros Hin. apply (players_fresh _ _ _ Hin). left. reflexivity.
Qed.

Lemma players_played (db : t) :
  forall seen p, In p (players db seen) ->
    exists r, In r db /\ player_pubkey r = Some p.
Proof.
  induction db as [ | r rest IH ]; intros seen p Hin; [destruct Hin|].
  cbn [players] in Hin.
  destruct (player_pubkey r) as [q|] eqn:Hq.
  - destruct (existsb (String.eqb q) seen).
    + destruct (IH _ _ Hin) as (r' & Hr' & Hp). exists r'. split; auto.
      right. assumption.
    + destruct Hin as [<- | Hin].
      * exists r. split; [left; reflexivity | assumption].
      * destruct (IH _ _ Hin) as (r' & Hr' & Hp). exists r'. split; auto.
        right. assumption.
  - destruct (IH _ _ Hin) as (r' & Hr' & Hp). exists r'. split; auto.
    right. assumption.
Qed.



Lemma limit_length {A} (limit : Z) (l : list A) :
  0 <= limit -> Z.of_nat (List.length (sql_limit limit l)) <= limit.
Proof.
  intros Hl. unfold sql_limit.
  destruct (Z.ltb_spec limit 0); [lia|].
  pose proof (firstn_le_length (Z.to_nat limit) l). lia.
Qed.




(** ** The order of the groups *)

Lemma compare_lt_trans (a b c : string) :
  String.compare a b = Lt -> String.compare b c = Lt ->
  String.compare a c = Lt.
Proof.
  intros Hab Hbc.
  apply OrderedTypeEx.String_as_OT.cmp_lt.
  apply (OrderedTypeEx.String_as_OT.lt_trans a b c);
    apply OrderedTypeEx.String_as_OT.cmp_lt; assumption.
Qed.

Lemma compare_gt_lt (a b : string) :
  String.compare a b = Gt -> String.compare b a = Lt.
Proof.
  intros H. rewrite String.compare_antisym, H. reflexivity.
Qed.

Lemma insert_player_perm (p : string) (l : list string) :
  Permutation (insert_player p l) (p :: l).
Proof.
  induction l as [ | q rest IH ]; cbn [insert_player]; [reflexivity|].
  destruct (String.compare p q); try reflexivity.
  all: rewrite IH; apply perm_swap.
Qed.

Lemma sort_players_perm (l : list string) :
  Permutation (fold_right insert_player [] l) l.
Proof.
  induction l as [ | p rest IH ]; cbn [fold_right]; [reflexivity|].
  rewrite insert_player_perm. apply perm_skip. assumption.
Qed.

(** Ascending, strictly: every element is below all that follow it. *)
Lemma insert_player_ascending (p : string) (l : list string) :
  StronglySorted (fun a b => String.compare a b = Lt) l ->
  ~ In p l ->
  StronglySorted (fun a b => String.compare a b = Lt) (insert_player p l).
Proof.
  induction 1 as [ | q rest Hrest IH Hq ]; intros Hnotin;
    cbn [insert_player].
  - constructor; constructor.
  - assert (Hpq : p <> q) by (intros ->; apply Hnotin; left; reflexivity).
    assert (Hnr : ~ In p rest) by (intros H; apply Hnotin; right; exact H).
    destruct (String.compare p q) eqn:Hc.
    + apply String.compare_eq_iff in Hc. contradiction.
    + constructor; [constructor; assumption|].
      constructor; [exact Hc|].
      rewrite Forall_forall in Hq |- *. intros x Hx.
      apply (compare_lt_trans p q x Hc). apply Hq. exact Hx.
    + constructor; [apply IH; exact Hnr|].
      rewrite Forall_forall in Hq |- *. intros x Hx.
      apply (Permutation_in _ (insert_player_perm p rest)) in Hx.
      destruct Hx as [<- | Hx]; [apply compare_gt_lt; exact Hc|].
      apply Hq. exact Hx.
Qed.

Lemma sort_players_ascending (l : list string) :
  NoDup l ->
  StronglySorted (fun a b => String.compare a b = Lt)
    (fold_right insert_player [] l).
Proof.
  induction 1 as [ | p rest Hp Hnd IH ]; cbn [fold_right]; [constructor|].
  apply insert_player_ascending; [exact IH|].
  intros Hin. apply Hp.
  apply (Permutation_in _ (sort_players_perm rest)). exact Hin.
Qed.

(** The groups in the order GROUP BY emits them are the groups. *)
Lemma grouped_perm (db : t) : Permutation (grouped db) (groups db).
Proof.
  unfold grouped, groups. apply Permutation_map. apply sort_players_perm.
Qed.


Lemma insert_ranked_perm (s : standing) (l : list standing) :
  Permutation (insert_ranked s l) (s :: l).
Proof.
  induction l as [ | x rest IH ]; cbn [insert_ranked]; [reflexivity|].
  destruct (net_profit s <? net_profit x); [|reflexivity].
  rewrite IH. apply perm_swap.
Qed.

Lemma ranked_perm (l : list standing) : Permutation (ranked l) l.
Proof.
  induction l as [ | s rest IH ]; cbn [ranked fold_right]; [reflexivity|].
  rewrite insert_ranked_perm. apply perm_skip. exact IH.
Qed.













Lemma ranking_perm (db : t) : Permutation (ranked (grouped db)) (groups db).
Proof.
  rewrite ranked_perm. apply grouped_perm.
Qed.

End Leaderboard.

Lemma ledger_groups : Db.groups Sample.ledger = [Sample.bob; Sample.alice].
Proof. vm_compute. reflexivity. Qed.

(** The two tied players of the sample ledger come out by player,
    "alice" first, although "bob" played first. *)
Lemma ledger_ranking :
  Db.getLeaderboard Sample.ledger 20%float
  = Some [Sample.alice; Sample.bob]
  /\ Db.getLeaderboard (rev Sample.ledger) 20%float
     = Some [Sample.alice; Sample.bob].
Proof. vm_compute. split; reflexivity. Qed.

(* ================================================================== *)
(** * The claims *)
(* ================================================================== *)

(** [getDynamicMaxBet] is the minimum of the configured ceiling and the
    bankroll-derived one. *)
Lemma getDynamicMaxBet_formula (config : Config.t) (bankroll : JS.number) :
  Config.getDynamicMaxBet config bankroll
  = JS.min (Config.maxBet config)
      (JS.floor (bankroll / Config.getMultiplier config 1
                 / Config.safetyFactor config)%float).
Proof. reflexivity. Qed.

(** C1 (the code departs from the claim).  With the default
    configuration the bankroll is 1000000 sats and [getDynamicMaxBet]
    gives 5, so the effective ceiling of the claim is 5.  A request for a
    stake of 100, which is within [minBet, maxBet] and above that ceiling,
    is not rejected by [/roll]: the game is played and recorded.  The
    handler compares the stake with [minBet] and [maxBet] only
    ([roll_bet_check]) and never calls [getDynamicMaxBet]. *)
Theorem C1_dynamic_ceiling_not_consulted :
  let config := Config.default in
  let req := Sample.get_roll (Some "32768") (Some "100") None in
  Config.getDynamicMaxBet config (Config.initial config) = 5%float
  /\ JS.gt 100%float (Config.getDynamicMaxBet config (Config.initial config))
     = true
  /\ exists body db',
       Server.roll_handler config (Sample.draws "g_00c0ffee") req []
       = (Server.Rolled body, db')
       /\ Server.bet_sats body = 100%float
       /\ List.length db' = 1%nat.
Proof.
  vm_compute. repeat split. eexists _, _. repeat split.
Qed.

(** C2 (the code departs from the claim).  A winning wager is inserted
    with payout status 'pending'.  After the payout the response says
    'sent' (development) or 'failed' (production, where [sendPayout]
    throws), but the row [getGame] returns still says 'pending': the
    status is assigned to the in-memory record after [saveGame] and is
    never written to the table ([roll_persists_initial_status]). *)
Theorem C2_payout_status_stays_pending :
  let req := Sample.get_roll (Some "32768") (Some "100") None in
  let paid := Sample.paid_roll (Some "32768") (Some "100") None in
  (exists body db',
      Server.roll_handler Config.default (Sample.draws "g_00c0ffee") req []
      = (Server.Rolled body, db')
      /\ Server.result body = Dice.win
      /\ Server.payout_status body = "sent"
      /\ option_map Db.payout_status (Db.getGame db' "g_00c0ffee")
         = Some "pending")
  /\ (exists body db',
        Server.roll_handler Sample.production (Sample.draws "g_00c0ffee")
          paid []
        = (Server.Rolled body, db')
        /\ Server.result body = Dice.win
        /\ Server.payout_status body = "failed"
        /\ option_map Db.payout_status (Db.getGame db' "g_00c0ffee")
           = Some "pending").
Proof.
  vm_compute. split; eexists _, _; repeat split.
Qed.

(** C3 (amended).  For every game [resolveGame] resolves under the
    default configuration, the result is 'win' exactly when the roll is
    strictly below the threshold, and a loss pays exactly 0.  When the
    threshold is an integer in [1, 65535] and the stake is at least the
    minimum bet of 10, the result is 'win' exactly when the roll is
    below the threshold as integers, and the payout is nonzero exactly
    when the result is 'win'. *)
Theorem C3_result_and_payout
    (target betSats : JS.number) (serverSeed clientEntropy : string) :
  let g := Dice.resolveGame Config.default target betSats
             serverSeed clientEntropy in
  (Dice.result g = Dice.win <-> JS.lt (Dice.roll g) (Dice.target g) = true)
  /\ (Dice.result g = Dice.loss -> Dice.payoutSats g = 0%float)
  /\ forall t : Z,
       target = JS.num_of_Z t ->
       1 <= t <= 65535 ->
       (Config.minBet Config.default <=? betSats)%float = true ->
       (Dice.result g = Dice.win
        <-> Dice.rollZ serverSeed clientEntropy < t)
       /\ (JS.strict_ne (Dice.payoutSats g) 0%float = true
           <-> Dice.result g = Dice.win).
Proof.
  cbv zeta. unfold Dice.resolveGame.
  cbn [Dice.result Dice.roll Dice.target Dice.payoutSats].
  split; [|split].
  - destruct (JS.lt (Dice.generateRoll serverSeed clientEntropy) target);
      split; intros H; try exact eq_refl; discriminate H.
  - destruct (JS.lt (Dice.generateRoll serverSeed clientEntropy) target);
      intros H; [discriminate H | exact eq_refl].
  - intros t -> Ht Hbet.
    pose proof (winning_payout_positive t betSats Ht Hbet) as Hpay.
    pose proof (roll_below_target t serverSeed clientEntropy
                  ltac:(change (2 ^ 53) with 9007199254740992; lia)) as Hlt.
    rewrite Hlt.
    destruct (Z.ltb_spec (Dice.rollZ serverSeed clientEntropy) t)
      as [Hw | Hl].
    + unfold JS.strict_ne. rewrite (positive_nonzero _ Hpay).
      repeat split; auto.
    + repeat split; try discriminate; try lia.
Qed.

Lemma C3_result_and_payout_witness :
  let g := Dice.resolveGame Config.default 32768%float 100%float
             Sample.seed Sample.entropy in
  (Dice.result g = Dice.win
   <-> Dice.rollZ Sample.seed Sample.entropy < 32768)
  /\ (JS.strict_ne (Dice.payoutSats g) 0%float = true
      <-> Dice.result g = Dice.win).
Proof.
  exact (proj2 (proj2 (C3_result_and_payout 32768%float 100%float
                         Sample.seed Sample.entropy))
           32768 eq_refl ltac:(lia) eq_refl).
Defined.

(** C3, the claim as stated fails: with the default configuration, a
    stake of 10 (the minimum bet) and threshold 700000, [resolveGame]
    returns a win, the roll 28441 being below the threshold, that pays
    0: the multiplier for 700000 is below 0.1. *)
Lemma C3_counterexample :
  let g := Dice.resolveGame Config.default 700000%float 10%float
             Sample.seed Sample.entropy in
  (Config.minBet Config.default <=? Dice.betSats g)%float = true
  /\ Dice.roll g = 28441%float
  /\ JS.lt (Dice.roll g) (Dice.target g) = true
  /\ Dice.result g = Dice.win
  /\ Dice.payoutSats g = 0%float
  /\ JS.strict_ne (Dice.payoutSats g) 0%float = false.
Proof. vm_compute. repeat split; reflexivity. Qed.

(** C4 (the code departs from the claim).  The payout of a win is
    floor(stake * m) for the multiplier m that [getMultiplier] computes,
    while the record holds m rounded to three decimals
    ([resolveGame_payout]), so the payout is not always
    floor(stake * multiplier) of the recorded multiplier, the equality
    the test suite asserts of a winning game.  [/roll] with target 28442
    and stake 100 answers a win with multiplier 2.27 and payout 226,
    while floor(100 * 2.27) is 227; at threshold 60000 and stake 10000
    the record of [resolveGame] holds 1.076 and 10758, while
    floor(10000 * 1.076) is 10760. *)
Theorem C4_payout_not_from_recorded_multiplier :
  let g := Dice.resolveGame Config.default 28442%float 100%float
             Sample.seed Sample.entropy in
  let h := Dice.resolveGame Config.default 60000%float 10000%float
             Sample.seed Sample.entropy in
  (Dice.result g = Dice.win
   /\ Dice.betSats g = 100%float
   /\ Dice.multiplier g = 2.27%float
   /\ Dice.payoutSats g = 226%float
   /\ JS.floor (Dice.betSats g * Dice.multiplier g)%float = 227%float
   /\ JS.strict_eq (Dice.payoutSats g)
        (JS.floor (Dice.betSats g * Dice.multiplier g)%float) = false)
  /\ (Dice.result h = Dice.win
      /\ Dice.betSats h = 10000%float
      /\ Dice.multiplier h = 1.076%float
      /\ Dice.payoutSats h = 10758%float
      /\ JS.floor (Dice.betSats h * Dice.multiplier h)%float = 10760%float
      /\ JS.strict_eq (Dice.payoutSats h)
           (JS.floor (Dice.betSats h * Dice.multiplier h)%float) = false)
  /\ exists body db',
       Server.roll_handler Config.default (Sample.draws "g_00c0ffee")
         (Sample.get_roll (Some "28442") (Some "100") None) []
       = (Server.Rolled body, db')
       /\ Server.result body = Dice.win
       /\ Server.bet_sats body = 100%float
       /\ Server.multiplier body = 2.27%float
       /\ Server.payout_sats body = 226%float
       /\ option_map Db.payout_sats (Db.getGame db' "g_00c0ffee")
          = Some 226%float
       /\ option_map Db.multiplier (Db.getGame db' "g_00c0ffee")
          = Some 2.27%float.
Proof.
  vm_compute. repeat split. eexists _, _. repeat split.
Qed.

(** C5 (amended).  [verifyGame] checks in order and stops at the first
    failure: a commitment mismatch gives verified=false with reason
    "Server seed does not match committed hash", whatever the roll; with
    a matching commitment a roll mismatch gives verified=false with
    reason "Roll does not match HMAC computation"; when both match it
    returns verified=true with the result recomputed from roll and
    threshold. *)
Theorem C5_verifyGame_steps (e : Dice.evidence) :
  (Dice.commitSeed (Dice.ev_serverSeed e) <> Dice.ev_serverSeedHash e ->
   Dice.verifyGame e
   = Dice.Refuted "Server seed does not match committed hash")
  /\ (Dice.commitSeed (Dice.ev_serverSeed e) = Dice.ev_serverSeedHash e ->
      JS.strict_ne
        (Dice.generateRoll (Dice.ev_serverSeed e) (Dice.ev_clientEntropy e))
        (Dice.ev_roll e) = true ->
      Dice.verifyGame e
      = Dice.Refuted "Roll does not match HMAC computation")
  /\ (Dice.commitSeed (Dice.ev_serverSeed e) = Dice.ev_serverSeedHash e ->
      JS.strict_ne
        (Dice.generateRoll (Dice.ev_serverSeed e) (Dice.ev_clientEntropy e))
        (Dice.ev_roll e) = false ->
      Dice.verifyGame e
      = Dice.Verified (Dice.ev_serverSeed e) (Dice.ev_serverSeedHash e)
          (Dice.ev_clientEntropy e)
          (Dice.generateRoll (Dice.ev_serverSeed e) (Dice.ev_clientEntropy e))
          (Dice.ev_target e)
          (if JS.lt (Dice.ev_roll e) (Dice.ev_target e)
           then Dice.win else Dice.loss)).
Proof.
  unfold Dice.verifyGame. repeat split.
  - intros Hne. apply String.eqb_neq in Hne. rewrite Hne. reflexivity.
  - intros Heq Hroll. apply String.eqb_eq in Heq. rewrite Heq, Hroll.
    reflexivity.
  - intros Heq Hroll. apply String.eqb_eq in Heq. rewrite Heq, Hroll.
    reflexivity.
Qed.

Lemma C5_verifyGame_steps_witness :
  Dice.verifyGame Sample.forged
  = Dice.Refuted "Server seed does not match committed hash"
  /\ Dice.verifyGame Sample.altered
     = Dice.Refuted "Roll does not match HMAC computation"
  /\ Dice.verifyGame Sample.honest
     = Dice.Verified (Dice.ev_serverSeed Sample.honest)
         (Dice.ev_serverSeedHash Sample.honest)
         (Dice.ev_clientEntropy Sample.honest)
         (Dice.generateRoll (Dice.ev_serverSeed Sample.honest)
            (Dice.ev_clientEntropy Sample.honest))
         (Dice.ev_target Sample.honest)
         (if JS.lt (Dice.ev_roll Sample.honest) (Dice.ev_target Sample.honest)
          then Dice.win else Dice.loss).
Proof.
  split; [|split].
  - apply (proj1 (C5_verifyGame_steps Sample.forged)).
    vm_compute. discriminate.
  - apply (proj1 (proj2 (C5_verifyGame_steps Sample.altered)));
      vm_compute; reflexivity.
  - apply (proj2 (proj2 (C5_verifyGame_steps Sample.honest)));
      vm_compute; reflexivity.
Defined.

(** C5, the claim as stated fails: the reasons [verifyGame] returns are
    not "seed/hash mismatch" and "outcome mismatch". *)
Lemma C5_counterexample :
  Dice.verifyGame Sample.forged
  = Dice.Refuted "Server seed does not match committed hash"
  /\ Dice.verifyGame Sample.forged <> Dice.Refuted "seed/hash mismatch"
  /\ Dice.verifyGame Sample.altered
     = Dice.Refuted "Roll does not match HMAC computation"
  /\ Dice.verifyGame Sample.altered <> Dice.Refuted "outcome mismatch".
Proof.
  vm_compute. repeat split; try reflexivity; discriminate.
Qed.

(** C6.  Round trip: for every threshold, stake, secret and entropy,
    [verifyGame] on the fields of the record [resolveGame] produced
    returns verified=true; with the roll replaced by any other integer of
    [0, 65535], and more generally by any Number that is not [===] the
    roll, it returns verified=false with the roll-mismatch reason. *)
Theorem C6_verify_roundtrip (config : Config.t) (target betSats : JS.number)
    (serverSeed clientEntropy : string) :
  let g := Dice.resolveGame config target betSats serverSeed clientEntropy in
  Dice.verified (Dice.verifyGame (Dice.evidence_of g)) = true
  /\ (forall r' : Z,
        0 <= r' <= 65535 ->
        r' <> Dice.rollZ serverSeed clientEntropy ->
        Dice.verifyGame
          {| Dice.ev_serverSeed := Dice.serverSeed g;
             Dice.ev_serverSeedHash := Dice.serverSeedHash g;
             Dice.ev_clientEntropy := Dice.clientEntropy g;
             Dice.ev_roll := JS.num_of_Z r';
             Dice.ev_target := Dice.target g |}
        = Dice.Refuted "Roll does not match HMAC computation")
  /\ (forall x : JS.number,
        JS.strict_ne (Dice.roll g) x = true ->
        Dice.verifyGame
          {| Dice.ev_serverSeed := Dice.serverSeed g;
             Dice.ev_serverSeedHash := Dice.serverSeedHash g;
             Dice.ev_clientEntropy := Dice.clientEntropy g;
             Dice.ev_roll := x;
             Dice.ev_target := Dice.target g |}
        = Dice.Refuted "Roll does not match HMAC computation").
Proof.
  intros g. subst g.
  pose proof (rollZ_range serverSeed clientEntropy) as Hr.
  split; [rewrite resolved_game_verifies; reflexivity|].
  assert (Hx : forall x : JS.number,
             JS.strict_ne (Dice.generateRoll serverSeed clientEntropy) x
             = true ->
             Dice.verifyGame
               {| Dice.ev_serverSeed := serverSeed;
                  Dice.ev_serverSeedHash := Dice.commitSeed serverSeed;
                  Dice.ev_clientEntropy := clientEntropy;
                  Dice.ev_roll := x;
                  Dice.ev_target := target |}
             = Dice.Refuted "Roll does not match HMAC computation").
  { intros x Hne. unfold Dice.verifyGame.
    cbn [Dice.ev_serverSeed Dice.ev_serverSeedHash Dice.ev_clientEntropy
         Dice.ev_roll Dice.ev_target].
    rewrite String.eqb_refl. cbn [negb]. rewrite Hne. reflexivity. }
  unfold Dice.resolveGame.
  cbn [Dice.serverSeed Dice.serverSeedHash Dice.clientEntropy Dice.roll
       Dice.target].
  split; [|exact Hx].
  intros r' Hr' Hne. apply Hx.
  unfold JS.strict_ne, Dice.generateRoll.
  rewrite eqb_num_of_Z by lia.
  replace (Dice.rollZ serverSeed clientEntropy =? r') with false
    by (symmetry; apply Z.eqb_neq; congruence).
  reflexivity.
Qed.

Lemma C6_verify_roundtrip_witness :
  let g := Dice.resolveGame Config.default 32768%float 100%float
             Sample.seed Sample.entropy in
  Dice.verified (Dice.verifyGame (Dice.evidence_of g)) = true
  /\ Dice.verifyGame
       {| Dice.ev_serverSeed := Dice.serverSeed g;
          Dice.ev_serverSeedHash := Dice.serverSeedHash g;
          Dice.ev_clientEntropy := Dice.clientEntropy g;
          Dice.ev_roll := JS.num_of_Z 28442;
          Dice.ev_target := Dice.target g |}
     = Dice.Refuted "Roll does not match HMAC computation".
Proof.
  destruct (C6_verify_roundtrip Config.default 32768%float 100%float
              Sample.seed Sample.entropy) as (Hok & Hint & _).
  split; [exact Hok|].
  apply Hint; [lia | vm_compute; discriminate].
Defined.

(** C7.  For every threshold in [1, 65535] the multiplier is
    [(1 / (threshold / 65536)) * (1 - houseEdge)]: the code evaluates
    exactly this expression on Numbers, and with house edge 0.015 its
    value is within a relative [2^-50] of the same expression over the
    rationals.  The multipliers of 32768, 16384 and 49152 are within 0.01
    of 1.970, 3.940 and 1.313, measured exactly and as the test suite
    measures them. *)
Theorem C7_multiplier (config : Config.t) (target : JS.number) (t : Z) :
  1 <= t <= 65535 ->
  Config.getMultiplier config target
  = (1 / (target / (Config.maxRoll config + 1))
     * (1 - Config.houseEdge config))%float
  /\ (exists q,
        Binary64.exact
          (Config.getMultiplier Config.default (JS.num_of_Z t)) = Some q
        /\ (Qabs (q - Pricing.multiplier_formula (15 # 1000) t)
            <= Pricing.multiplier_formula (15 # 1000) t * (1 # 2 ^ 50))%Q)
  /\ (exists q50 q25 q75,
        Binary64.exact (Config.getMultiplier Config.default 32768%float)
        = Some q50
        /\ Binary64.exact (Config.getMultiplier Config.default 16384%float)
           = Some q25
        /\ Binary64.exact (Config.getMultiplier Config.default 49152%float)
           = Some q75
        /\ (Qabs (q50 - (1970 # 1000)) < (1 # 100))%Q
        /\ (Qabs (q25 - (3940 # 1000)) < (1 # 100))%Q
        /\ (Qabs (q75 - (1313 # 1000)) < (1 # 100))%Q)
  /\ (abs (Config.getMultiplier Config.default 32768 - 1.97) <? 0.01)%float
     = true
  /\ (abs (Config.getMultiplier Config.default 16384 - 3.94) <? 0.01)%float
     = true
  /\ (abs (Config.getMultiplier Config.default 49152 - 1.313) <? 0.01)%float
     = true.
Proof.
  intros Ht. split; [reflexivity|]. split.
  { pose proof (all_in_spec 16 _ 0 multiplier_close_table t
                  ltac:(cbn; lia)) as H.
    cbv beta in H. apply orb_prop in H. destruct H as [H | H]; [lia|].
    unfold Pricing.multiplier_close, Binary64.close in H.
    destruct (Binary64.exact _) as [q|]; [|discriminate].
    exists q. split; [reflexivity|]. apply Qle_bool_iff. exact H. }
  split.
  { eexists _, _, _.
    split; [vm_compute; reflexivity|]. split; [vm_compute; reflexivity|].
    split; [vm_compute; reflexivity|]. repeat split. }
  repeat split.
Qed.

Lemma C7_multiplier_witness :
  Config.getMultiplier Config.default 32768%float
  = (1 / (32768 / (Config.maxRoll Config.default + 1))
     * (1 - Config.houseEdge Config.default))%float
  /\ (exists q,
        Binary64.exact
          (Config.getMultiplier Config.default (JS.num_of_Z 32768)) = Some q
        /\ (Qabs (q - Pricing.multiplier_formula (15 # 1000) 32768)
            <= Pricing.multiplier_formula (15 # 1000) 32768
               * (1 # 2 ^ 50))%Q)
  /\ (exists q50 q25 q75,
        Binary64.exact (Config.getMultiplier Config.default 32768%float)
        = Some q50
        /\ Binary64.exact (Config.getMultiplier Config.default 16384%float)
           = Some q25
        /\ Binary64.exact (Config.getMultiplier Config.default 49152%float)
           = Some q75
        /\ (Qabs (q50 - (1970 # 1000)) < (1 # 100))%Q
        /\ (Qabs (q25 - (3940 # 1000)) < (1 # 100))%Q
        /\ (Qabs (q75 - (1313 # 1000)) < (1 # 100))%Q)
  /\ (abs (Config.getMultiplier Config.default 32768 - 1.97) <? 0.01)%float
     = true
  /\ (abs (Config.getMultiplier Config.default 16384 - 3.94) <? 0.01)%float
     = true
  /\ (abs (Config.getMultiplier Config.default 49152 - 1.313) <? 0.01)%float
     = true.
Proof.
  apply (C7_multiplier Config.default 32768%float 32768). lia.
Defined.

(** C8 (the code departs from the claim).  For [GET /roll?target=abc]
    [parseInt] gives NaN, which is neither below 1 nor above 65535, so the
    target check lets it through: the wager is resolved (as a loss, NaN
    not being above the roll) and handed to [saveGame].  The INSERT fails
    on the NOT NULL column and the response is 500 'internal', not 400
    'invalid_target'.  No target that parses to NaN is ever answered
    'invalid_target' ([nan_target_not_refused]); a target that is a
    Number outside [1, 65535] is ([roll_target_check]). *)
Theorem C8_non_numeric_target_passes_validation :
  let req := Sample.get_roll (Some "abc") (Some "100") None in
  is_nan (JS.parseInt "abc") = true
  /\ JS.lt (JS.parseInt "abc") 1%float
     || JS.gt (JS.parseInt "abc") 65535%float = false
  /\ Dice.result
       (Dice.resolveGame Config.default (JS.parseInt "abc") 100%float
          Sample.seed Sample.entropy) = Dice.loss
  /\ Server.roll_handler Config.default (Sample.draws "g_00c0ffee") req []
     = (Server.Failure 500 "internal", []).
Proof. vm_compute. repeat split; reflexivity. Qed.




(** C10.  The outcome of [verifyGame] in [/verify] depends only on the
    row's server_seed, server_seed_hash, client_entropy, roll and target:
    two rows equal in these five fields verify identically, overwriting
    the stored result, payout and multiplier changes nothing, and a
    recorded game so tampered with still returns verified=true. *)
Theorem C10_verification_reads_five_fields :
  (forall r1 r2 : Db.row,
      Db.server_seed r1 = Db.server_seed r2 ->
      Db.server_seed_hash r1 = Db.server_seed_hash r2 ->
      Db.client_entropy r1 = Db.client_entropy r2 ->
      Db.roll r1 = Db.roll r2 ->
      Db.target r1 = Db.target r2 ->
      Dice.verifyGame (Server.evidence_of_row r1)
      = Dice.verifyGame (Server.evidence_of_row r2))
  /\ (forall (r : Db.row) (result : string) (payout multiplier : JS.number),
         Dice.verifyGame
           (Server.evidence_of_row
              (Ledger.with_outcome r result payout multiplier))
         = Dice.verifyGame (Server.evidence_of_row r))
  /\ (forall (config : Config.t) (target betSats : JS.number)
             (serverSeed clientEntropy : string) (game : Db.record)
             (result : string) (payout multiplier : JS.number),
         Db.rec_game game
         = Dice.resolveGame config target betSats serverSeed clientEntropy ->
         Dice.verified
           (Dice.verifyGame
              (Server.evidence_of_row
                 (Ledger.with_outcome (Db.row_of game) result payout
                    multiplier)))
         = true).
Proof.
  split; [|split].
  - intros r1 r2 H1 H2 H3 H4 H5. unfold Server.evidence_of_row.
    rewrite H1, H2, H3, H4, H5. reflexivity.
  - intros. reflexivity.
  - intros config target betSats serverSeed clientEntropy game result payout
      multiplier Hg.
    change (Server.evidence_of_row
              (Ledger.with_outcome (Db.row_of game) result payout
                 multiplier))
      with (Dice.evidence_of (Db.rec_game game)).
    rewrite Hg, resolved_game_verifies. reflexivity.
Qed.

Lemma C10_verification_reads_five_fields_witness :
  let game :=
    {| Db.rec_id := "g_00c0ffee";
       Db.rec_game :=
         Dice.resolveGame Config.default 1000%float 100%float
           Sample.seed Sample.entropy;
       Db.payoutMethod := Some "keysend";
       Db.payoutStatus := Some "n/a";
       Db.playerPubkey := None |} in
  Db.result (Db.row_of game) = "loss"
  /\ Db.payout_sats (Db.row_of game) = 0%float
  /\ Dice.verified
       (Dice.verifyGame
          (Server.evidence_of_row
             (Ledger.with_outcome (Db.row_of game) "win" 6455%float
                64.553%float)))
     = true.
Proof.
  split; [vm_compute; reflexivity|]. split; [vm_compute; reflexivity|].
  apply (proj2 (proj2 C10_verification_reads_five_fields)
           Config.default 1000%float 100%float Sample.seed Sample.entropy).
  reflexivity.
Defined.

(* ================================================================== *)
(** * Further properties of the code *)
(* ================================================================== *)

(* ================================================================== *)
(** * More on the order of Numbers *)
(* ================================================================== *)

(** Swapping the arguments of a comparison reverses its answer. *)
Lemma SFcompare_swap (x y : spec_float) :
  SFcompare y x = option_map CompOpp (SFcompare x y).
Proof.
  destruct x as [ sx | sx | | sx mx ex ], y as [ sy | sy | | sy my ey ];
    try destruct sx; try destruct sy; try reflexivity.
  all: cbn [SFcompare option_map].
  all: rewrite (Z.compare_antisym ex ey).
  all: destruct (ex ?= ey); cbn [CompOpp]; try reflexivity.
  all: f_equal.
  all: change (Pos.compare_cont Eq ?a ?b) with (Pos.compare a b).
  all: rewrite (Pos.compare_antisym mx my); try reflexivity.
  all: destruct (Pos.compare mx my); reflexivity.
Qed.

Lemma ltb_asym (x y : float) :
  (x <? y)%float = true -> (y <? x)%float = false.
Proof.
  rewrite !FloatAxioms.ltb_spec. unfold SFltb.
  rewrite (SFcompare_swap (Prim2SF x) (Prim2SF y)).
  destruct (SFcompare (Prim2SF x) (Prim2SF y)) as [ [ | | ] | ];
    cbn; congruence.
Qed.

(** [Prim2SF] gives NaN for NaN only. *)
Lemma Prim2SF_nan (x : float) :
  is_nan x = false -> Prim2SF x <> S754_nan.
Proof.
  intros H. unfold Prim2SF. rewrite H.
  destruct (PrimFloat.is_zero x); [discriminate|].
  destruct (is_infinity x); [discriminate|].
  destruct (Z.frexp x) as [r exp].
  destruct (shr_fexp _ _ _ _ _) as [shr e'].
  destruct (shr_m shr); discriminate.
Qed.

(** [Math.min(x, y)] is never above [y]. *)
Lemma min_not_above (x y : float) : JS.gt (JS.min x y) y = false.
Proof.
  unfold JS.gt, JS.min.
  destruct (is_nan x || is_nan y) eqn:Hn.
  - rewrite FloatAxioms.ltb_spec. destruct (Prim2SF y); reflexivity.
  - destruct (x <? y)%float eqn:Hxy; [apply ltb_asym; assumption|].
    destruct (y <? x)%float eqn:Hyx.
    + rewrite FloatAxioms.ltb_spec. unfold SFltb.
      apply orb_false_elim in Hn. destruct Hn as [_ Hy].
      pose proof (Prim2SF_nan y Hy) as Ny.
      destruct (Prim2SF y) as [ s | s | | s m e ]; try congruence.
      * destruct s; reflexivity.
      * destruct s; reflexivity.
      * cbn [SFcompare]. rewrite Z.compare_refl.
        change (Pos.compare_cont Eq m m) with (Pos.compare m m).
        rewrite Pos.compare_refl. destruct s; reflexivity.
    + destruct (get_sign x); [assumption|].
      rewrite FloatAxioms.ltb_spec. unfold SFltb.
      apply orb_false_elim in Hn. destruct Hn as [_ Hy].
      pose proof (Prim2SF_nan y Hy) as Ny.
      destruct (Prim2SF y) as [ s | s | | s m e ]; try congruence.
      * destruct s; reflexivity.
      * destruct s; reflexivity.
      * cbn [SFcompare]. rewrite Z.compare_refl.
        change (Pos.compare_cont Eq m m) with (Pos.compare m m).
        rewrite Pos.compare_refl. destruct s; reflexivity.
Qed.

(** Rounding a mantissa of at least 53 digits, of either sign: a
    53-digit mantissa and an exponent one of two values; the result is
    the Number they make when the exponent is in range, and the infinity
    of that sign otherwise. *)
Lemma round_aux_shape (sx : bool) (p : positive) (e : Z) (l : location) :
  let d := Z.pos (digits2_pos p) in
  53 <= d -> -1074 <= e + d - 53 ->
  exists m e',
    2 ^ 52 <= Z.pos m < 2 ^ 53
    /\ e + d - 53 <= e' <= e + d - 52
    /\ binary_round_aux prec emax sx (Z.pos p) e l
       = if e' <=? 971 then S754_finite sx m e' else S754_infinity sx.
Proof.
  intros d Hd He. unfold binary_round_aux.
  destruct (shr_fexp_normal p e l Hd He) as (r1 & -> & _ & Hr1).
  fold d. cbv beta iota.
  pose proof (round_nearest_even_bounds (shr_m r1) (loc_of_shr_record r1))
    as Hrne.
  destruct (round_nearest_even (shr_m r1) (loc_of_shr_record r1))
    as [ | p2 | p2 ] eqn:Hm2; try lia.
  pose proof (digits2_bounds p2) as [Blo Bhi].
  assert (Hd2 : 53 <= Z.pos (digits2_pos p2) <= 54).
  { split.
    - destruct (Z_lt_le_dec (Z.pos (digits2_pos p2)) 53) as [Hlt|]; [|lia].
      assert (2 ^ Z.pos (digits2_pos p2) <= 2 ^ 52)
        by (apply Z.pow_le_mono_r; lia).
      lia.
    - destruct (Z_lt_le_dec 54 (Z.pos (digits2_pos p2))) as [Hlt|]; [|lia].
      assert (2 ^ 54 <= 2 ^ (Z.pos (digits2_pos p2) - 1))
        by (apply Z.pow_le_mono_r; lia).
      change (2 ^ 54) with (2 * 2 ^ 53) in *. lia. }
  destruct (shr_fexp_normal p2 (e + d - 53) loc_Exact ltac:(lia) ltac:(lia))
    as (r2 & -> & _ & Hr2).
  cbv beta iota.
  destruct (shr_m r2) as [ | m | m ] eqn:Hm; try lia.
  exists m, (e + d - 53 + Z.pos (digits2_pos p2) - 53).
  split; [lia|]. split; [lia|]. reflexivity.
Qed.

Lemma round_aux_opp (m e : Z) (l : location) :
  binary_round_aux prec emax true m e l
  = SFopp (binary_round_aux prec emax false m e l).
Proof.
  unfold binary_round_aux.
  destruct (shr_fexp prec emax m e l) as [r1 e1].
  destruct (shr_fexp prec emax _ e1 loc_Exact) as [r2 e2].
  destruct (shr_m r2); [reflexivity | | reflexivity].
  destruct (e2 <=? emax - prec); reflexivity.
Qed.

(** An integer of at least 2^53 rounds to a normal Number with a
    positive exponent, or to an infinity. *)
Lemma round_big (sx : bool) (p : positive) :
  2 ^ 53 <= Z.pos p ->
  binary_round prec emax sx p 0 = S754_infinity sx
  \/ exists m e,
       binary_round prec emax sx p 0 = S754_finite sx m e
       /\ 2 ^ 52 <= Z.pos m < 2 ^ 53 /\ 1 <= e <= 971.
Proof.
  intros Hp. unfold binary_round.
  pose proof (digits2_bounds p) as [Blo Bhi].
  set (d := Z.pos (digits2_pos p)) in *.
  assert (Hd : 54 <= d).
  { destruct (Z_lt_le_dec d 54) as [Hlt|]; [|lia].
    assert (2 ^ d <= 2 ^ 53) by (apply Z.pow_le_mono_r; subst d; lia).
    lia. }
  assert (Hf : fexp prec emax (d + 0) = d - 53).
  { unfold fexp, SpecFloat.emin, prec, emax. lia. }
  rewrite Hf. unfold shl_align.
  destruct (d - 53 - 0) as [ | k | k ] eqn:Hk; try lia.
  destruct (round_aux_shape sx p 0 loc_Exact)
    as (m & e & Hm & He & ->); fold d; try lia.
  fold d in He.
  destruct (Z.leb_spec e 971); [right | left; reflexivity].
  exists m, e. repeat split; lia.
Qed.

(** The Number of a positive integer: normal and positive, with the
    integer's value below 2^53 and a positive exponent from there on. *)
Lemma num_of_pos_shape (p : positive) :
  Prim2SF (JS.num_of_Z (Z.pos p)) = S754_infinity false
  \/ exists m e,
       Prim2SF (JS.num_of_Z (Z.pos p)) = S754_finite false m e
       /\ 2 ^ 52 <= Z.pos m < 2 ^ 53
       /\ (Z.pos p < 2 ^ 53 -> e <= 0)
       /\ (2 ^ 53 <= Z.pos p -> 1 <= e).
Proof.
  destruct (Z_lt_le_dec (Z.pos p) (2 ^ 53)) as [Hsmall | Hbig].
  - destruct (Prim2SF_num_of_pos p Hsmall) as (m & e & H & Hm & He & _).
    right. exists m, e. repeat split; try lia. exact H.
  - assert (Hr : Prim2SF (JS.num_of_Z (Z.pos p))
                 = binary_round prec emax false p 0).
    { unfold JS.num_of_Z. cbn [Z.abs].
      destruct (Z.ltb_spec (Z.pos p) (2 ^ 62)) as [H62 | H62].
      - replace (Z.pos p <? 0) with false
          by (symmetry; apply Z.ltb_ge; lia).
        rewrite of_uint63_spec, Uint63.of_Z_spec.
        rewrite Z.mod_small by (change wB with (2 ^ 63); lia).
        reflexivity.
      - cbn [binary_normalize]. apply Prim2SF_SF2Prim.
        destruct (round_big false p Hbig)
          as [-> | (m & e & -> & Hm & He)]; [reflexivity|].
        cbn [SpecFloat.valid_binary]. unfold bounded, canonical_mantissa.
        rewrite (digits2_unique m 53) by (change (53 - 1) with 52; lia).
        unfold fexp, SpecFloat.emin, prec, emax.
        apply andb_true_intro. split; [apply Z.eqb_eq | apply Z.leb_le]; lia. }
    rewrite Hr.
    destruct (round_big false p Hbig) as [-> | (m & e & -> & Hm & He)];
      [left; reflexivity|].
    right. exists m, e. repeat split; lia.
Qed.

(** The Number of a negative integer is the opposite of the Number of
    its absolute value. *)
Lemma num_of_neg_opp (p : positive) :
  Prim2SF (JS.num_of_Z (Z.neg p))
  = SFopp (Prim2SF (JS.num_of_Z (Z.pos p))).
Proof.
  unfold JS.num_of_Z. cbn [Z.abs Z.opp].
  destruct (Z.ltb_spec (Z.pos p) (2 ^ 62)) as [H62 | H62].
  - replace (Z.neg p <? 0) with true by (symmetry; apply Z.ltb_lt; lia).
    replace (Z.pos p <? 0) with false by (symmetry; apply Z.ltb_ge; lia).
    apply FloatAxioms.opp_spec.
  - cbn [binary_normalize].
    assert (Hbig : 2 ^ 53 <= Z.pos p)
      by (change (2 ^ 62) with (512 * 2 ^ 53) in H62; lia).
    unfold binary_round at 1.
    destruct (shl_align p 0 _) as [mz ez] eqn:Hal.
    rewrite round_aux_opp.
    assert (Hf : binary_round_aux prec emax false (Z.pos mz) ez loc_Exact
                 = binary_round prec emax false p 0).
    { unfold binary_round. rewrite Hal. reflexivity. }
    rewrite Hf.
    destruct (round_big false p Hbig) as [-> | (m & e & -> & Hm & He)].
    + reflexivity.
    + assert (Hv : forall s, valid_binary (S754_finite s m e) = true).
      { intros s. cbn [SpecFloat.valid_binary].
        unfold bounded, canonical_mantissa.
        rewrite (digits2_unique m 53) by (change (53 - 1) with 52; lia).
        unfold fexp, SpecFloat.emin, prec, emax.
        apply andb_true_intro.
        split; [apply Z.eqb_eq | apply Z.leb_le]; lia. }
      cbn [SFopp negb]. rewrite !Prim2SF_SF2Prim by apply Hv. reflexivity.
Qed.

(** A whole Number that compares neither below [lo] nor above [hi] is
    an integer between them. *)
Lemma whole_between (v lo hi : Z) :
  0 < lo -> lo <= hi < 2 ^ 53 ->
  JS.lt (JS.num_of_Z v) (JS.num_of_Z lo) = false ->
  JS.gt (JS.num_of_Z v) (JS.num_of_Z hi) = false ->
  lo <= v <= hi.
Proof.
  intros Hlo Hhi Hlt Hgt. unfold JS.lt, JS.gt in *.
  destruct v as [ | p | p ].
  - rewrite ltb_num_of_Z in Hlt by lia. apply Z.ltb_ge in Hlt. lia.
  - destruct (Z_lt_le_dec (Z.pos p) (2 ^ 53)) as [Hsmall | Hbig].
    + rewrite ltb_num_of_Z in Hlt, Hgt by lia.
      apply Z.ltb_ge in Hlt, Hgt. lia.
    + exfalso. rewrite FloatAxioms.ltb_spec in Hgt.
      destruct hi as [ | ph | ph ]; try lia.
      destruct (Prim2SF_num_of_pos ph) as (mh & eh & Hh & _ & Heh & _);
        [lia|].
      rewrite Hh in Hgt.
      destruct (num_of_pos_shape p) as [Hi | (m & e & Hf & _ & _ & He)].
      * rewrite Hi in Hgt. discriminate.
      * rewrite Hf in Hgt. specialize (He Hbig). unfold SFltb in Hgt.
        cbn [SFcompare] in Hgt.
        replace (eh ?= e) with Lt in Hgt
          by (symmetry; apply Z.compare_lt_iff; lia).
        discriminate.
  - exfalso. rewrite FloatAxioms.ltb_spec, num_of_neg_opp in Hlt.
    destruct lo as [ | pl | pl ]; try lia.
    destruct (Prim2SF_num_of_pos pl) as (ml & el & Hl & _); [lia|].
    rewrite Hl in Hlt.
    destruct (num_of_pos_shape p) as [Hi | (m & e & Hf & _)].
    + rewrite Hi in Hlt. discriminate.
    + rewrite Hf in Hlt. discriminate.
Qed.

(** [parseInt] gives NaN, a zero, or the Number of a non-zero integer. *)
Lemma parseInt_shape (s : string) :
  JS.parseInt s = nan \/ JS.parseInt s = zero \/ JS.parseInt s = neg_zero
  \/ exists v, v <> 0 /\ JS.parseInt s = JS.num_of_Z v.
Proof.
  unfold JS.parseInt.
  destruct (match JS.trimStart s with
            | String "-" rest => (true, rest)
            | String "+" rest => (false, rest)
            | _ => (false, JS.trimStart s)
            end) as [negative s2].
  destruct (match s2 with
            | String "0" (String "x" rest) => (16, rest)
            | String "0" (String "X" rest) => (16, rest)
            | _ => (10, s2)
            end) as [radix s3].
  destruct (JS.digits_prefix radix s3 0 0) as [[ | n ] v];
    [left; reflexivity|].
  destruct (Z.eqb_spec v 0) as [-> | Hv].
  - destruct negative; auto.
  - right. right. right.
    exists (if negative then - v else v). split; [|reflexivity].
    destruct negative; lia.
Qed.

(* ================================================================== *)
(** * The games table: lookups, identifiers and aggregates *)
(* ================================================================== *)

Lemma getGame_none (db : Db.t) (gameId : string) :
  Db.getGame db gameId = None <-> ~ In gameId (map Db.id db).
Proof.
  unfold Db.getGame. induction db as [ | x rest IH ]; cbn [find map In].
  - tauto.
  - destruct (String.eqb_spec (Db.id x) gameId) as [E | NE].
    + split; [discriminate | intros H; exfalso; apply H; left; exact E].
    + rewrite IH. tauto.
Qed.

Lemma getGame_app_other (db : Db.t) (r : Db.row) (gameId : string) :
  gameId <> Db.id r ->
  Db.getGame (db ++ [r])%list gameId = Db.getGame db gameId.
Proof.
  intros Hne. unfold Db.getGame.
  induction db as [ | x rest IH ]; cbn [find app].
  - destruct (String.eqb_spec (Db.id r) gameId); [congruence | reflexivity].
  - destruct (String.eqb (Db.id x) gameId); [reflexivity | exact IH].
Qed.

Lemma saveGame_inv (db db' : Db.t) (game : Db.record) :
  Db.saveGame db game = Some db' ->
  db' = (db ++ [Db.row_of game])%list
  /\ Db.getGame db (Db.rec_id game) = None
  /\ Db.violates_not_null (Db.row_of game) = false.
Proof.
  unfold Db.saveGame. cbv zeta.
  change (Db.id (Db.row_of game)) with (Db.rec_id game).
  destruct (Db.getGame db (Db.rec_id game)); [discriminate|].
  destruct (Db.violates_not_null (Db.row_of game)); [discriminate|].
  intros [= <-]. auto.
Qed.



(** X2.  Identifiers stay unique.  [saveGame] raises (and the table is
    left as it was) when a row with the identifier is there; when it
    succeeds the identifier was new, so a table of distinct identifiers
    stays one. *)
Theorem saveGame_keeps_ids_distinct (db : Db.t) (game : Db.record) :
  (In (Db.rec_id game) (map Db.id db) -> Db.saveGame db game = None)
  /\ forall db',
       Db.saveGame db game = Some db' ->
       ~ In (Db.rec_id game) (map Db.id db)
       /\ (NoDup (map Db.id db) -> NoDup (map Db.id db')).
Proof.
  split.
  - intros Hin. destruct (Db.saveGame db game) as [db'|] eqn:H;
      [|reflexivity].
    apply saveGame_inv in H. destruct H as (_ & Hnew & _).
    apply getGame_none in Hnew. contradiction.
  - intros db' H. apply saveGame_inv in H. destruct H as (-> & Hnew & _).
    apply getGame_none in Hnew. split; [exact Hnew|].
    intros Hnd. rewrite map_app. cbn [map].
    apply NoDup_app; [exact Hnd | repeat constructor; intros [] |].
    intros x Hx [<- | []]. contradiction.
Qed.

Lemma fold_add_from (l : list Z) (a : Z) :
  fold_left Z.add l a = a + fold_left Z.add l 0.
Proof.
  revert a. induction l as [ | x rest IH ]; intros a; cbn [fold_left].
  - lia.
  - rewrite (IH (a + x)), (IH (0 + x)). lia.
Qed.

Lemma fold_add_app (l1 l2 : list Z) :
  fold_left Z.add (l1 ++ l2)%list 0
  = fold_left Z.add l1 0 + fold_left Z.add l2 0.
Proof. rewrite fold_left_app. apply fold_add_from. Qed.

Lemma total_snoc (f : Db.row -> Z) (rows : list Db.row) (r : Db.row) :
  fold_left Z.add (map f (rows ++ [r])%list) 0
  = fold_left Z.add (map f rows) 0 + f r.
Proof. rewrite map_app, fold_add_app. cbn. lia. Qed.

(** The greatest value of a column after one more row. *)
Lemma greatest_snoc (l : list Z) (v : Z) :
  match (l ++ [v])%list with
  | [] => 0
  | x :: xs => fold_left Z.max xs x
  end
  = match l with
    | [] => v
    | x :: xs => Z.max (fold_left Z.max xs x) v
    end.
Proof.
  destruct l as [ | x xs ]; cbn [app]; [reflexivity|].
  rewrite fold_left_app. reflexivity.
Qed.

Lemma length_zero_iff {A} (l : list A) :
  (Z.of_nat (List.length l) =? 0) = match l with [] => true | _ => false end.
Proof. destruct l; reflexivity. Qed.

(** X3.  What one more game does to the leaderboard.  On a ledger of
    whole amounts with a total below 2^53, after a
    successful [saveGame] the aggregates of the player named in the new
    row have one more game, the stake more wagered, the payout more won,
    and the greater of the old biggest win and the payout; the
    aggregates of every other player are what they were.  A row without
    a player changes no one's. *)
Theorem saveGame_updates_one_standing (db db' : Db.t) (game : Db.record)
    (p : string) :
  Db.saveGame db game = Some db' ->
  Books.exact db' = true ->
  let r := Db.row_of game in
  let before := Db.aggregate db p in
  let after := Db.aggregate db' p in
  if Db.played_by p r then
    Db.games after = Db.games before + 1
    /\ Db.total_wagered after
       = Db.total_wagered before + Db.sats (Db.bet_sats r)
    /\ Db.total_won after
       = Db.total_won before + Db.sats (Db.payout_sats r)
    /\ Db.net_profit after
       = Db.net_profit before
         + Db.sats (Db.payout_sats r) - Db.sats (Db.bet_sats r)
    /\ Db.biggest_win after
       = (if Db.games before =? 0 then Db.sats (Db.payout_sats r)
          else Z.max (Db.biggest_win before) (Db.sats (Db.payout_sats r)))
  else after = before.
Proof.
  intros H _. apply saveGame_inv in H. destruct H as (-> & _ & _).
  cbv zeta. set (r := Db.row_of game). unfold Db.aggregate.
  rewrite filter_app. cbn [filter].
  destruct (Db.played_by p r).
  - cbn [Db.games Db.total_wagered Db.total_won Db.net_profit
         Db.biggest_win].
    set (rows := filter (Db.played_by p) db).
    rewrite !total_snoc.
    rewrite length_app, Nat2Z.inj_add. cbn [List.length].
    repeat split; try lia.
    rewrite map_app. cbn [map]. rewrite greatest_snoc.
    rewrite length_zero_iff.
    destruct rows; reflexivity.
  - rewrite app_nil_r. reflexivity.
Qed.

Lemma saveGame_updates_one_standing_witness :
  let game :=
    {| Db.rec_id := "g_0000000c";
       Db.rec_game :=
         Dice.resolveGame Config.default 32768%float 100%float
           Sample.seed Sample.entropy;
       Db.payoutMethod := Some "keysend";
       Db.payoutStatus := Some "pending";
       Db.playerPubkey := Some "bob" |} in
  let r := Db.row_of game in
  let before := Db.aggregate Sample.ledger "bob" in
  let after := Db.aggregate (Sample.ledger ++ [r])%list "bob" in
  if Db.played_by "bob" r then
    Db.games after = Db.games before + 1
    /\ Db.total_wagered after
       = Db.total_wagered before + Db.sats (Db.bet_sats r)
    /\ Db.total_won after
       = Db.total_won before + Db.sats (Db.payout_sats r)
    /\ Db.net_profit after
       = Db.net_profit before
         + Db.sats (Db.payout_sats r) - Db.sats (Db.bet_sats r)
    /\ Db.biggest_win after
       = (if Db.games before =? 0 then Db.sats (Db.payout_sats r)
          else Z.max (Db.biggest_win before) (Db.sats (Db.payout_sats r)))
  else after = before.
Proof.
  intros game.
  assert (H : Db.saveGame Sample.ledger game
              = Some (Sample.ledger ++ [Db.row_of game])%list)
    by (vm_compute; reflexivity).
  assert (E : Books.exact (Sample.ledger ++ [Db.row_of game])%list = true)
    by (vm_compute; reflexivity).
  exact (saveGame_updates_one_standing Sample.ledger _ game "bob" H E).
Defined.

Lemma players_snoc (db : Db.t) (r : Db.row) :
  forall seen,
    Db.players (db ++ [r])%list seen
    = (Db.players db seen
       ++ match Db.player_pubkey r with
          | Some p =>
              if existsb (String.eqb p) seen
                 || existsb (String.eqb p) (Db.players db seen)
              then [] else [p]
          | None => []
          end)%list.
Proof.
  induction db as [ | x rest IH ]; intros seen; cbn [app Db.players].
  - destruct (Db.player_pubkey r) as [p|]; [|reflexivity].
    cbn [existsb]. rewrite orb_false_r.
    destruct (existsb (String.eqb p) seen); reflexivity.
  - destruct (Db.player_pubkey x) as [q|]; [|apply IH].
    destruct (existsb (String.eqb q) seen) eqn:Hq; [apply IH|].
    rewrite IH. cbn [app]. f_equal. f_equal.
    destruct (Db.player_pubkey r) as [p|]; [|reflexivity].
    cbn [existsb].
    destruct (String.eqb p q), (existsb (String.eqb p) seen),
             (existsb (String.eqb p) (Db.players rest (q :: seen)));
      reflexivity.
Qed.

Lemma players_complete (db : Db.t) :
  forall seen r p,
    In r db -> Db.player_pubkey r = Some p -> ~ In p seen ->
    In p (Db.players db seen).
Proof.
  induction db as [ | x rest IH ]; intros seen r p Hin Hp Hseen;
    [destruct Hin|].
  cbn [Db.players]. destruct Hin as [-> | Hin].
  - rewrite Hp.
    destruct (existsb (String.eqb p) seen) eqn:Hex; [|left; reflexivity].
    apply existsb_exists in Hex. destruct Hex as (q & Hq & E).
    apply String.eqb_eq in E. subst q. contradiction.
  - destruct (Db.player_pubkey x) as [q|]; [|eapply IH; eassumption].
    destruct (existsb (String.eqb q) seen); [eapply IH; eassumption|].
    destruct (String.eqb_spec q p) as [-> | Hne]; [left; reflexivity|].
    right. apply (IH _ r); try assumption.
    intros [E | Hs]; [congruence | contradiction].
Qed.

(** A player is among the distinct players exactly when some row names
    them. *)
Lemma known_player (db : Db.t) (p : string) :
  existsb (String.eqb p) (Db.players db [])
  = negb (Db.games (Db.aggregate db p) =? 0).
Proof.
  cbn [Db.aggregate Db.games]. rewrite length_zero_iff.
  destruct (filter (Db.played_by p) db) as [ | r rows ] eqn:Hf.
  - cbn [negb].
    destruct (existsb (String.eqb p) (Db.players db [])) eqn:Hex;
      [|reflexivity].
    apply existsb_exists in Hex. destruct Hex as (q & Hq & E).
    apply String.eqb_eq in E. subst q.
    destruct (players_played db [] p Hq) as (r & Hr & Hp).
    assert (Hin : In r (filter (Db.played_by p) db)).
    { apply filter_In. split; [assumption|]. unfold Db.played_by.
      rewrite Hp. apply String.eqb_refl. }
    rewrite Hf in Hin. destruct Hin.
  - cbn [negb]. apply existsb_exists. exists p.
    split; [|apply String.eqb_refl].
    assert (Hin : In r (filter (Db.played_by p) db))
      by (rewrite Hf; left; reflexivity).
    apply filter_In in Hin. destruct Hin as [Hr Hp].
    unfold Db.played_by in Hp.
    destruct (Db.player_pubkey r) as [q|] eqn:Hq; [|discriminate].
    apply String.eqb_eq in Hp. subst q.
    apply (players_complete db [] r p Hr Hq). intros [].
Qed.

(** X4.  Statistics.  On the empty table every figure of [getStats] is
    0.  On a ledger of whole amounts with a total below 2^53, after a
    successful [saveGame] there is one more game, the stake
    more wagered, the payout more paid out, the house profit moved by
    stake minus payout, the biggest win raised to the payout if that is
    greater, and one more unique player exactly when the row names a
    player with no earlier game. *)
Theorem saveGame_updates_stats (db db' : Db.t) (game : Db.record) :
  Db.saveGame db game = Some db' ->
  Books.exact db' = true ->
  let r := Db.row_of game in
  let before := Db.getStats db in
  let after := Db.getStats db' in
  Db.getStats [] = Db.mkStats 0 0 0 0 0 0
  /\ Db.total_games after = Db.total_games before + 1
  /\ Db.total_wagered_sats after
     = Db.total_wagered_sats before + Db.sats (Db.bet_sats r)
  /\ Db.total_paid_out_sats after
     = Db.total_paid_out_sats before + Db.sats (Db.payout_sats r)
  /\ Db.house_profit_sats after
     = Db.house_profit_sats before
       + Db.sats (Db.bet_sats r) - Db.sats (Db.payout_sats r)
  /\ Db.biggest_win_sats after
     = (if Db.total_games before =? 0 then Db.sats (Db.payout_sats r)
        else Z.max (Db.biggest_win_sats before)
                   (Db.sats (Db.payout_sats r)))
  /\ Db.unique_players after
     = Db.unique_players before
       + match Db.player_pubkey r with
         | Some p => if Db.games (Db.aggregate db p) =? 0 then 1 else 0
         | None => 0
         end.
Proof.
  intros H _. apply saveGame_inv in H. destruct H as (-> & _ & _).
  cbv zeta. set (r := Db.row_of game). split; [reflexivity|].
  unfold Db.getStats.
  cbn [Db.total_games Db.total_wagered_sats Db.total_paid_out_sats
       Db.house_profit_sats Db.biggest_win_sats Db.unique_players].
  rewrite !total_snoc.
  rewrite length_app, Nat2Z.inj_add. cbn [List.length].
  repeat split; try lia.
  - rewrite map_app. cbn [map]. rewrite greatest_snoc, length_zero_iff.
    destruct db; reflexivity.
  - rewrite players_snoc, length_app, Nat2Z.inj_add. f_equal.
    destruct (Db.player_pubkey r) as [p|]; [|reflexivity].
    cbn [existsb orb]. rewrite known_player.
    destruct (Db.games (Db.aggregate db p) =? 0); reflexivity.
Qed.

Lemma saveGame_updates_stats_witness :
  let game :=
    {| Db.rec_id := "g_0000000c";
       Db.rec_game :=
         Dice.resolveGame Config.default 32768%float 100%float
           Sample.seed Sample.entropy;
       Db.payoutMethod := Some "keysend";
       Db.payoutStatus := Some "pending";
       Db.playerPubkey := Some "carol" |} in
  let r := Db.row_of game in
  let before := Db.getStats Sample.ledger in
  let after := Db.getStats (Sample.ledger ++ [r])%list in
  Db.getStats [] = Db.mkStats 0 0 0 0 0 0
  /\ Db.total_games after = Db.total_games before + 1
  /\ Db.total_wagered_sats after
     = Db.total_wagered_sats before + Db.sats (Db.bet_sats r)
  /\ Db.total_paid_out_sats after
     = Db.total_paid_out_sats before + Db.sats (Db.payout_sats r)
  /\ Db.house_profit_sats after
     = Db.house_profit_sats before
       + Db.sats (Db.bet_sats r) - Db.sats (Db.payout_sats r)
  /\ Db.biggest_win_sats after
     = (if Db.total_games before =? 0 then Db.sats (Db.payout_sats r)
        else Z.max (Db.biggest_win_sats before)
                   (Db.sats (Db.payout_sats r)))
  /\ Db.unique_players after
     = Db.unique_players before
       + match Db.player_pubkey r with
         | Some p =>
             if Db.games (Db.aggregate Sample.ledger p) =? 0 then 1 else 0
         | None => 0
         end.
Proof.
  intros game.
  assert (H : Db.saveGame Sample.ledger game
              = Some (Sample.ledger ++ [Db.row_of game])%list)
    by (vm_compute; reflexivity).
  assert (E : Books.exact (Sample.ledger ++ [Db.row_of game])%list = true)
    by (vm_compute; reflexivity).
  exact (saveGame_updates_stats Sample.ledger _ game H E).
Defined.

Lemma total_pointwise (g h : string -> Z) (ps : list string) :
  fold_left Z.add (map (fun p => g p + h p) ps) 0
  = fold_left Z.add (map g ps) 0 + fold_left Z.add (map h ps) 0.
Proof.
  induction ps as [ | p ps' IH ]; [reflexivity|].
  cbn [map fold_left].
  rewrite (fold_add_from _ (0 + (g p + h p))), (fold_add_from _ (0 + g p)),
    (fold_add_from _ (0 + h p)), IH.
  lia.
Qed.

(** A value counted once for the one list element equal to [q]. *)
Lemma total_once (q : string) (v : Z) (ps : list string) :
  NoDup ps -> In q ps ->
  fold_left Z.add (map (fun p => if String.eqb q p then v else 0) ps) 0 = v.
Proof.
  induction ps as [ | p ps' IH ]; intros Hnd Hin; [destruct Hin|].
  inversion Hnd as [ | ? ? Hnotin Hnd' ]; subst. cbn [map fold_left].
  rewrite fold_add_from.
  destruct (String.eqb_spec q p) as [-> | Hne].
  - assert (Hz : map (fun p0 => if String.eqb p p0 then v else 0) ps'
                 = map (fun _ => 0) ps').
    { apply map_ext_in. intros p0 Hp0.
      destruct (String.eqb_spec p p0) as [-> | _];
        [contradiction | reflexivity]. }
    rewrite Hz.
    assert (Hzero : fold_left Z.add (map (fun _ : string => 0) ps') 0 = 0).
    { clear. induction ps' as [ | p0 ps IH ]; [reflexivity | exact IH]. }
    rewrite Hzero. lia.
  - destruct Hin as [E | Hin]; [congruence|]. rewrite (IH Hnd' Hin). lia.
Qed.

(** The sum of a column over the rows of the named players, player by
    player, is its sum over the rows that name a player. *)
Lemma total_by_player (f : Db.row -> Z) (db : Db.t) :
  forall ps,
    NoDup ps ->
    (forall r p, In r db -> Db.player_pubkey r = Some p -> In p ps) ->
    fold_left Z.add
      (map (fun p =>
              fold_left Z.add (map f (filter (Db.played_by p) db)) 0) ps) 0
    = fold_left Z.add
        (map f (filter (fun r => match Db.player_pubkey r with
                                 | Some _ => true
                                 | None => false
                                 end) db)) 0.
Proof.
  induction db as [ | x rest IH ]; intros ps Hnd Hcover.
  - cbn [filter map fold_left]. clear Hnd Hcover.
    induction ps as [ | p ps' IHp ]; [reflexivity|].
    cbn [map fold_left]. exact IHp.
  - specialize (IH ps Hnd
                  (fun r p Hr Hp => Hcover r p (or_intror Hr) Hp)).
    cbn [filter]. destruct (Db.player_pubkey x) as [q|] eqn:Hq.
    + cbn [map fold_left]. rewrite (fold_add_from _ (0 + f x)), <- IH.
      assert (Hstep :
        map (fun p =>
               fold_left Z.add
                 (map f (if Db.played_by p x
                         then x :: filter (Db.played_by p) rest
                         else filter (Db.played_by p) rest)) 0) ps
        = map (fun p =>
                 (if String.eqb q p then f x else 0)
                 + fold_left Z.add
                     (map f (filter (Db.played_by p) rest)) 0) ps).
      { apply map_ext. intros p. unfold Db.played_by at 1. rewrite Hq.
        destruct (String.eqb q p); [|lia].
        cbn [map fold_left]. rewrite (fold_add_from _ (0 + f x)). lia. }
      rewrite Hstep, total_pointwise, total_once;
        [lia | exact Hnd | apply (Hcover x q); [left; reflexivity | exact Hq]].
    + rewrite <- IH. f_equal. apply map_ext. intros p.
      unfold Db.played_by at 1. rewrite Hq. reflexivity.
Qed.

Lemma total_minus (f g : Db.row -> Z) (rows : list Db.row) :
  fold_left Z.add (map f rows) 0 - fold_left Z.add (map g rows) 0
  = fold_left Z.add (map (fun r => f r - g r) rows) 0.
Proof.
  induction rows as [ | x rest IH ]; [reflexivity|].
  cbn [map fold_left].
  rewrite (fold_add_from _ (0 + f x)), (fold_add_from _ (0 + g x)),
    (fold_add_from _ (0 + (f x - g x))).
  lia.
Qed.

Lemma total_split (f : Db.row -> Z) (keep : Db.row -> bool)
    (rows : list Db.row) :
  fold_left Z.add (map f rows) 0
  = fold_left Z.add (map f (filter keep rows)) 0
    + fold_left Z.add (map f (filter (fun r => negb (keep r)) rows)) 0.
Proof.
  induction rows as [ | x rest IH ]; [reflexivity|].
  cbn [map fold_left filter]. rewrite (fold_add_from _ (0 + f x)), IH.
  destruct (keep x); cbn [negb map fold_left];
    rewrite (fold_add_from _ (0 + f x)); lia.
Qed.

(** X5.  The books balance.  On a ledger of whole amounts with a total
    below 2^53, the house profit of [getStats] is what
    the games without a player brought in, less the sum of the net
    profits of the leaderboard's players; when every game names its
    player, the two sides of the ledger cancel exactly. *)
Theorem house_profit_balances_leaderboard (db : Db.t) :
  Books.exact db = true ->
  Db.house_profit_sats (Db.getStats db)
  + fold_left Z.add (map Db.net_profit (Db.groups db)) 0
  = fold_left Z.add
      (map (fun r => Db.sats (Db.bet_sats r) - Db.sats (Db.payout_sats r))
           (filter (fun r => match Db.player_pubkey r with
                             | Some _ => false
                             | None => true
                             end) db)) 0.
Proof.
  intros _.
  cbn [Db.getStats Db.house_profit_sats]. unfold Db.groups.
  rewrite map_map. cbn [Db.aggregate Db.net_profit].
  set (margin := fun r => Db.sats (Db.bet_sats r) - Db.sats (Db.payout_sats r)).
  rewrite (total_minus (fun r => Db.sats (Db.bet_sats r))
                       (fun r => Db.sats (Db.payout_sats r)) db).
  fold margin.
  assert (Hnet :
    map (fun p =>
           fold_left Z.add
             (map (fun r => Db.sats (Db.payout_sats r))
                  (filter (Db.played_by p) db)) 0
           - fold_left Z.add
               (map (fun r => Db.sats (Db.bet_sats r))
                    (filter (Db.played_by p) db)) 0)
        (Db.players db [])
    = map (fun p =>
             fold_left Z.add
               (map (fun r => - margin r) (filter (Db.played_by p) db)) 0)
          (Db.players db [])).
  { apply map_ext. intros p. rewrite total_minus. f_equal.
    apply map_ext. intros r. unfold margin. lia. }
  rewrite Hnet.
  rewrite (total_by_player (fun r => - margin r) db (Db.players db [])
             (players_NoDup db [])).
  2:{ intros r p Hr Hp. apply (players_complete db [] r p Hr Hp).
      intros []. }
  rewrite (total_split margin
             (fun r => match Db.player_pubkey r with
                       | Some _ => true
                       | None => false
                       end) db).
  assert (Hneg : forall rows,
    fold_left Z.add (map (fun r => - margin r) rows) 0
    = - fold_left Z.add (map margin rows) 0).
  { induction rows as [ | x rest IH ]; [reflexivity|].
    cbn [map fold_left].
    rewrite (fold_add_from _ (0 + - margin x)),
      (fold_add_from _ (0 + margin x)), IH. lia. }
  rewrite Hneg.
  assert (Hf :
    filter (fun r => negb match Db.player_pubkey r with
                          | Some _ => true
                          | None => false
                          end) db
    = filter (fun r => match Db.player_pubkey r with
                       | Some _ => false
                       | None => true
                       end) db).
  { apply filter_ext. intros r. destruct (Db.player_pubkey r); reflexivity. }
  rewrite Hf. lia.
Qed.

Lemma house_profit_balances_leaderboard_witness :
  Db.house_profit_sats (Db.getStats Sample.ledger)
  + fold_left Z.add (map Db.net_profit (Db.groups Sample.ledger)) 0
  = fold_left Z.add
      (map (fun r => Db.sats (Db.bet_sats r) - Db.sats (Db.payout_sats r))
           (filter (fun r => match Db.player_pubkey r with
                             | Some _ => false
                             | None => true
                             end) Sample.ledger)) 0.
Proof.
  assert (E : Books.exact Sample.ledger = true) by (vm_compute; reflexivity).
  exact (house_profit_balances_leaderboard Sample.ledger E).
Defined.

(* ================================================================== *)
(** * Rolls, commitments and identifiers *)
(* ================================================================== *)

(** X6.  The roll.  For every server seed and client entropy
    [readUInt16BE(0)] finds its two octets in the HMAC and does not
    raise, and [generateRoll] is the whole Number it reads, between 0 and
    65535: neither [roll < 0] nor [roll > 65535] holds. *)
Theorem generateRoll_is_uint16 (serverSeed clientEntropy : string) :
  exists z,
    Bytes.readUInt16BE
      (SHA256.hmac (Bytes.of_string serverSeed)
                   (Bytes.of_string clientEntropy)) = Some z
    /\ 0 <= z <= 65535
    /\ Dice.generateRoll serverSeed clientEntropy = JS.num_of_Z z
    /\ JS.lt (Dice.generateRoll serverSeed clientEntropy) 0%float = false
    /\ JS.gt (Dice.generateRoll serverSeed clientEntropy) 65535%float = false.
Proof.
  exists (Dice.rollZ serverSeed clientEntropy).
  pose proof (rollZ_range serverSeed clientEntropy) as Hr.
  split; [apply hmac_readable|]. split; [exact Hr|].
  split; [reflexivity|]. unfold JS.lt, JS.gt, Dice.generateRoll.
  change 0%float with (JS.num_of_Z 0).
  change 65535%float with (JS.num_of_Z 65535).
  rewrite !ltb_num_of_Z by lia. split; apply Z.ltb_ge; lia.
Qed.

Lemma be_octets_octets (n : nat) (v : Z) :
  Hex.octets (Bytes.be_octets n v)
  /\ List.length (Bytes.be_octets n v) = n.
Proof.
  induction n as [ | k [IH1 IH2] ]; cbn [Bytes.be_octets List.length].
  - split; [constructor | reflexivity].
  - split; [constructor; [apply land_255 | exact IH1] | congruence].
Qed.

Lemma words_octets (ws : list Z) :
  Hex.octets (flat_map (Bytes.be_octets 4) ws)
  /\ List.length (flat_map (Bytes.be_octets 4) ws)
     = (4 * List.length ws)%nat.
Proof.
  induction ws as [ | w rest [IH1 IH2] ]; cbn [flat_map].
  - split; [constructor | reflexivity].
  - destruct (be_octets_octets 4 w) as [Ho Hl]. split.
    + apply Forall_app. split; assumption.
    + rewrite length_app, Hl, IH2. cbn [List.length]. lia.
Qed.

(** A digest is thirty-two octets. *)
Lemma hash_octets (msg : Bytes.buffer) :
  Hex.octets (SHA256.hash msg) /\ List.length (SHA256.hash msg) = 32%nat.
Proof.
  unfold SHA256.hash, SHA256.digest_of.
  match goal with
  | |- context [flat_map _ ?ws] => destruct (words_octets ws) as [Ho Hl]
  end.
  split; [exact Ho | exact Hl].
Qed.

Lemma to_hex_length (bs : Bytes.buffer) :
  String.length (Bytes.to_hex bs) = (2 * List.length bs)%nat.
Proof.
  induction bs as [ | b rest IH ]; [reflexivity|].
  cbn [Bytes.to_hex String.length List.length]. rewrite IH. lia.
Qed.

(** The sixteen digits, written and read back. *)
Lemma hex_digit_table :
  Binary64.all_in 4
    (fun d => Hex.digit (Bytes.hex_digit d)
              && (Hex.value (Bytes.hex_digit d) =? d)) 0
  = true.
Proof. vm_compute. reflexivity. Qed.

Lemma hex_digit_ok (d : Z) :
  0 <= d < 16 ->
  Hex.digit (Bytes.hex_digit d) = true
  /\ Hex.value (Bytes.hex_digit d) = d.
Proof.
  intros Hd.
  pose proof (all_in_spec 4 _ 0 hex_digit_table d ltac:(cbn; lia)) as H.
  cbv beta in H. apply andb_prop in H. destruct H as [H1 H2].
  apply Z.eqb_eq in H2. auto.
Qed.

Lemma octet_halves (b : Z) :
  0 <= b < 256 ->
  0 <= Z.shiftr b 4 < 16 /\ 0 <= Z.land b 15 < 16
  /\ b = 16 * Z.shiftr b 4 + Z.land b 15.
Proof.
  intros Hb. rewrite Z.shiftr_div_pow2 by lia.
  change 15 with (Z.ones 4). rewrite Z.land_ones by lia.
  change (2 ^ 4) with 16.
  pose proof (Z.div_mod b 16 ltac:(lia)).
  pose proof (Z.mod_pos_bound b 16 ltac:(lia)).
  assert (0 <= b / 16 < 16)
    by (split; [apply Z.div_pos | apply Z.div_lt_upper_bound]; lia).
  lia.
Qed.

Lemma to_hex_text (bs : Bytes.buffer) :
  Hex.octets bs -> Hex.text (Bytes.to_hex bs) = true.
Proof.
  induction 1 as [ | b rest Hb _ IH ]; [reflexivity|].
  cbn [Bytes.to_hex Hex.text].
  destruct (octet_halves b Hb) as (Hh & Hl & _).
  destruct (hex_digit_ok _ Hh) as [-> _].
  destruct (hex_digit_ok _ Hl) as [-> _].
  exact IH.
Qed.

(** Hexadecimal text determines the octets it was written from. *)
Lemma to_hex_injective (bs1 : Bytes.buffer) :
  forall bs2,
    Hex.octets bs1 -> Hex.octets bs2 ->
    Bytes.to_hex bs1 = Bytes.to_hex bs2 -> bs1 = bs2.
Proof.
  induction bs1 as [ | b1 rest1 IH ]; intros [ | b2 rest2 ] H1 H2 E;
    cbn [Bytes.to_hex] in E; try discriminate; [reflexivity|].
  inversion H1 as [ | ? ? Hb1 Hr1 ]; subst.
  inversion H2 as [ | ? ? Hb2 Hr2 ]; subst.
  injection E as Eh El Er.
  destruct (octet_halves b1 Hb1) as (Hh1 & Hl1 & D1).
  destruct (octet_halves b2 Hb2) as (Hh2 & Hl2 & D2).
  apply (f_equal Hex.value) in Eh, El.
  rewrite (proj2 (hex_digit_ok _ Hh1)), (proj2 (hex_digit_ok _ Hh2)) in Eh.
  rewrite (proj2 (hex_digit_ok _ Hl1)), (proj2 (hex_digit_ok _ Hl2)) in El.
  f_equal; [lia | apply IH; assumption].
Qed.

(** X7.  The commitment.  For every seed text [commitSeed] is sixty-four
    characters, each a lower-case hexadecimal digit. *)
Theorem commitSeed_is_64_hex_digits (serverSeed : string) :
  String.length (Dice.commitSeed serverSeed) = 64%nat
  /\ Hex.text (Dice.commitSeed serverSeed) = true.
Proof.
  unfold Dice.commitSeed.
  destruct (hash_octets (Bytes.of_string serverSeed)) as [Ho Hl].
  split.
  - rewrite to_hex_length, Hl. reflexivity.
  - apply to_hex_text. exact Ho.
Qed.

(** X8.  Seeds, entropies and identifiers.  With [crypto.randomBytes]
    giving as many octets as asked for, a server seed and a development
    entropy are sixty-four lower-case hexadecimal digits and a game
    identifier is ['g_'] and eight such digits; and each is a faithful
    writing of its octets: two draws give the same text only when they
    are the same octets. *)
Theorem random_texts_are_faithful (draw1 draw2 : nat -> Bytes.buffer) :
  Hex.source draw1 -> Hex.source draw2 ->
  (String.length (Dice.generateServerSeed draw1) = 64%nat
   /\ Hex.text (Dice.generateServerSeed draw1) = true)
  /\ (String.length (Dice.generateDevEntropy draw1) = 64%nat
      /\ Hex.text (Dice.generateDevEntropy draw1) = true)
  /\ (exists digits,
        Db.generateGameId draw1 = String "g" (String "_" digits)
        /\ String.length digits = 8%nat /\ Hex.text digits = true)
  /\ (Dice.generateServerSeed draw1 = Dice.generateServerSeed draw2 ->
      draw1 32%nat = draw2 32%nat)
  /\ (Dice.generateDevEntropy draw1 = Dice.generateDevEntropy draw2 ->
      draw1 32%nat = draw2 32%nat)
  /\ (Db.generateGameId draw1 = Db.generateGameId draw2 ->
      draw1 4%nat = draw2 4%nat).
Proof.
  intros S1 S2.
  destruct (S1 32%nat) as [L32 O32]. destruct (S1 4%nat) as [L4 O4].
  destruct (S2 32%nat) as [_ P32]. destruct (S2 4%nat) as [_ P4].
  unfold Dice.generateServerSeed, Dice.generateDevEntropy, Db.generateGameId.
  repeat split.
  - rewrite to_hex_length, L32. reflexivity.
  - apply to_hex_text. exact O32.
  - rewrite to_hex_length, L32. reflexivity.
  - apply to_hex_text. exact O32.
  - exists (Bytes.to_hex (draw1 4%nat)). split; [reflexivity|].
    split; [rewrite to_hex_length, L4; reflexivity|].
    apply to_hex_text. exact O4.
  - apply to_hex_injective; assumption.
  - apply to_hex_injective; assumption.
  - intros E. cbn [String.append] in E. injection E as E.
    apply to_hex_injective; assumption.
Qed.

Lemma random_texts_are_faithful_witness :
  let draw1 := fun n => repeat 171 n in
  let draw2 := fun n => repeat 18 n in
  (String.length (Dice.generateServerSeed draw1) = 64%nat
   /\ Hex.text (Dice.generateServerSeed draw1) = true)
  /\ (String.length (Dice.generateDevEntropy draw1) = 64%nat
      /\ Hex.text (Dice.generateDevEntropy draw1) = true)
  /\ (exists digits,
        Db.generateGameId draw1 = String "g" (String "_" digits)
        /\ String.length digits = 8%nat /\ Hex.text digits = true)
  /\ (Dice.generateServerSeed draw1 = Dice.generateServerSeed draw2 ->
      draw1 32%nat = draw2 32%nat)
  /\ (Dice.generateDevEntropy draw1 = Dice.generateDevEntropy draw2 ->
      draw1 32%nat = draw2 32%nat)
  /\ (Db.generateGameId draw1 = Db.generateGameId draw2 ->
      draw1 4%nat = draw2 4%nat).
Proof.
  assert (S : forall b, 0 <= b < 256 -> Hex.source (fun n => repeat b n)).
  { intros b Hb n. split; [apply repeat_length|].
    apply Forall_forall. intros x Hx. apply repeat_spec in Hx. lia. }
  exact (random_texts_are_faithful _ _ (S 171 ltac:(lia)) (S 18 ltac:(lia))).
Defined.

(* ================================================================== *)
(** * The multiplier along the thresholds *)
(* ================================================================== *)

(** From each threshold to the next the multiplier falls: checked on the
    whole table. *)
Lemma falls_table :
  Binary64.all_in 16
    (fun t => (t =? 0) || (65535 <=? t) || Odds.falls_at t) 0
  = true.
Proof. vm_compute. reflexivity. Qed.

Lemma falls_step (t : Z) :
  1 <= t < 65535 ->
  exists a b,
    Odds.key (Config.getMultiplier Config.default (JS.num_of_Z t)) = Some a
    /\ Odds.key (Config.getMultiplier Config.default (JS.num_of_Z (t + 1)))
       = Some b
    /\ b < a.
Proof.
  intros Ht.
  pose proof (all_in_spec 16 _ 0 falls_table t ltac:(cbn; lia)) as H.
  cbv beta in H.
  apply orb_prop in H. destruct H as [H | H].
  - apply orb_prop in H. destruct H as [H | H]; lia.
  - unfold Odds.falls_at in H.
    destruct (Odds.key (Config.getMultiplier Config.default (JS.num_of_Z t)))
      as [a|]; [|discriminate].
    destruct (Odds.key
                (Config.getMultiplier Config.default (JS.num_of_Z (t + 1))))
      as [b|]; [|discriminate].
    exists a, b. repeat split. lia.
Qed.

Lemma falls_chain (n : nat) :
  forall t,
    1 <= t -> t + 1 + Z.of_nat n <= 65535 ->
    exists a b,
      Odds.key (Config.getMultiplier Config.default (JS.num_of_Z t)) = Some a
      /\ Odds.key
           (Config.getMultiplier Config.default
              (JS.num_of_Z (t + 1 + Z.of_nat n))) = Some b
      /\ b < a.
Proof.
  induction n as [ | n IH ]; intros t Ht Hn.
  - replace (t + 1 + Z.of_nat 0) with (t + 1) by lia.
    apply falls_step. lia.
  - destruct (IH t Ht ltac:(lia)) as (a & b & Ha & Hb & Hab).
    destruct (falls_step (t + 1 + Z.of_nat n) ltac:(lia))
      as (b' & c & Hb' & Hc & Hbc).
    rewrite Hb in Hb'. injection Hb' as <-.
    exists a, c. split; [exact Ha|]. split; [|lia].
    rewrite <- Hc. do 3 f_equal. lia.
Qed.

(** Keys order Numbers as [<] does. *)
Lemma key_order (x y : float) (a b : Z) :
  Odds.key x = Some a -> Odds.key y = Some b -> b < a ->
  (y <? x)%float = true.
Proof.
  unfold Odds.key. rewrite FloatAxioms.ltb_spec. unfold SFltb.
  destruct (Prim2SF x) as [ | | | [ | ] mx ex ]; try discriminate.
  destruct (Prim2SF y) as [ | | | [ | ] my ey ]; try discriminate.
  destruct ((2 ^ 52 <=? Z.pos mx) && (Z.pos mx <? 2 ^ 53)) eqn:Hx;
    [|discriminate].
  destruct ((2 ^ 52 <=? Z.pos my) && (Z.pos my <? 2 ^ 53)) eqn:Hy;
    [|discriminate].
  intros [= <-] [= <-] Hlt.
  apply andb_prop in Hx, Hy. destruct Hx as [Hx1 Hx2], Hy as [Hy1 Hy2].
  apply Z.leb_le in Hx1, Hy1. apply Z.ltb_lt in Hx2, Hy2.
  cbn [SFcompare].
  destruct (Z.compare_spec ey ex) as [E | L | G].
  - subst ey.
    change (Pos.compare_cont Eq my mx) with (Z.pos my ?= Z.pos mx).
    replace (Z.pos my ?= Z.pos mx) with Lt
      by (symmetry; apply Z.compare_lt_iff; lia).
    reflexivity.
  - reflexivity.
  - exfalso. change (2 ^ 53) with (2 * 2 ^ 52) in *. lia.
Qed.

(** X9.  Lower target, higher payout.  With the default configuration
    the multiplier of a threshold is strictly greater than that of every
    greater threshold, over the whole range 1 to 65535; so threshold 1,
    which [getDynamicMaxBet] takes as the worst case, has the highest
    multiplier and threshold 65535 the lowest. *)
Theorem multiplier_falls_as_target_rises (t1 t2 : Z) :
  1 <= t1 -> t1 < t2 -> t2 <= 65535 ->
  JS.lt (Dice.getMultiplier Config.default (JS.num_of_Z t2))
        (Dice.getMultiplier Config.default (JS.num_of_Z t1)) = true.
Proof.
  intros H1 H12 H2. unfold JS.lt, Dice.getMultiplier.
  destruct (falls_chain (Z.to_nat (t2 - t1 - 1)) t1 H1 ltac:(lia))
    as (a & b & Ha & Hb & Hab).
  replace (t1 + 1 + Z.of_nat (Z.to_nat (t2 - t1 - 1))) with t2 in Hb by lia.
  exact (key_order _ _ a b Ha Hb Hab).
Qed.

Lemma multiplier_falls_as_target_rises_witness :
  JS.lt (Dice.getMultiplier Config.default (JS.num_of_Z 32768))
        (Dice.getMultiplier Config.default (JS.num_of_Z 1000)) = true.
Proof.
  apply (multiplier_falls_as_target_rises 1000 32768); lia.
Defined.

(** [Math.min(x, y)] is never above [x] either. *)
Lemma min_not_above_left (x y : float) : JS.gt (JS.min x y) x = false.
Proof.
  unfold JS.gt, JS.min.
  assert (Hrefl : forall z, is_nan z = false -> (z <? z)%float = false).
  { intros z Hz. rewrite FloatAxioms.ltb_spec. unfold SFltb.
    pose proof (Prim2SF_nan z Hz) as Nz.
    destruct (Prim2SF z) as [ s | s | | s m e ]; try congruence.
    - destruct s; reflexivity.
    - destruct s; reflexivity.
    - cbn [SFcompare]. rewrite Z.compare_refl.
      change (Pos.compare_cont Eq m m) with (Pos.compare m m).
      rewrite Pos.compare_refl. destruct s; reflexivity. }
  destruct (is_nan x || is_nan y) eqn:Hn.
  - rewrite FloatAxioms.ltb_spec. destruct (Prim2SF x); reflexivity.
  - apply orb_false_elim in Hn. destruct Hn as [Hx Hy].
    destruct (x <? y)%float eqn:Hxy; [apply Hrefl; exact Hx|].
    destruct (y <? x)%float eqn:Hyx; [apply ltb_asym; exact Hyx|].
    destruct (get_sign x); [apply Hrefl; exact Hx | exact Hxy].
Qed.

(** X10.  The dynamic ceiling.  Whatever the bankroll and the
    configuration, [getDynamicMaxBet] is never above the configured
    [maxBet], and never above the bankroll-derived limit
    [floor(bankroll / highestMultiplier / safetyFactor)]. *)
Theorem getDynamicMaxBet_within_both_limits (config : Config.t)
    (currentBankroll : JS.number) :
  JS.gt (Config.getDynamicMaxBet config currentBankroll)
        (Config.maxBet config) = false
  /\ JS.gt (Config.getDynamicMaxBet config currentBankroll)
           (JS.floor (currentBankroll / Config.getMultiplier config 1
                      / Config.safetyFactor config)%float) = false.
Proof.
  unfold Config.getDynamicMaxBet. cbv zeta.
  split; [apply min_not_above_left | apply min_not_above].
Qed.

(* ================================================================== *)
(** * The [/roll] handler, request by request *)
(* ================================================================== *)

(** What a 200 of [/roll] says about the request: both checks passed,
    an entropy was found, the resolved game was inserted, and the
    response carries its fields. *)
Lemma roll_success (config : Config.t) (rnd : Server.draws)
    (req : Server.request) (db db' : Db.t) (body : Server.roll_body) :
  Server.roll_handler config rnd req db = (Server.Rolled body, db') ->
  let target :=
    Server.parse_or (Server.q_target req) (Config.defaultTarget config) in
  let betSats :=
    Server.parse_or (Server.q_bet req) (Config.defaultBet config) in
  exists clientEntropy,
    let g := Dice.resolveGame config target betSats
               (Server.fresh_seed rnd) clientEntropy in
    let game :=
      {| Db.rec_id := Server.fresh_id rnd;
         Db.rec_game := g;
         Db.payoutMethod := Some (JS.or_str (Server.q_payout req) "keysend");
         Db.payoutStatus :=
           Some (match Dice.result g with
                 | Dice.loss => "n/a"
                 | Dice.win => "pending"
                 end);
         Db.playerPubkey := Server.extractPlayerPubkey req |} in
    JS.lt target 1%float = false
    /\ JS.gt target (Config.maxRoll config) = false
    /\ JS.lt betSats (Config.minBet config) = false
    /\ JS.gt betSats (Config.maxBet config) = false
    /\ JS.truthy (Server.extractClientEntropy config rnd req)
       = Some clientEntropy
    /\ Db.saveGame db game = Some db'
    /\ Server.game_id body = Server.fresh_id rnd
    /\ Server.roll body = Dice.roll g
    /\ Server.target body = target
    /\ Server.result body = Dice.result g
    /\ Server.bet_sats body = betSats
    /\ Server.multiplier body = Dice.multiplier g
    /\ Server.payout_sats body = Dice.payoutSats g
    /\ Server.payout_method body = JS.or_str (Server.q_payout req) "keysend"
    /\ Server.server_seed body = Server.fresh_seed rnd
    /\ Server.server_seed_hash body = Dice.commitSeed (Server.fresh_seed rnd)
    /\ Server.client_entropy body = clientEntropy
    /\ Server.payout_status body
       = match Dice.result g with
         | Dice.win =>
             if JS.gt (Dice.payoutSats g) 0%float then
               if Config.devMode config then "sent" else "failed"
             else "pending"
         | Dice.loss => "n/a"
         end.
Proof.
  unfold Server.roll_handler.
  set (target := Server.parse_or (Server.q_target req) _).
  set (betSats := Server.parse_or (Server.q_bet req) _).
  destruct (JS.lt target 1%float || JS.gt target (Config.maxRoll config))
    eqn:Ht; [discriminate|].
  destruct (JS.lt betSats (Config.minBet config)
            || JS.gt betSats (Config.maxBet config)) eqn:Hb; [discriminate|].
  destruct (JS.truthy (Server.extractClientEntropy config rnd req))
    as [clientEntropy|]; [|discriminate].
  intros H. exists clientEntropy. cbv zeta. revert H.
  set (g := Dice.resolveGame config target betSats _ clientEntropy).
  set (game := Db.mkRecord _ _ _ _ _).
  destruct (Db.saveGame db game) as [db1|] eqn:Hsave; [|discriminate].
  intros H.
  pose proof (f_equal snd H) as Hdb. cbn [snd] in Hdb. subst db1.
  pose proof (f_equal fst H) as Hfst. cbn [fst] in Hfst. clear H.
  pose proof (f_equal (fun r => match r with
                                | Server.Rolled b => b
                                | _ => body
                                end) Hfst) as Hbody.
  cbv beta iota in Hbody. clear Hfst.
  assert (Hseed : Dice.serverSeed g = Server.fresh_seed rnd) by reflexivity.
  assert (Hhash : Dice.serverSeedHash g
                  = Dice.commitSeed (Server.fresh_seed rnd)) by reflexivity.
  assert (Hent : Dice.clientEntropy g = clientEntropy) by reflexivity.
  clearbody g target betSats.
  apply orb_false_elim in Ht, Hb. destruct Ht as [Ht1 Ht2], Hb as [Hb1 Hb2].
  rewrite <- Hbody.
  cbn [Server.game_id Server.roll Server.target Server.result
       Server.bet_sats Server.multiplier Server.payout_sats
       Server.payout_method Server.server_seed Server.server_seed_hash
       Server.client_entropy Server.payout_status].
  split; [exact Ht1|]. split; [exact Ht2|].
  split; [exact Hb1|]. split; [exact Hb2|].
  split; [exact eq_refl|]. split; [exact eq_refl|].
  split; [exact eq_refl|]. split; [exact eq_refl|].
  split; [exact eq_refl|]. split; [exact eq_refl|].
  split; [exact eq_refl|]. split; [exact eq_refl|].
  split; [exact eq_refl|]. split; [exact eq_refl|].
  split; [exact Hseed|]. split; [exact Hhash|]. split; [exact Hent|].
  unfold Payout.sendPayout.
  destruct (Dice.result g); [|exact eq_refl].
  destruct (JS.gt (Dice.payoutSats g) 0%float); [|exact eq_refl].
  destruct (Config.devMode config); exact eq_refl.
Qed.

(** [/roll] answers with an error and the table as it was, or with 200. *)
Lemma roll_cases (config : Config.t) (rnd : Server.draws)
    (req : Server.request) (db : Db.t) :
  (exists status error,
     Server.roll_handler config rnd req db
     = (Server.Failure status error, db))
  \/ exists body db',
       Server.roll_handler config rnd req db = (Server.Rolled body, db').
Proof.
  unfold Server.roll_handler.
  set (target := Server.parse_or (Server.q_target req) _).
  set (betSats := Server.parse_or (Server.q_bet req) _).
  destruct (JS.lt target 1%float || JS.gt target (Config.maxRoll config));
    [left; eexists _, _; exact eq_refl|].
  destruct (JS.lt betSats (Config.minBet config)
            || JS.gt betSats (Config.maxBet config));
    [left; eexists _, _; exact eq_refl|].
  destruct (JS.truthy (Server.extractClientEntropy config rnd req))
    as [clientEntropy|]; [|left; eexists _, _; exact eq_refl].
  set (g := Dice.resolveGame config target betSats _ clientEntropy).
  set (game := Db.mkRecord _ _ _ _ _).
  destruct (Db.saveGame db game) as [db1|];
    [|left; eexists _, _; exact eq_refl].
  clearbody g target betSats.
  right. eexists _, _. exact eq_refl.
Qed.

(** The fields of a resolved game. *)
Lemma resolveGame_fields (config : Config.t) (target betSats : JS.number)
    (serverSeed clientEntropy : string) :
  let g := Dice.resolveGame config target betSats serverSeed clientEntropy in
  Dice.roll g = Dice.generateRoll serverSeed clientEntropy
  /\ Dice.target g = target
  /\ Dice.result g
     = (if JS.lt (Dice.generateRoll serverSeed clientEntropy) target
        then Dice.win else Dice.loss)
  /\ Dice.betSats g = betSats
  /\ Dice.serverSeed g = serverSeed
  /\ Dice.serverSeedHash g = Dice.commitSeed serverSeed
  /\ Dice.clientEntropy g = clientEntropy
  /\ (JS.lt (Dice.generateRoll serverSeed clientEntropy) target = false ->
      Dice.payoutSats g = 0%float).
Proof.
  cbv zeta. unfold Dice.resolveGame.
  cbn [Dice.roll Dice.target Dice.result Dice.betSats Dice.serverSeed
       Dice.serverSeedHash Dice.clientEntropy Dice.payoutSats].
  repeat split; try exact eq_refl.
  intros ->. exact eq_refl.
Qed.

(** X12.  Roll, then verify.  After a 200 of [/roll], [/verify] of the
    identifier the response gave answers 200 with [verified: true], and
    everything it reports is what the response reported: seed,
    commitment, entropy, the recomputed roll, target, result, stake,
    payout and multiplier. *)
Theorem roll_then_verify_agrees (config : Config.t) (rnd : Server.draws)
    (req : Server.request) (db db' : Db.t) (body : Server.roll_body) :
  Server.roll_handler config rnd req db = (Server.Rolled body, db') ->
  Server.verify_handler (Server.game_id body) db'
  = Server.Checked
      {| Server.v_game_id := Server.game_id body;
         Server.v_verification :=
           Dice.Verified (Server.server_seed body)
             (Server.server_seed_hash body) (Server.client_entropy body)
             (Server.roll body) (Server.target body) (Server.result body);
         Server.v_bet_sats := Server.bet_sats body;
         Server.v_payout_sats := Server.payout_sats body;
         Server.v_multiplier := Server.multiplier body |}.
Proof.
  intros H. pose proof (roll_success _ _ _ _ _ _ H) as S. cbv zeta in S.
  destruct S as (e & _ & _ & _ & _ & _ & Hsave & Hid & Hroll & Htarget
                 & Hres & Hbet & Hmul & Hpay & _ & Hseed & Hhash & Hent & _).
  apply saveGame_appends in Hsave. destruct Hsave as [_ Hget].
  cbn [Db.rec_id] in Hget.
  unfold Server.verify_handler. rewrite Hid, Hget.
  rewrite Hroll, Htarget, Hres, Hbet, Hmul, Hpay, Hseed, Hhash, Hent.
  set (target := Server.parse_or (Server.q_target req) _).
  set (betSats := Server.parse_or (Server.q_bet req) _).
  pose proof (resolveGame_fields config target betSats
                (Server.fresh_seed rnd) e) as F.
  pose proof (resolved_game_verifies config target betSats
                (Server.fresh_seed rnd) e) as V.
  cbv zeta in F.
  set (g := Dice.resolveGame config target betSats (Server.fresh_seed rnd) e)
    in *.
  destruct F as (Fr & _ & Fres & Fb & _).
  clearbody g target betSats.
  unfold Server.evidence_of_row, Db.row_of.
  cbn [Db.rec_game Db.server_seed Db.server_seed_hash Db.client_entropy
       Db.roll Db.target Db.bet_sats Db.payout_sats Db.multiplier].
  change {| Dice.ev_serverSeed := Dice.serverSeed g;
            Dice.ev_serverSeedHash := Dice.serverSeedHash g;
            Dice.ev_clientEntropy := Dice.clientEntropy g;
            Dice.ev_roll := Dice.roll g;
            Dice.ev_target := Dice.target g |}
    with (Dice.evidence_of g).
  rewrite V, Fr, Fres, Fb. reflexivity.
Qed.

Lemma roll_then_verify_agrees_witness :
  exists body db',
    Server.roll_handler Config.default (Sample.draws "g_00c0ffee")
      (Sample.get_roll (Some "32768") (Some "100") None) Sample.ledger
    = (Server.Rolled body, db')
    /\ Server.verify_handler (Server.game_id body) db'
       = Server.Checked
           {| Server.v_game_id := Server.game_id body;
              Server.v_verification :=
                Dice.Verified (Server.server_seed body)
                  (Server.server_seed_hash body)
                  (Server.client_entropy body) (Server.roll body)
                  (Server.target body) (Server.result body);
              Server.v_bet_sats := Server.bet_sats body;
              Server.v_payout_sats := Server.payout_sats body;
              Server.v_multiplier := Server.multiplier body |}.
Proof.
  destruct (Server.roll_handler Config.default (Sample.draws "g_00c0ffee")
              (Sample.get_roll (Some "32768") (Some "100") None)
              Sample.ledger)
    as [[status error | body | checked] db'] eqn:H.
  - exfalso. vm_compute in H. discriminate H.
  - exists body, db'. split; [reflexivity|].
    exact (roll_then_verify_agrees _ _ _ _ _ _ H).
  - exfalso. vm_compute in H. discriminate H.
Defined.

Lemma row_of_sound (config : Config.t) (target betSats : JS.number)
    (serverSeed clientEntropy id : string)
    (method status player : option string) :
  let g := Dice.resolveGame config target betSats serverSeed clientEntropy in
  let r := Db.row_of (Db.mkRecord id g method
                        (Some (match Dice.result g with
                               | Dice.loss => "n/a"
                               | Dice.win => "pending"
                               end)) player) in
  Db.violates_not_null r = false -> Traffic.sound r.
Proof.
  cbv zeta. intros Hnn.
  pose proof (resolveGame_fields config target betSats serverSeed
                clientEntropy) as F.
  pose proof (resolved_game_verifies config target betSats serverSeed
                clientEntropy) as V.
  cbv zeta in F.
  set (g := Dice.resolveGame config target betSats serverSeed clientEntropy)
    in *.
  destruct F as (Fr & Ft & Fres & _ & _ & _ & _ & Fpay).
  clearbody g.
  unfold Traffic.sound.
  split; [|split; [|split; [exact Hnn|]]].
  - unfold Server.evidence_of_row, Db.row_of.
    cbn [Db.rec_game Db.server_seed Db.server_seed_hash Db.client_entropy
         Db.roll Db.target].
    change {| Dice.ev_serverSeed := Dice.serverSeed g;
              Dice.ev_serverSeedHash := Dice.serverSeedHash g;
              Dice.ev_clientEntropy := Dice.clientEntropy g;
              Dice.ev_roll := Dice.roll g;
              Dice.ev_target := Dice.target g |}
      with (Dice.evidence_of g).
    rewrite V. reflexivity.
  - unfold Db.row_of. cbn [Db.rec_game Db.roll Db.target Db.result].
    rewrite Fr, Ft, Fres. reflexivity.
  - unfold Db.row_of.
    cbn [Db.rec_game Db.roll Db.target Db.payout_status Db.payoutStatus
         Db.payout_sats JS.or_str JS.truthy].
    rewrite Fr, Ft, Fres. split; [|exact Fpay].
    destruct (JS.lt (Dice.generateRoll serverSeed clientEntropy) target);
      reflexivity.
Qed.

(** One request keeps a ledger of distinct identifiers and sound rows
    that way. *)
Lemma roll_keeps_ledger (config : Config.t) (rnd : Server.draws)
    (req : Server.request) (db : Db.t) :
  NoDup (map Db.id db) /\ Forall Traffic.sound db ->
  NoDup (map Db.id (snd (Server.roll_handler config rnd req db)))
  /\ Forall Traffic.sound (snd (Server.roll_handler config rnd req db)).
Proof.
  intros [Hnd Hs].
  destruct (roll_cases config rnd req db)
    as [(status & error & H) | (body & db' & H)]; rewrite H; cbn [snd].
  - split; assumption.
  - pose proof (roll_success _ _ _ _ _ _ H) as S. cbv zeta in S.
    destruct S as (e & _ & _ & _ & _ & _ & Hsave & _).
    apply saveGame_inv in Hsave. destruct Hsave as (-> & Hnew & Hnn).
    apply getGame_none in Hnew. cbn [Db.rec_id] in Hnew. split.
    + rewrite map_app. cbn [map].
      apply NoDup_app; [exact Hnd | repeat constructor; intros [] |].
      intros x Hx [<- | []]. contradiction.
    + apply Forall_app. split; [exact Hs|]. constructor; [|constructor].
      exact (row_of_sound config _ _ _ _ _ _ None _ Hnn).
Qed.

(** X13.  The ledger the handler builds.  Whatever requests [/roll]
    serves from an empty table, in whatever order and with whatever
    draws, the rows it leaves have pairwise distinct identifiers, and
    every one of them passes [verifyGame], carries the result its roll
    and target give, holds no NaN, has the payout status 'pending' (a
    win) or 'n/a' (a loss), and pays 0 when lost. *)
Theorem served_ledger_is_sound (config : Config.t)
    (calls : list (Server.draws * Server.request)) :
  NoDup (map Db.id (Traffic.serve config calls []))
  /\ Forall Traffic.sound (Traffic.serve config calls []).
Proof.
  assert (Hgen : forall db,
            NoDup (map Db.id db) /\ Forall Traffic.sound db ->
            NoDup (map Db.id (Traffic.serve config calls db))
            /\ Forall Traffic.sound (Traffic.serve config calls db)).
  { induction calls as [ | [rnd req] rest IH ]; intros db Hdb;
      cbn [Traffic.serve]; [exact Hdb|].
    apply IH. apply roll_keeps_ledger. exact Hdb. }
  apply Hgen. split; constructor.
Qed.

Lemma truthy_some (x : option string) (e : string) :
  JS.truthy x = Some e -> x = Some e /\ e <> "".
Proof.
  destruct x as [ [ | c s ] | ]; cbn [JS.truthy]; try discriminate.
  intros [= <-]. split; [reflexivity | discriminate].
Qed.

(** X14.  No unpaid game in production.  With [devMode] off, a 200 of
    [/roll] means the request carried an [authorization] header that
    starts with 'L402 ' and has a colon, and the game's client entropy is
    the trimmed text after the header's last colon, which is not empty.
    No entropy is drawn by the server. *)
Theorem production_roll_needs_l402 (config : Config.t) (rnd : Server.draws)
    (req : Server.request) (db db' : Db.t) (body : Server.roll_body) :
  Config.devMode config = false ->
  Server.roll_handler config rnd req db = (Server.Rolled body, db') ->
  exists authHeader last,
    Server.h_authorization req = Some authHeader
    /\ JS.startsWith "L402 " authHeader = true
    /\ Server.after_last_colon authHeader = Some last
    /\ Server.client_entropy body = JS.trim last
    /\ Server.client_entropy body <> "".
Proof.
  intros Hprod H. pose proof (roll_success _ _ _ _ _ _ H) as S.
  cbv zeta in S.
  destruct S as (e & _ & _ & _ & _ & He & _ & _ & _ & _ & _ & _ & _ & _ & _
                 & _ & _ & Hent & _).
  apply truthy_some in He. destruct He as [He Hne].
  rewrite Hent. unfold Server.extractClientEntropy in He.
  rewrite Hprod in He.
  destruct (Server.h_authorization req) as [authHeader|]; [|discriminate].
  destruct (JS.startsWith "L402 " authHeader) eqn:Hs; [|discriminate].
  destruct (Server.after_last_colon authHeader) as [last|] eqn:Hl;
    [|discriminate].
  injection He as <-. exists authHeader, last. auto.
Qed.

Lemma production_roll_needs_l402_witness :
  exists body db',
    Server.roll_handler Sample.production (Sample.draws "g_00c0ffee")
      (Sample.paid_roll (Some "32768") (Some "100") None) []
    = (Server.Rolled body, db')
    /\ exists authHeader last,
         Server.h_authorization
           (Sample.paid_roll (Some "32768") (Some "100") None)
         = Some authHeader
         /\ JS.startsWith "L402 " authHeader = true
         /\ Server.after_last_colon authHeader = Some last
         /\ Server.client_entropy body = JS.trim last
         /\ Server.client_entropy body <> "".
Proof.
  destruct (Server.roll_handler Sample.production (Sample.draws "g_00c0ffee")
              (Sample.paid_roll (Some "32768") (Some "100") None) [])
    as [[status error | body | checked] db'] eqn:H.
  - exfalso. vm_compute in H. discriminate H.
  - exists body, db'. split; [reflexivity|].
    exact (production_roll_needs_l402 Sample.production _ _ _ _ _ eq_refl H).
  - exfalso. vm_compute in H. discriminate H.
Defined.

Lemma colon_free_none (s : string) :
  Traffic.colon_free s = true -> Server.after_last_colon s = None.
Proof.
  induction s as [ | c rest IH ]; [reflexivity|].
  cbn [Traffic.colon_free Server.after_last_colon]. intros H.
  apply andb_prop in H. destruct H as [Hc Hrest].
  rewrite (IH Hrest). destruct (Ascii.eqb c ":"); [discriminate|reflexivity].
Qed.

Lemma after_last_colon_app (head last : string) :
  Traffic.colon_free last = true ->
  Server.after_last_colon (head ++ String ":" last) = Some last.
Proof.
  intros H. induction head as [ | c rest IH ];
    cbn [String.append Server.after_last_colon].
  - rewrite (colon_free_none last H). reflexivity.
  - rewrite IH. reflexivity.
Qed.

(** X15.  The entropy of a paid request.  When the [authorization]
    header is 'L402 ', a macaroon (which may itself hold colons), a colon
    and a preimage without colon, [extractClientEntropy] returns the
    trimmed preimage, in development as in production: the server's own
    random entropy is not used. *)
Theorem l402_header_gives_entropy (config : Config.t) (rnd : Server.draws)
    (req : Server.request) (macaroon preimage : string) :
  Server.h_authorization req
  = Some ("L402 " ++ macaroon ++ String ":" preimage) ->
  Traffic.colon_free preimage = true ->
  Server.extractClientEntropy config rnd req = Some (JS.trim preimage).
Proof.
  intros Hh Hp. unfold Server.extractClientEntropy. rewrite Hh.
  assert (Hs : JS.startsWith "L402 "
                 ("L402 " ++ macaroon ++ String ":" preimage) = true)
    by reflexivity.
  rewrite Hs.
  assert (Hl : Server.after_last_colon
                 ("L402 " ++ macaroon ++ String ":" preimage)
               = Some preimage).
  { cbn [String.append Server.after_last_colon].
    rewrite (after_last_colon_app macaroon preimage Hp). reflexivity. }
  rewrite Hl. reflexivity.
Qed.

Lemma l402_header_gives_entropy_witness :
  Server.extractClientEntropy Sample.production (Sample.draws "g_00c0ffee")
    (Sample.paid_roll None None None)
  = Some (JS.trim Sample.entropy).
Proof.
  apply (l402_header_gives_entropy Sample.production
           (Sample.draws "g_00c0ffee") (Sample.paid_roll None None None)
           "AgEDbG5k" Sample.entropy); reflexivity.
Defined.

Lemma extractPlayerPubkey_truthy (req : Server.request) :
  JS.truthy (Server.extractPlayerPubkey req) = Server.extractPlayerPubkey req.
Proof.
  unfold Server.extractPlayerPubkey, JS.or_opt.
  destruct (Server.h_x_player_pubkey req) as [ [ | c s ] | ];
    destruct (Server.q_pubkey req) as [ [ | c' s' ] | ]; reflexivity.
Qed.

(** X16.  The record behind a response.  For a request whose [payout]
    and [pubkey] parameters are each absent or given once, as text that
    the table gives back as it was stored: after a 200 of [/roll] the
    row stored under the response's identifier holds the very values
    the response reports, field by field: roll, target, result, stake,
    multiplier, payout, payout method, seed, commitment and entropy.  Its
    player is the [x-player-pubkey] header, or else the [pubkey] query
    parameter, an empty one counting as absent, or else NULL. *)
Theorem recorded_row_matches_response (config : Config.t)
    (rnd : Server.draws) (req : Server.request) (db db' : Db.t)
    (body : Server.roll_body) :
  Traffic.plain req = true ->
  Server.roll_handler config rnd req db = (Server.Rolled body, db') ->
  exists row,
    Db.getGame db' (Server.game_id body) = Some row
    /\ Db.id row = Server.game_id body
    /\ Db.roll row = Server.roll body
    /\ Db.target row = Server.target body
    /\ Db.result row = Dice.tag (Server.result body)
    /\ Db.bet_sats row = Server.bet_sats body
    /\ Db.multiplier row = Server.multiplier body
    /\ Db.payout_sats row = Server.payout_sats body
    /\ Db.payout_method row = Server.payout_method body
    /\ Db.server_seed row = Server.server_seed body
    /\ Db.server_seed_hash row = Server.server_seed_hash body
    /\ Db.client_entropy row = Server.client_entropy body
    /\ Db.player_pubkey row
       = match JS.truthy (Server.h_x_player_pubkey req) with
         | Some header => Some header
         | None => JS.truthy (Server.q_pubkey req)
         end.
Proof.
  intros _ H. pose proof (roll_success _ _ _ _ _ _ H) as S. cbv zeta in S.
  destruct S as (e & _ & _ & _ & _ & _ & Hsave & Hid & Hroll & Htarget
                 & Hres & Hbet & Hmul & Hpay & Hmethod & Hseed & Hhash
                 & Hent & _).
  apply saveGame_appends in Hsave. destruct Hsave as [_ Hget].
  cbn [Db.rec_id] in Hget.
  set (target := Server.parse_or (Server.q_target req) _) in *.
  set (betSats := Server.parse_or (Server.q_bet req) _) in *.
  pose proof (resolveGame_fields config target betSats
                (Server.fresh_seed rnd) e) as F.
  cbv zeta in F.
  set (g := Dice.resolveGame config target betSats (Server.fresh_seed rnd) e)
    in *.
  destruct F as (_ & Ft & _ & Fb & Fs & Fh & Fe & _).
  clearbody g target betSats.
  eexists. split; [rewrite Hid; exact Hget|].
  unfold Db.row_of.
  cbn [Db.id Db.rec_id Db.rec_game Db.roll Db.target Db.result Db.bet_sats
       Db.multiplier Db.payout_sats Db.payout_method Db.payoutMethod
       Db.server_seed Db.server_seed_hash Db.client_entropy
       Db.player_pubkey Db.playerPubkey].
  rewrite Hid, Hroll, Htarget, Hres, Hbet, Hmul, Hpay, Hmethod, Hseed,
    Hhash, Hent.
  rewrite Ft, Fb, Fs, Fh, Fe, extractPlayerPubkey_truthy.
  repeat split.
  destruct (Server.q_payout req) as [ [ | c s ] | ]; reflexivity.
Qed.

Lemma recorded_row_matches_response_witness :
  exists body db',
    Server.roll_handler Config.default (Sample.draws "g_00c0ffee")
      (Sample.get_roll (Some "32768") (Some "100") (Some "carol"))
      Sample.ledger
    = (Server.Rolled body, db')
    /\ exists row,
         Db.getGame db' (Server.game_id body) = Some row
         /\ Db.id row = Server.game_id body
         /\ Db.roll row = Server.roll body
         /\ Db.target row = Server.target body
         /\ Db.result row = Dice.tag (Server.result body)
         /\ Db.bet_sats row = Server.bet_sats body
         /\ Db.multiplier row = Server.multiplier body
         /\ Db.payout_sats row = Server.payout_sats body
         /\ Db.payout_method row = Server.payout_method body
         /\ Db.server_seed row = Server.server_seed body
         /\ Db.server_seed_hash row = Server.server_seed_hash body
         /\ Db.client_entropy row = Server.client_entropy body
         /\ Db.player_pubkey row
            = match JS.truthy None with
              | Some header => Some header
              | None => JS.truthy (Some "carol")
              end.
Proof.
  destruct (Server.roll_handler Config.default (Sample.draws "g_00c0ffee")
              (Sample.get_roll (Some "32768") (Some "100") (Some "carol"))
              Sample.ledger)
    as [[status error | body | checked] db'] eqn:H.
  - exfalso. vm_compute in H. discriminate H.
  - exists body, db'. split; [reflexivity|].
    assert (P : Traffic.plain
                  (Sample.get_roll (Some "32768") (Some "100")
                     (Some "carol")) = true)
      by (vm_compute; reflexivity).
    exact (recorded_row_matches_response Config.default
             (Sample.draws "g_00c0ffee")
             (Sample.get_roll (Some "32768") (Some "100") (Some "carol"))
             Sample.ledger db' body P H).
  - exfalso. vm_compute in H. discriminate H.
Defined.

(** X17.  Verifying an unknown game.  [/verify/:gameId] answers 404
    'not_found' exactly when no row of the table carries that
    identifier; for every identifier that is there it answers 200 with
    the stake, payout and multiplier of that row. *)
Theorem verify_not_found_iff_absent (gameId : string) (db : Db.t) :
  (Server.verify_handler gameId db = Server.Failure 404 "not_found"
   <-> ~ In gameId (map Db.id db))
  /\ (In gameId (map Db.id db) ->
      exists row,
        In row db /\ Db.id row = gameId
        /\ Server.verify_handler gameId db
           = Server.Checked
               {| Server.v_game_id := gameId;
                  Server.v_verification :=
                    Dice.verifyGame (Server.evidence_of_row row);
                  Server.v_bet_sats := Db.bet_sats row;
                  Server.v_payout_sats := Db.payout_sats row;
                  Server.v_multiplier := Db.multiplier row |}).
Proof.
  unfold Server.verify_handler. split.
  - rewrite <- getGame_none.
    destruct (Db.getGame db gameId); split; intros H;
      try discriminate; reflexivity.
  - intros Hin.
    destruct (Db.getGame db gameId) as [row|] eqn:Hget.
    + exists row. unfold Db.getGame in Hget.
      apply find_some in Hget. destruct Hget as [Hrow Hid].
      apply String.eqb_eq in Hid. auto.
    + apply getGame_none in Hget. contradiction.
Qed.

(** X18.  History is not rewritten.  Whatever a later [/roll] does,
    [/verify] of a game that was already in the table answers what it
    answered before. *)
Theorem earlier_games_keep_verifying (config : Config.t)
    (rnd : Server.draws) (req : Server.request) (db : Db.t)
    (gameId : string) :
  In gameId (map Db.id db) ->
  Server.verify_handler gameId
    (snd (Server.roll_handler config rnd req db))
  = Server.verify_handler gameId db.
Proof.
  intros Hin.
  destruct (roll_cases config rnd req db)
    as [(status & error & H) | (body & db' & H)]; rewrite H; cbn [snd].
  - reflexivity.
  - pose proof (roll_success _ _ _ _ _ _ H) as S. cbv zeta in S.
    destruct S as (e & _ & _ & _ & _ & _ & Hsave & _).
    apply saveGame_inv in Hsave. destruct Hsave as (-> & Hnew & _).
    apply getGame_none in Hnew. cbn [Db.rec_id] in Hnew.
    unfold Server.verify_handler. rewrite getGame_app_other; [reflexivity|].
    intros ->. contradiction.
Qed.

Lemma earlier_games_keep_verifying_witness :
  Server.verify_handler "g_0000000b"
    (snd (Server.roll_handler Config.default (Sample.draws "g_00c0ffee")
            (Sample.get_roll (Some "32768") (Some "100") None)
            Sample.ledger))
  = Server.verify_handler "g_0000000b" Sample.ledger.
Proof.
  apply (earlier_games_keep_verifying Config.default
           (Sample.draws "g_00c0ffee")
           (Sample.get_roll (Some "32768") (Some "100") None)
           Sample.ledger "g_0000000b").
  vm_compute. left. reflexivity.
Defined.

(* ================================================================== *)
(** * What validation guarantees *)
(* ================================================================== *)

Lemma whole_not_above (v hi : Z) :
  0 <= hi < 2 ^ 53 ->
  JS.gt (JS.num_of_Z v) (JS.num_of_Z hi) = false -> v <= hi.
Proof.
  intros Hhi Hgt. unfold JS.gt in Hgt.
  destruct v as [ | p | p ]; try lia.
  destruct (Z_lt_le_dec (Z.pos p) (2 ^ 53)) as [Hsmall | Hbig].
  - rewrite ltb_num_of_Z in Hgt by lia. apply Z.ltb_ge in Hgt. lia.
  - exfalso. rewrite FloatAxioms.ltb_spec in Hgt.
    assert (Hh : Prim2SF (JS.num_of_Z hi) = S754_zero false
                 \/ exists mh eh,
                      Prim2SF (JS.num_of_Z hi) = S754_finite false mh eh
                      /\ eh <= 0).
    { destruct hi as [ | ph | ph ]; try lia; [left; reflexivity|].
      destruct (Prim2SF_num_of_pos ph) as (mh & eh & Hh & _ & Heh & _);
        [lia|].
      right. exists mh, eh. split; [exact Hh | lia]. }
    destruct (num_of_pos_shape p) as [Hi | (m & e & Hf & _ & _ & He)].
    + rewrite Hi in Hgt.
      destruct Hh as [Hz | (mh & eh & Hz & _)]; rewrite Hz in Hgt;
        discriminate.
    + rewrite Hf in Hgt. specialize (He Hbig).
      destruct Hh as [Hz | (mh & eh & Hz & Heh)]; rewrite Hz in Hgt;
        [discriminate|].
      unfold SFltb in Hgt. cbn [SFcompare] in Hgt.
      replace (eh ?= e) with Lt in Hgt
        by (symmetry; apply Z.compare_lt_iff; lia).
      discriminate.
Qed.

(** A Number that [parseInt] gave, or a whole default, that is not NaN
    and compares neither below [lo] nor above [hi] is an integer between
    them. *)
Lemma validated_whole (q : option string) (d : JS.number) (d0 lo hi : Z) :
  d = JS.num_of_Z d0 -> 0 < lo -> lo <= hi < 2 ^ 53 ->
  is_nan (Server.parse_or q d) = false ->
  JS.lt (Server.parse_or q d) (JS.num_of_Z lo) = false ->
  JS.gt (Server.parse_or q d) (JS.num_of_Z hi) = false ->
  exists v, Server.parse_or q d = JS.num_of_Z v /\ lo <= v <= hi.
Proof.
  intros Hd Hlo Hhi Hnan Hlt Hgt.
  assert (Hshape :
    Server.parse_or q d = nan \/ Server.parse_or q d = zero
    \/ Server.parse_or q d = neg_zero
    \/ exists v, Server.parse_or q d = JS.num_of_Z v).
  { unfold Server.parse_or. destruct (JS.truthy q) as [s|].
    - destruct (parseInt_shape s) as [H | [H | [H | (v & _ & H)]]]; eauto.
    - right. right. right. exists d0. exact Hd. }
  destruct Hshape as [E | [E | [E | (v & E)]]]; rewrite E in *.
  - discriminate.
  - exfalso. change zero with (JS.num_of_Z 0) in Hlt. unfold JS.lt in Hlt.
    rewrite ltb_num_of_Z in Hlt by lia. apply Z.ltb_ge in Hlt. lia.
  - exfalso. unfold JS.lt in Hlt. rewrite FloatAxioms.ltb_spec in Hlt.
    destruct lo as [ | pl | pl ]; try lia.
    destruct (Prim2SF_num_of_pos pl) as (ml & el & Hl & _); [lia|].
    rewrite Hl in Hlt. discriminate.
  - exists v. split; [reflexivity|].
    apply (whole_between v lo hi); assumption.
Qed.

Lemma not_null_fields (r : Db.row) :
  Db.violates_not_null r = false ->
  is_nan (Db.target r) = false /\ is_nan (Db.bet_sats r) = false.
Proof.
  unfold Db.violates_not_null. intros H.
  destruct (is_nan (Db.roll r)); [discriminate|].
  destruct (is_nan (Db.target r)); [discriminate|].
  destruct (is_nan (Db.bet_sats r)); [discriminate|].
  split; reflexivity.
Qed.

(** A request that passes both checks of [/roll] under the default
    limits, with a target and a stake that are not NaN, asks for a whole
    target from 1 to 65535 and a whole stake from 10 to 50000. *)
Lemma validated_request (config : Config.t) (req : Server.request) :
  let target :=
    Server.parse_or (Server.q_target req) (Config.defaultTarget config) in
  let betSats :=
    Server.parse_or (Server.q_bet req) (Config.defaultBet config) in
  Traffic.default_game config ->
  JS.lt target 1%float = false ->
  JS.gt target (Config.maxRoll config) = false ->
  JS.lt betSats (Config.minBet config) = false ->
  JS.gt betSats (Config.maxBet config) = false ->
  is_nan target = false -> is_nan betSats = false ->
  exists t b,
    target = JS.num_of_Z t /\ 1 <= t <= 65535
    /\ betSats = JS.num_of_Z b /\ 10 <= b <= 50000.
Proof.
  cbv zeta. intros (Hmax & _ & Hdt & Hmin & Hmaxb & Hdb) Ht1 Ht2 Hb1 Hb2 Nt Nb.
  rewrite Hmax in Ht2. rewrite Hmin in Hb1. rewrite Hmaxb in Hb2.
  rewrite Hdt in *. rewrite Hdb in *.
  destruct (validated_whole (Server.q_target req)
              (Config.defaultTarget Config.default) 32768 1 65535)
    as (t & Et & Ht); try lia; try assumption; try reflexivity.
  destruct (validated_whole (Server.q_bet req)
              (Config.defaultBet Config.default) 100 10 50000)
    as (b & Eb & Hb); try lia; try assumption; try reflexivity.
  exists t, b. auto.
Qed.

(** The target and the stake of a game that [/roll] played under the
    default limits. *)
Lemma played_within_limits (config : Config.t) (rnd : Server.draws)
    (req : Server.request) (db db' : Db.t) (body : Server.roll_body) :
  Traffic.default_game config ->
  Server.roll_handler config rnd req db = (Server.Rolled body, db') ->
  exists t b,
    Server.parse_or (Server.q_target req) (Config.defaultTarget config)
    = JS.num_of_Z t
    /\ 1 <= t <= 65535
    /\ Server.parse_or (Server.q_bet req) (Config.defaultBet config)
       = JS.num_of_Z b
    /\ 10 <= b <= 50000.
Proof.
  intros Hcfg H.
  pose proof (roll_success _ _ _ _ _ _ H) as S. cbv zeta in S.
  destruct S as (e & Ht1 & Ht2 & Hb1 & Hb2 & _ & Hsave & _).
  apply saveGame_inv in Hsave. destruct Hsave as (_ & _ & Hnn).
  apply not_null_fields in Hnn. destruct Hnn as [Nt Nb].
  pose proof (resolveGame_fields config
                (Server.parse_or (Server.q_target req)
                   (Config.defaultTarget config))
                (Server.parse_or (Server.q_bet req)
                   (Config.defaultBet config))
                (Server.fresh_seed rnd) e) as F.
  cbv zeta in F. destruct F as (_ & Ft & _ & Fb & _).
  unfold Db.row_of in Nt, Nb. cbn [Db.target Db.bet_sats Db.rec_game] in Nt, Nb.
  rewrite Ft in Nt. rewrite Fb in Nb.
  exact (validated_request config req Hcfg Ht1 Ht2 Hb1 Hb2 Nt Nb).
Qed.

(** X19.  What a played game looks like.  Under the default limits,
    whatever the query strings were, a 200 of [/roll] reports a target
    that is a whole number from 1 to 65535, a stake that is a whole
    number from 10 to 50000 and a roll that is a whole number from 0 to
    65535, and its result is 'win' exactly when the roll is below the
    target as integers. *)
Theorem played_game_is_within_limits (config : Config.t)
    (rnd : Server.draws) (req : Server.request) (db db' : Db.t)
    (body : Server.roll_body) :
  Traffic.default_game config ->
  Server.roll_handler config rnd req db = (Server.Rolled body, db') ->
  exists t b r,
    Server.target body = JS.num_of_Z t /\ 1 <= t <= 65535
    /\ Server.bet_sats body = JS.num_of_Z b /\ 10 <= b <= 50000
    /\ Server.roll body = JS.num_of_Z r /\ 0 <= r <= 65535
    /\ (Server.result body = Dice.win <-> r < t).
Proof.
  intros Hcfg H.
  destruct (played_within_limits _ _ _ _ _ _ Hcfg H)
    as (t & b & Et & Ht & Eb & Hb).
  pose proof (roll_success _ _ _ _ _ _ H) as S. cbv zeta in S.
  destruct S as (e & _ & _ & _ & _ & _ & _ & _ & Hroll & Htarget & Hres
                 & Hbet & _).
  rewrite Et, Eb in *.
  pose proof (resolveGame_fields config (JS.num_of_Z t) (JS.num_of_Z b)
                (Server.fresh_seed rnd) e) as F.
  cbv zeta in F. destruct F as (Fr & _ & Fres & _).
  rewrite Fr in Hroll. rewrite Fres in Hres.
  rewrite roll_below_target in Hres by lia.
  exists t, b, (Dice.rollZ (Server.fresh_seed rnd) e).
  pose proof (rollZ_range (Server.fresh_seed rnd) e) as Hr.
  repeat split; try assumption; try lia.
  - rewrite Hres.
    destruct (Z.ltb_spec (Dice.rollZ (Server.fresh_seed rnd) e) t);
      [lia | discriminate].
  - rewrite Hres. intros Hlt.
    destruct (Z.ltb_spec (Dice.rollZ (Server.fresh_seed rnd) e) t);
      [reflexivity | lia].
Qed.

Lemma played_game_is_within_limits_witness :
  exists body db',
    Server.roll_handler Config.default (Sample.draws "g_00c0ffee")
      (Sample.get_roll (Some "32768abc") (Some " 100") None) []
    = (Server.Rolled body, db')
    /\ exists t b r,
         Server.target body = JS.num_of_Z t /\ 1 <= t <= 65535
         /\ Server.bet_sats body = JS.num_of_Z b /\ 10 <= b <= 50000
         /\ Server.roll body = JS.num_of_Z r /\ 0 <= r <= 65535
         /\ (Server.result body = Dice.win <-> r < t).
Proof.
  assert (Hcfg : Traffic.default_game Config.default)
    by (repeat split; reflexivity).
  destruct (Server.roll_handler Config.default (Sample.draws "g_00c0ffee")
              (Sample.get_roll (Some "32768abc") (Some " 100") None) [])
    as [[status error | body | checked] db'] eqn:H.
  - exfalso. vm_compute in H. discriminate H.
  - exists body, db'. split; [reflexivity|].
    exact (played_game_is_within_limits _ _ _ _ _ _ Hcfg H).
  - exfalso. vm_compute in H. discriminate H.
Defined.

Lemma key_shape (x : float) (a : Z) :
  Odds.key x = Some a ->
  exists m e,
    Prim2SF x = S754_finite false m e
    /\ 2 ^ 52 <= Z.pos m < 2 ^ 53 /\ a = e * 2 ^ 53 + Z.pos m.
Proof.
  unfold Odds.key.
  destruct (Prim2SF x) as [ | | | [ | ] m e ]; try discriminate.
  destruct ((2 ^ 52 <=? Z.pos m) && (Z.pos m <? 2 ^ 53)) eqn:Hm;
    [|discriminate].
  intros [= <-]. apply andb_prop in Hm. destruct Hm as [H1 H2].
  apply Z.leb_le in H1. apply Z.ltb_lt in H2.
  exists m, e. repeat split; assumption.
Qed.

(** The highest multiplier, that of threshold 1, is below 2^16. *)
Lemma key_of_highest :
  exists a,
    Odds.key (Config.getMultiplier Config.default (JS.num_of_Z 1)) = Some a
    /\ a < -36 * 2 ^ 53.
Proof.
  exists (-324394281159496827).
  split; [vm_compute; reflexivity | reflexivity].
Qed.

(** Every multiplier of the table is a normal Number from 1/2 up to,
    and not including, 2^16. *)
Lemma multiplier_exponent (t : Z) :
  1 <= t <= 65535 ->
  exists m e,
    Prim2SF (Config.getMultiplier Config.default (JS.num_of_Z t))
    = S754_finite false m e
    /\ 2 ^ 52 <= Z.pos m < 2 ^ 53 /\ -53 <= e <= -37.
Proof.
  intros Ht.
  destruct (multiplier_is_normal t Ht) as (m & e & Hf & Hm & He).
  exists m, e. split; [exact Hf|]. split; [exact Hm|]. split; [exact He|].
  destruct key_of_highest as (a1 & Ha1 & Hbound).
  assert (Hkey : exists a,
            Odds.key (Config.getMultiplier Config.default (JS.num_of_Z t))
            = Some a /\ a <= a1).
  { destruct (Z.eq_dec t 1) as [-> | Hne].
    - exists a1. split; [exact Ha1 | lia].
    - destruct (falls_chain (Z.to_nat (t - 2)) 1 ltac:(lia) ltac:(lia))
        as (a & b & Ha & Hb & Hab).
      replace (1 + 1 + Z.of_nat (Z.to_nat (t - 2))) with t in Hb by lia.
      rewrite Ha1 in Ha. injection Ha as <-.
      exists b. split; [exact Hb | lia]. }
  destruct Hkey as (a & Ha & Hle).
  destruct (key_shape _ _ Ha) as (m' & e' & Hf' & Hm' & Ea).
  rewrite Hf in Hf'. injection Hf' as <- <-.
  change (2 ^ 53) with (2 * 2 ^ 52) in *. lia.
Qed.

(** A stake within the default limits is a normal Number with exponent
    from -49 to -37. *)
Lemma stake_exponent (b : Z) :
  10 <= b <= 50000 ->
  exists m e,
    Prim2SF (JS.num_of_Z b) = S754_finite false m e
    /\ 2 ^ 52 <= Z.pos m < 2 ^ 53 /\ -49 <= e <= -37.
Proof.
  intros Hb. destruct b as [ | p | p ]; try lia.
  destruct (Prim2SF_num_of_pos p) as (m & e & Hf & Hm & He & Hv);
    [change (2 ^ 53) with 9007199254740992; lia|].
  exists m, e. split; [exact Hf|]. split; [exact Hm|].
  split.
  - destruct (Z_lt_le_dec e (-49)) as [Hlt|]; [|lia]. exfalso.
    assert (2 ^ 50 <= 2 ^ (- e)) by (apply Z.pow_le_mono_r; lia).
    change (2 ^ 53) with (8 * 2 ^ 50) in *. nia.
  - destruct (Z_lt_le_dec (-37) e) as [Hlt|]; [|lia]. exfalso.
    assert (2 ^ (- e) <= 2 ^ 36) by (apply Z.pow_le_mono_r; lia).
    assert (0 < 2 ^ (- e)) by (apply Z.pow_pos_nonneg; lia).
    change (2 ^ 52) with (65536 * 2 ^ 36) in *. nia.
Qed.

(** The product of such a stake and such a multiplier is a normal Number
    with exponent from -50 to -20: it has fractional digits and is below
    2^33. *)
Lemma winnings_shape (x y : float) (mx my : positive) (ex ey : Z) :
  Prim2SF x = S754_finite false mx ex -> 2 ^ 52 <= Z.pos mx < 2 ^ 53 ->
  -49 <= ex <= -37 ->
  Prim2SF y = S754_finite false my ey -> 2 ^ 52 <= Z.pos my < 2 ^ 53 ->
  -53 <= ey <= -37 ->
  exists m e,
    Prim2SF (x * y)%float = S754_finite false m e
    /\ 2 ^ 52 <= Z.pos m < 2 ^ 53 /\ -50 <= e <= -20.
Proof.
  intros Hx Hmx Hex Hy Hmy Hey.
  rewrite FloatAxioms.mul_spec, Hx, Hy. unfold SF64mul, SFmul.
  cbn [xorb].
  pose proof (digits2_bounds (mx * my)) as [Blo Bhi].
  set (d := Z.pos (digits2_pos (mx * my))) in *.
  assert (Hp : 2 ^ 104 <= Z.pos (mx * my) < 2 ^ 106).
  { rewrite Pos2Z.inj_mul. change (2 ^ 104) with (2 ^ 52 * 2 ^ 52).
    change (2 ^ 106) with (2 ^ 53 * 2 ^ 53). nia. }
  assert (Hd : 105 <= d <= 106).
  { split.
    - destruct (Z_lt_le_dec d 105) as [Hlt|]; [|lia].
      assert (2 ^ d <= 2 ^ 104) by (apply Z.pow_le_mono_r; subst d; lia).
      lia.
    - destruct (Z_lt_le_dec 106 d) as [Hlt|]; [|lia].
      assert (2 ^ 106 <= 2 ^ (d - 1)) by (apply Z.pow_le_mono_r; lia).
      lia. }
  destruct (round_aux_shape false (mx * my) (ex + ey) loc_Exact)
    as (m & e & Hm & He & ->); fold d; try lia.
  fold d in He.
  destruct (Z.leb_spec e 971); [|lia].
  exists m, e. repeat split; lia.
Qed.

(** [Math.floor] of such a product is a whole Number from 4 up to, and
    not including, 2^33. *)
Lemma floor_of_winnings (y : float) (m : positive) (e : Z) :
  Prim2SF y = S754_finite false m e -> 2 ^ 52 <= Z.pos m < 2 ^ 53 ->
  -50 <= e <= -20 ->
  exists k, JS.floor y = JS.num_of_Z k /\ 4 <= k < 2 ^ 33.
Proof.
  intros Hf Hm He. unfold JS.floor. rewrite Hf.
  destruct (Z.leb_spec 0 e); [lia|].
  exists (Z.pos m / 2 ^ (- e)). split; [reflexivity|].
  assert (Hlo : 2 ^ 20 <= 2 ^ (- e)) by (apply Z.pow_le_mono_r; lia).
  assert (Hhi : 2 ^ (- e) <= 2 ^ 50) by (apply Z.pow_le_mono_r; lia).
  assert (Hpos : 0 < 2 ^ (- e)) by (apply Z.pow_pos_nonneg; lia).
  split.
  - apply Z.div_le_lower_bound; [lia|].
    change (2 ^ 52) with (4 * 2 ^ 50) in Hm. lia.
  - apply Z.div_lt_upper_bound; [lia|].
    change (2 ^ 53) with (2 ^ 20 * 2 ^ 33) in Hm.
    assert (0 < 2 ^ 33) by reflexivity. nia.
Qed.

Lemma default_game_multiplier (config : Config.t) (target : JS.number) :
  Traffic.default_game config ->
  Config.getMultiplier config target
  = Config.getMultiplier Config.default target.
Proof.
  intros (Hmax & Hedge & _). unfold Config.getMultiplier.
  rewrite Hmax, Hedge. reflexivity.
Qed.

(** X20.  Winners and losers.  Under the default limits a 200 of
    [/roll] for a won game reports a payout that is a whole number of
    sats, at least 4 and below 2^33, and the payout status 'sent' in
    development and 'failed' in production, never 'pending'; for a lost
    game it reports payout 0 and status 'n/a'. *)
Theorem played_game_payout_and_status (config : Config.t)
    (rnd : Server.draws) (req : Server.request) (db db' : Db.t)
    (body : Server.roll_body) :
  Traffic.default_game config ->
  Server.roll_handler config rnd req db = (Server.Rolled body, db') ->
  match Server.result body with
  | Dice.win =>
      (exists k, Server.payout_sats body = JS.num_of_Z k /\ 4 <= k < 2 ^ 33)
      /\ Server.payout_status body
         = (if Config.devMode config then "sent" else "failed")
  | Dice.loss =>
      Server.payout_sats body = 0%float
      /\ Server.payout_status body = "n/a"
  end.
Proof.
  intros Hcfg H.
  destruct (played_within_limits _ _ _ _ _ _ Hcfg H)
    as (t & b & Et & Ht & Eb & Hb).
  pose proof (roll_success _ _ _ _ _ _ H) as S. cbv zeta in S.
  destruct S as (e & _ & _ & _ & _ & _ & _ & _ & _ & _ & Hres & _ & _ & Hpay
                 & _ & _ & _ & _ & Hstatus).
  rewrite Et, Eb in *.
  pose proof (resolveGame_payout config (JS.num_of_Z t) (JS.num_of_Z b)
                (Server.fresh_seed rnd) e) as P.
  cbv zeta in P. destruct P as [P _].
  set (g := Dice.resolveGame config (JS.num_of_Z t) (JS.num_of_Z b)
              (Server.fresh_seed rnd) e) in *.
  clearbody g. rewrite Hres. rewrite Hpay, Hstatus.
  destruct (Dice.result g).
  - rewrite P, (default_game_multiplier config _ Hcfg).
    destruct (stake_exponent b Hb) as (mx & ex & Hx & Hmx & Hex).
    destruct (multiplier_exponent t Ht) as (my & ey & Hy & Hmy & Hey).
    destruct (winnings_shape _ _ _ _ _ _ Hx Hmx Hex Hy Hmy Hey)
      as (m & e' & Hf & Hm & He).
    destruct (floor_of_winnings _ _ _ Hf Hm He) as (k & Ek & Hk).
    rewrite Ek. split; [exists k; split; [reflexivity | exact Hk]|].
    unfold JS.gt. change 0%float with (JS.num_of_Z 0).
    rewrite ltb_num_of_Z
      by (change (2 ^ 53) with (2 ^ 20 * 2 ^ 33);
          change (2 ^ 20) with 1048576; lia).
    destruct (Z.ltb_spec 0 k); [reflexivity | lia].
  - rewrite P. split; reflexivity.
Qed.

Lemma played_game_payout_and_status_witness :
  exists body db',
    Server.roll_handler Sample.production (Sample.draws "g_00c0ffee")
      (Sample.paid_roll (Some "32768") (Some "100") None) []
    = (Server.Rolled body, db')
    /\ match Server.result body with
       | Dice.win =>
           (exists k,
              Server.payout_sats body = JS.num_of_Z k /\ 4 <= k < 2 ^ 33)
           /\ Server.payout_status body
              = (if Config.devMode Sample.production
                 then "sent" else "failed")
       | Dice.loss =>
           Server.payout_sats body = 0%float
           /\ Server.payout_status body = "n/a"
       end.
Proof.
  assert (Hcfg : Traffic.default_game Sample.production)
    by (repeat split; reflexivity).
  destruct (Server.roll_handler Sample.production (Sample.draws "g_00c0ffee")
              (Sample.paid_roll (Some "32768") (Some "100") None) [])
    as [[status error | body | checked] db'] eqn:H.
  - exfalso. vm_compute in H. discriminate H.
  - exists body, db'. split; [reflexivity|].
    exact (played_game_payout_and_status _ _ _ _ _ _ Hcfg H).
  - exfalso. vm_compute in H. discriminate H.
Defined.

(* ================================================================== *)
(** * Paging and the odds table *)
(* ================================================================== *)

(** X21.  The page limit.  Whatever [limit] the query string carries,
    the Number [/leaderboard] and [/recent] pass to their query never
    compares above 100; with no [limit], or an empty one, it is 20. *)
Theorem page_limit_never_above_100 (q_limit : option string) :
  JS.gt (Server.page_limit q_limit) 100%float = false
  /\ Server.page_limit None = 20%float
  /\ Server.page_limit (Some "") = 20%float.
Proof.
  split; [apply min_not_above|]. split; vm_compute; reflexivity.
Qed.

(** ** The limit *)

(** A whole Number below 2^53 is bound to [LIMIT] as the integer it
    is. *)
Lemma limit_of_whole (n : Z) :
  0 <= n < 2 ^ 53 -> Db.limit_of (JS.num_of_Z n) = Some n.
Proof.
  intros Hn. unfold Db.limit_of. destruct n as [ | q | q ]; try lia.
  - reflexivity.
  - destruct (Prim2SF_num_of_pos q) as (m & e & -> & Hm & He & Hv); [lia|].
    assert (Hpow : 0 < 2 ^ (- e)) by (apply Z.pow_pos_nonneg; lia).
    destruct (Z.leb_spec 0 e) as [H0 | H0].
    + assert (e = 0) by lia. subst e.
      change (2 ^ (- 0)) with 1 in Hv. change (2 ^ 0) with 1.
      rewrite Z.mul_1_r in *.
      destruct (Z.ltb_spec (Z.abs (Z.pos m)) (2 ^ 63)) as [_ | Hbig].
      * f_equal. lia.
      * exfalso. change (2 ^ 63) with (1024 * 2 ^ 53) in Hbig. lia.
    + rewrite Hv, Z.mod_mul by lia. cbn [Z.eqb].
      rewrite Z.div_mul by lia. reflexivity.
Qed.

(** A negative whole Number is bound as a negative integer, if it is
    bound at all. *)
Lemma limit_of_negative (p : positive) (n : Z) :
  Db.limit_of (JS.num_of_Z (Z.neg p)) = Some n -> n < 0.
Proof.
  unfold Db.limit_of. rewrite num_of_neg_opp.
  destruct (num_of_pos_shape p) as [-> | (m & e & -> & Hm & _)];
    cbn [SFopp negb]; [discriminate|].
  destruct (Z.leb_spec 0 e) as [H0 | H0].
  - assert (A : Z.neg m * 2 ^ e < 0).
    { apply Z.mul_neg_pos; [apply Pos2Z.neg_is_neg|].
      apply Z.pow_pos_nonneg; lia. }
    destruct (_ <? _); [|discriminate]. intros [= <-]. exact A.
  - assert (A : Z.neg m / 2 ^ (- e) < 0).
    { assert (0 < 2 ^ (- e)) by (apply Z.pow_pos_nonneg; lia).
      apply Z.div_lt_upper_bound; [assumption|].
      rewrite Z.mul_0_r. apply Pos2Z.neg_is_neg. }
    destruct (_ =? _); [|discriminate]. intros [= <-]. exact A.
Qed.

(** X22.  The leaderboard page.  When the page limit is the whole
    number [n], it is at most 100, and a result of the leaderboard query
    under it has at most [n] entries if [n] is not negative.  A negative
    [limit] is passed on as it is, and SQL reads it as no limit: the
    result then holds every player. *)
Theorem leaderboard_page (q_limit : option string) (n : Z) (db : Db.t)
    (out : list Db.standing) :
  Server.page_limit q_limit = JS.num_of_Z n ->
  Db.getLeaderboard db (Server.page_limit q_limit) = Some out ->
  n <= 100
  /\ (0 <= n -> Z.of_nat (List.length out) <= n)
  /\ (n < 0 -> Permutation out (Db.groups db)).
Proof.
  intros Hn Hout.
  assert (Hle : n <= 100).
  { apply (whole_not_above n 100); [lia|].
    rewrite <- Hn. change (JS.num_of_Z 100) with 100%float.
    apply min_not_above. }
  rewrite Hn in Hout. unfold Db.getLeaderboard in Hout.
  destruct (Db.limit_of (JS.num_of_Z n)) as [k|] eqn:Hk; [|discriminate].
  injection Hout as <-.
  split; [exact Hle|]. split.
  - intros Hpos.
    rewrite (limit_of_whole n) in Hk
      by (change (2 ^ 53) with 9007199254740992; lia).
    injection Hk as <-. apply limit_length. exact Hpos.
  - intros Hneg. destruct n as [ | p | p ]; try lia.
    apply limit_of_negative in Hk. unfold Db.sql_limit.
    destruct (Z.ltb_spec k 0); [apply ranking_perm | lia].
Qed.

Lemma leaderboard_page_witness :
  -1 <= 100
  /\ (0 <= -1 ->
      Z.of_nat (List.length [Sample.alice; Sample.bob]) <= -1)
  /\ (-1 < 0 ->
      Permutation [Sample.alice; Sample.bob] (Db.groups Sample.ledger)).
Proof.
  assert (Hn : Server.page_limit (Some "-1") = JS.num_of_Z (-1))
    by (vm_compute; reflexivity).
  assert (Hout : Db.getLeaderboard Sample.ledger
                   (Server.page_limit (Some "-1"))
                 = Some [Sample.alice; Sample.bob])
    by (vm_compute; reflexivity).
  exact (leaderboard_page (Some "-1") (-1) Sample.ledger
           [Sample.alice; Sample.bob] Hn Hout).
Defined.

(** X23.  The odds table and the game agree.  Every line of the payout
    table of [/odds] shows the multiplier that a game at that target
    records, and its [example_bet_100] is exactly what [resolveGame] pays
    a winning stake of 100 at that target. *)
Theorem odds_row_is_what_is_paid (config : Config.t) (row : Server.odds_row)
    (serverSeed clientEntropy : string) :
  In row (Server.odds_handler config) ->
  let g := Dice.resolveGame config (Server.o_target row) 100%float
             serverSeed clientEntropy in
  Dice.multiplier g = Server.o_multiplier row
  /\ (Dice.result g = Dice.win ->
      Dice.payoutSats g = Server.o_example_bet_100 row)
  /\ (Dice.result g = Dice.loss -> Dice.payoutSats g = 0%float).
Proof.
  intros Hin. unfold Server.odds_handler in Hin.
  apply in_map_iff in Hin. destruct Hin as (target & <- & _).
  cbn [Server.o_target Server.o_multiplier Server.o_example_bet_100].
  pose proof (resolveGame_payout config target 100%float serverSeed
                clientEntropy) as P.
  cbv zeta in P |- *. destruct P as [P1 P2].
  set (g := Dice.resolveGame config target 100%float serverSeed clientEntropy)
    in *.
  clearbody g. split; [exact P2|].
  split; intros Hres; rewrite Hres in P1; exact P1.
Qed.

Lemma odds_row_is_what_is_paid_witness :
  let row := Server.mkOddsRow 32768%float 1.97%float 197%float in
  let g := Dice.resolveGame Config.default 32768%float 100%float
             Sample.seed Sample.entropy in
  Dice.multiplier g = Server.o_multiplier row
  /\ (Dice.result g = Dice.win ->
      Dice.payoutSats g = Server.o_example_bet_100 row)
  /\ (Dice.result g = Dice.loss -> Dice.payoutSats g = 0%float).
Proof.
  apply (odds_row_is_what_is_paid Config.default
           (Server.mkOddsRow 32768%float 1.97%float 197%float)
           Sample.seed Sample.entropy).
  vm_compute. do 4 right. left. reflexivity.
Defined.

(* ================================================================== *)
(** * The 500 of [/roll] *)
(* ================================================================== *)

Lemma not_nan (x : float) : Prim2SF x <> S754_nan -> is_nan x = false.
Proof.
  intros H. destruct (is_nan x) eqn:Hx; [|reflexivity].
  exfalso. apply H. unfold Prim2SF. rewrite Hx. reflexivity.
Qed.

(** The Number of an integer is never NaN. *)
Lemma num_of_Z_not_nan (v : Z) : is_nan (JS.num_of_Z v) = false.
Proof.
  apply not_nan. destruct v as [ | p | p ].
  - discriminate.
  - destruct (num_of_pos_shape p) as [-> | (m & e & -> & _)]; discriminate.
  - rewrite num_of_neg_opp.
    destruct (num_of_pos_shape p) as [-> | (m & e & -> & _)]; discriminate.
Qed.

(** The multiplier a game records, rounded to three decimals, is a
    Number at every threshold: checked on the whole table. *)
Lemma rounded_table :
  Binary64.all_in 16
    (fun t =>
       (t =? 0)
       || negb (is_nan
                  (JS.round
                     (Config.getMultiplier Config.default (JS.num_of_Z t)
                      * 1000) / 1000)%float)) 0
  = true.
Proof. vm_compute. reflexivity. Qed.

(** With a whole target and stake within the default limits, no Number
    of the row is NaN. *)
Lemma whole_game_has_no_nan (config : Config.t) (t b : Z)
    (serverSeed clientEntropy id : string)
    (method status player : option string) :
  Traffic.default_game config ->
  1 <= t <= 65535 -> 10 <= b <= 50000 ->
  Db.violates_not_null
    (Db.row_of
       (Db.mkRecord id
          (Dice.resolveGame config (JS.num_of_Z t) (JS.num_of_Z b)
             serverSeed clientEntropy)
          method status player))
  = false.
Proof.
  intros Hcfg Ht Hb.
  pose proof (resolveGame_payout config (JS.num_of_Z t) (JS.num_of_Z b)
                serverSeed clientEntropy) as P.
  pose proof (resolveGame_fields config (JS.num_of_Z t) (JS.num_of_Z b)
                serverSeed clientEntropy) as F.
  cbv zeta in P, F.
  set (g := Dice.resolveGame config (JS.num_of_Z t) (JS.num_of_Z b)
              serverSeed clientEntropy) in *.
  destruct P as [Ppay Pmul].
  destruct F as (Fr & Ftg & _ & Fb & _).
  clearbody g.
  unfold Db.violates_not_null, Db.row_of.
  cbn [Db.rec_game Db.roll Db.target Db.bet_sats Db.multiplier
       Db.payout_sats].
  rewrite Fr, Ftg, Fb, Pmul, Ppay.
  unfold Dice.generateRoll. rewrite !num_of_Z_not_nan. cbn [orb].
  rewrite (default_game_multiplier config _ Hcfg).
  pose proof (all_in_spec 16 _ 0 rounded_table t ltac:(cbn; lia)) as Hr.
  cbv beta in Hr. apply orb_prop in Hr. destruct Hr as [Hr | Hr]; [lia|].
  apply negb_true_iff in Hr. rewrite Hr. cbn [orb].
  destruct (Dice.result g); [|reflexivity].
  destruct (stake_exponent b Hb) as (mx & ex & Hx & Hmx & Hex).
  destruct (multiplier_exponent t Ht) as (my & ey & Hy & Hmy & Hey).
  destruct (winnings_shape _ _ _ _ _ _ Hx Hmx Hex Hy Hmy Hey)
    as (m & e' & Hf & Hm & He).
  destruct (floor_of_winnings _ _ _ Hf Hm He) as (k & Ek & _).
  rewrite Ek. apply num_of_Z_not_nan.
Qed.

Lemma getGame_some_in (db : Db.t) (gameId : string) (r : Db.row) :
  Db.getGame db gameId = Some r -> In gameId (map Db.id db).
Proof.
  unfold Db.getGame. intros H. apply find_some in H.
  destruct H as [Hin Hid]. apply String.eqb_eq in Hid. subst gameId.
  apply in_map. exact Hin.
Qed.

(** [/roll] answers 500 exactly when both checks pass, an entropy is
    there, and the INSERT is refused. *)
Lemma roll_500 (config : Config.t) (rnd : Server.draws)
    (req : Server.request) (db : Db.t) :
  let target :=
    Server.parse_or (Server.q_target req) (Config.defaultTarget config) in
  let betSats :=
    Server.parse_or (Server.q_bet req) (Config.defaultBet config) in
  fst (Server.roll_handler config rnd req db)
  = Server.Failure 500 "internal"
  <-> JS.lt target 1%float || JS.gt target (Config.maxRoll config) = false
      /\ JS.lt betSats (Config.minBet config)
         || JS.gt betSats (Config.maxBet config) = false
      /\ exists clientEntropy,
           JS.truthy (Server.extractClientEntropy config rnd req)
           = Some clientEntropy
           /\ Db.saveGame db
                {| Db.rec_id := Server.fresh_id rnd;
                   Db.rec_game :=
                     Dice.resolveGame config target betSats
                       (Server.fresh_seed rnd) clientEntropy;
                   Db.payoutMethod :=
                     Some (JS.or_str (Server.q_payout req) "keysend");
                   Db.payoutStatus :=
                     Some (match
                             Dice.result
                               (Dice.resolveGame config target betSats
                                  (Server.fresh_seed rnd) clientEntropy)
                           with
                           | Dice.loss => "n/a"
                           | Dice.win => "pending"
                           end);
                   Db.playerPubkey := Server.extractPlayerPubkey req |}
              = None.
Proof.
  cbv zeta. unfold Server.roll_handler.
  set (target := Server.parse_or (Server.q_target req) _).
  set (betSats := Server.parse_or (Server.q_bet req) _).
  destruct (JS.lt target 1%float || JS.gt target (Config.maxRoll config)).
  { cbn [fst]. split; [discriminate | intros [H _]; discriminate H]. }
  destruct (JS.lt betSats (Config.minBet config)
            || JS.gt betSats (Config.maxBet config)).
  { cbn [fst]. split; [discriminate | intros (_ & H & _); discriminate H]. }
  destruct (JS.truthy (Server.extractClientEntropy config rnd req))
    as [clientEntropy|].
  2:{ cbn [fst]. split; [discriminate|].
      intros (_ & _ & e & H & _). discriminate H. }
  set (g := Dice.resolveGame config target betSats _ clientEntropy).
  set (game := Db.mkRecord _ _ _ _ _).
  destruct (Db.saveGame db game) as [db1|] eqn:Hsave.
  - cbn [fst]. split; [discriminate|].
    intros (_ & _ & e & He & Hnone). exfalso.
    injection He as <-.
    change (Db.saveGame db game = None) in Hnone.
    rewrite Hsave in Hnone. discriminate Hnone.
  - cbn [fst]. split; [|reflexivity]. intros _.
    split; [reflexivity|]. split; [reflexivity|].
    exists clientEntropy. split; [reflexivity|]. exact Hsave.
Qed.

Lemma saveGame_none (db : Db.t) (game : Db.record) :
  Db.saveGame db game = None
  <-> In (Db.rec_id game) (map Db.id db)
      \/ Db.violates_not_null (Db.row_of game) = true.
Proof.
  unfold Db.saveGame. cbv zeta.
  change (Db.id (Db.row_of game)) with (Db.rec_id game).
  destruct (Db.getGame db (Db.rec_id game)) as [r|] eqn:Hget.
  - split; [intros _ | reflexivity].
    left. exact (getGame_some_in _ _ _ Hget).
  - apply getGame_none in Hget.
    destruct (Db.violates_not_null (Db.row_of game)).
    + split; [intros _; right; reflexivity | reflexivity].
    + split; [discriminate | intros [H | H]; [contradiction | discriminate]].
Qed.

(** X24.  When [/roll] answers 500.  Under the default limits [/roll]
    answers 500 'internal' exactly when the request passes both checks,
    an entropy is there, and either the identifier drawn for the game
    is already in the table, or the target or the stake is NaN (a text
    without digits, which the checks let through and the table's
    NOT NULL columns refuse).  Nothing else makes the INSERT fail; a
    failure to write the database file, which is outside this model,
    is the one other way to a 500. *)
Theorem roll_500_iff_id_taken_or_nan (config : Config.t)
    (rnd : Server.draws) (req : Server.request) (db : Db.t) :
  Traffic.default_game config ->
  let target :=
    Server.parse_or (Server.q_target req) (Config.defaultTarget config) in
  let betSats :=
    Server.parse_or (Server.q_bet req) (Config.defaultBet config) in
  fst (Server.roll_handler config rnd req db)
  = Server.Failure 500 "internal"
  <-> JS.lt target 1%float || JS.gt target (Config.maxRoll config) = false
      /\ JS.lt betSats (Config.minBet config)
         || JS.gt betSats (Config.maxBet config) = false
      /\ (exists clientEntropy,
            JS.truthy (Server.extractClientEntropy config rnd req)
            = Some clientEntropy)
      /\ (In (Server.fresh_id rnd) (map Db.id db)
          \/ is_nan target = true \/ is_nan betSats = true).
Proof.
  intros Hcfg. cbv zeta.
  pose proof (roll_500 config rnd req db) as R. cbv zeta in R.
  set (target := Server.parse_or (Server.q_target req) _) in *.
  set (betSats := Server.parse_or (Server.q_bet req) _) in *.
  split.
  - intros H. apply (proj1 R) in H. clear R.
    destruct H as (Hv1 & Hv2 & e & He & Hsave).
    split; [exact Hv1|]. split; [exact Hv2|].
    split; [exists e; exact He|].
    apply saveGame_none in Hsave. cbn [Db.rec_id] in Hsave.
    destruct Hsave as [Hin | Hnn]; [left; exact Hin|]. right.
    destruct (is_nan target) eqn:Nt; [left; reflexivity|].
    destruct (is_nan betSats) eqn:Nb; [right; reflexivity|].
    exfalso.
    apply orb_false_elim in Hv1, Hv2.
    destruct Hv1 as [Ht1 Ht2], Hv2 as [Hb1 Hb2].
    destruct (validated_request config req Hcfg Ht1 Ht2 Hb1 Hb2 Nt Nb)
      as (t & b & Et & Ht & Eb & Hb).
    fold target in Et. fold betSats in Eb.
    clearbody target betSats. subst target betSats.
    rewrite (whole_game_has_no_nan config t b _ _ _ _ _ _ Hcfg Ht Hb) in Hnn.
    discriminate Hnn.
  - intros (Hv1 & Hv2 & (e & He) & Hwhy). apply (proj2 R). clear R.
    split; [exact Hv1|]. split; [exact Hv2|].
    exists e. split; [exact He|].
    apply saveGame_none. cbn [Db.rec_id].
    destruct Hwhy as [Hin | Hnan]; [left; exact Hin|]. right.
    pose proof (resolveGame_fields config target betSats
                  (Server.fresh_seed rnd) e) as F.
    cbv zeta in F.
    set (g := Dice.resolveGame config target betSats (Server.fresh_seed rnd) e)
      in *.
    destruct F as (_ & Ftg & _ & Fb & _).
    clearbody g target betSats.
    unfold Db.violates_not_null, Db.row_of.
    cbn [Db.rec_game Db.roll Db.target Db.bet_sats Db.multiplier
         Db.payout_sats].
    rewrite Ftg, Fb.
    destruct Hnan as [-> | ->]; destruct (is_nan (Dice.roll g));
      cbn [orb]; try reflexivity.
    all: destruct (is_nan target); reflexivity.
Qed.

Lemma roll_500_iff_id_taken_or_nan_witness :
  fst (Server.roll_handler Config.default (Sample.draws "g_00c0ffee")
         (Sample.get_roll (Some "abc") (Some "100") None) [])
  = Server.Failure 500 "internal".
Proof.
  assert (Hcfg : Traffic.default_game Config.default)
    by (repeat split; reflexivity).
  apply (proj2 (roll_500_iff_id_taken_or_nan Config.default
                  (Sample.draws "g_00c0ffee")
                  (Sample.get_roll (Some "abc") (Some "100") None) []
                  Hcfg)).
  split; [vm_compute; reflexivity|]. split; [vm_compute; reflexivity|].
  split; [exists Sample.entropy; vm_compute; reflexivity|].
  right. left. vm_compute. reflexivity.
Defined.

(* ================================================================== *)
(** * The ledger the server writes *)
(* ================================================================== *)

(** The integer of a whole Number below 2^53 is the integer it was made
    from. *)
Lemma sats_of_whole (z : Z) :
  0 <= z < 2 ^ 53 -> Db.sats (JS.num_of_Z z) = z.
Proof.
  intros Hz. unfold Db.sats. destruct z as [ | q | q ]; try lia.
  - reflexivity.
  - destruct (Prim2SF_num_of_pos q) as (m & e & -> & Hm & He & Hv); [lia|].
    assert (Hpow : 0 < 2 ^ (- e)) by (apply Z.pow_pos_nonneg; lia).
    destruct (Z.leb_spec 0 e) as [H0 | H0].
    + assert (e = 0) by lia. subst e.
      change (2 ^ (- 0)) with 1 in Hv. change (2 ^ 0) with 1. lia.
    + rewrite Hv. apply Z.quot_mul. lia.
Qed.

Lemma whole_of_Z (z : Z) :
  0 <= z < 2 ^ 53 -> Books.whole (JS.num_of_Z z) = true.
Proof.
  intros Hz. unfold Books.whole. rewrite (sats_of_whole z Hz).
  rewrite eqb_num_of_Z by assumption. apply Z.eqb_refl.
Qed.

(** A game resolved at a whole target and stake within the default
    limits pays a whole number of sats below 2^33. *)
Lemma default_payout_modest (config : Config.t) (t b : Z)
    (serverSeed clientEntropy : string) :
  Traffic.default_game config ->
  1 <= t <= 65535 -> 10 <= b <= 50000 ->
  exists k,
    Dice.payoutSats
      (Dice.resolveGame config (JS.num_of_Z t) (JS.num_of_Z b)
         serverSeed clientEntropy)
    = JS.num_of_Z k
    /\ 0 <= k < 2 ^ 33.
Proof.
  intros Hcfg Ht Hb.
  pose proof (resolveGame_payout config (JS.num_of_Z t) (JS.num_of_Z b)
                serverSeed clientEntropy) as P.
  cbv zeta in P. destruct P as [P _].
  set (g := Dice.resolveGame config (JS.num_of_Z t) (JS.num_of_Z b)
              serverSeed clientEntropy) in *.
  clearbody g. rewrite P.
  destruct (Dice.result g).
  - rewrite (default_game_multiplier config _ Hcfg).
    destruct (stake_exponent b Hb) as (mx & ex & Hx & Hmx & Hex).
    destruct (multiplier_exponent t Ht) as (my & ey & Hy & Hmy & Hey).
    destruct (winnings_shape _ _ _ _ _ _ Hx Hmx Hex Hy Hmy Hey)
      as (m & e' & Hf & Hm & He).
    destruct (floor_of_winnings _ _ _ Hf Hm He) as (k & Ek & Hk).
    exists k. split; [exact Ek | lia].
  - exists 0. split; [reflexivity | lia].
Qed.

(** [/roll] under the default limits adds at most one row, and a row
    of the kind [Books.modest] describes. *)
Lemma roll_keeps_modest (config : Config.t) (rnd : Server.draws)
    (req : Server.request) (db : Db.t) :
  Traffic.default_game config ->
  Forall Books.modest db ->
  Forall Books.modest (snd (Server.roll_handler config rnd req db))
  /\ (List.length (snd (Server.roll_handler config rnd req db))
      <= S (List.length db))%nat.
Proof.
  intros Hcfg Hdb.
  destruct (roll_cases config rnd req db)
    as [(status & error & H) | (body & db' & H)]; rewrite H; cbn [snd].
  - split; [exact Hdb | lia].
  - destruct (played_within_limits _ _ _ _ _ _ Hcfg H)
      as (t & b & Et & Ht & Eb & Hb).
    pose proof (roll_success _ _ _ _ _ _ H) as S. cbv zeta in S.
    destruct S as (e & _ & _ & _ & _ & _ & Hsave & _).
    rewrite Et, Eb in Hsave.
    apply saveGame_inv in Hsave. destruct Hsave as (-> & _ & _).
    split.
    + apply Forall_app. split; [exact Hdb|].
      constructor; [|constructor].
      destruct (default_payout_modest config t b (Server.fresh_seed rnd) e
                  Hcfg Ht Hb) as (k & Ek & Hk).
      pose proof (resolveGame_fields config (JS.num_of_Z t) (JS.num_of_Z b)
                    (Server.fresh_seed rnd) e) as F.
      cbv zeta in F. destruct F as (_ & _ & _ & Fb & _).
      exists b, k. unfold Db.row_of.
      cbn [Db.bet_sats Db.payout_sats Db.rec_game].
      split; [exact Fb|]. split; [exact Hb|]. split; [exact Ek | exact Hk].
    + rewrite length_app. cbn [List.length]. lia.
Qed.

Lemma serve_keeps_modest (config : Config.t)
    (calls : list (Server.draws * Server.request)) :
  Traffic.default_game config ->
  forall db,
    Forall Books.modest db ->
    Forall Books.modest (Traffic.serve config calls db)
    /\ (List.length (Traffic.serve config calls db)
        <= List.length db + List.length calls)%nat.
Proof.
  intros Hcfg.
  induction calls as [ | [rnd req] rest IH ]; intros db Hdb;
    cbn [Traffic.serve].
  - split; [exact Hdb | lia].
  - destruct (roll_keeps_modest config rnd req db Hcfg Hdb) as [Hm Hl].
    destruct (IH _ Hm) as [Hm' Hl']. split; [exact Hm'|].
    cbn [List.length]. lia.
Qed.

(** Rows of that kind make an exact ledger as long as there are fewer
    than 2^19 of them. *)
Lemma modest_is_exact (db : Db.t) :
  Forall Books.modest db ->
  Z.of_nat (List.length db) < 2 ^ 19 ->
  Books.exact db = true.
Proof.
  intros Hdb Hlen. unfold Books.exact. apply andb_true_intro. split.
  - apply forallb_forall. intros r Hr.
    rewrite Forall_forall in Hdb.
    destruct (Hdb r Hr) as (b & k & -> & Hb & -> & Hk).
    rewrite !whole_of_Z; [reflexivity | |].
    + change (2 ^ 53) with (2 ^ 20 * 2 ^ 33).
      change (2 ^ 20) with 1048576. lia.
    + change (2 ^ 53) with 9007199254740992. lia.
  - apply Z.ltb_lt.
    assert (Hsum :
      fold_left Z.add
        (map (fun r => Z.abs (Db.sats (Db.bet_sats r))
                       + Z.abs (Db.sats (Db.payout_sats r))) db) 0
      <= 2 ^ 34 * Z.of_nat (List.length db)).
    { clear Hlen. induction Hdb as [ | r rest Hr Hrest IH ].
      - cbn. lia.
      - cbn [map fold_left List.length]. rewrite fold_add_from.
        destruct Hr as (b & k & -> & Hb & -> & Hk).
        rewrite !sats_of_whole.
        + change (2 ^ 34) with (2 * 2 ^ 33) in *.
          change (2 ^ 33) with 8589934592 in *. lia.
        + change (2 ^ 53) with (2 ^ 20 * 2 ^ 33).
          change (2 ^ 20) with 1048576. lia.
        + change (2 ^ 53) with 9007199254740992. lia. }
    change (2 ^ 53) with (2 ^ 34 * 2 ^ 19).
    change (2 ^ 34) with 17179869184 in *.
    change (2 ^ 19) with 524288 in *. lia.
Qed.

(** X25.  The ledger the server writes.  Under the default limits,
    the table that fewer than 2^19 requests to [/roll] leave behind,
    starting from the empty table, holds only whole stakes and payouts
    whose total is below 2^53: it is a ledger on which the aggregates
    of the queries are exact. *)
Theorem served_ledger_is_exact (config : Config.t)
    (calls : list (Server.draws * Server.request)) :
  Traffic.default_game config ->
  Z.of_nat (List.length calls) < 2 ^ 19 ->
  Books.exact (Traffic.serve config calls []) = true
  /\ Forall Books.modest (Traffic.serve config calls []).
Proof.
  intros Hcfg Hlen.
  destruct (serve_keeps_modest config calls Hcfg [] (Forall_nil _))
    as [Hm Hl].
  split; [|exact Hm]. apply modest_is_exact; [exact Hm|].
  cbn [List.length] in Hl. lia.
Qed.

Lemma served_ledger_is_exact_witness :
  Books.exact
    (Traffic.serve Config.default
       [(Sample.draws "g_00c0ffee",
         Sample.get_roll (Some "32768") (Some "100") (Some "carol"))] [])
  = true
  /\ Forall Books.modest
       (Traffic.serve Config.default
          [(Sample.draws "g_00c0ffee",
            Sample.get_roll (Some "32768") (Some "100") (Some "carol"))] []).
Proof.
  assert (Hcfg : Traffic.default_game Config.default)
    by (repeat split; reflexivity).
  assert (Hlen : Z.of_nat (List.length
                   [(Sample.draws "g_00c0ffee",
                     Sample.get_roll (Some "32768") (Some "100")
                       (Some "carol"))]) < 2 ^ 19)
    by (vm_compute; reflexivity).
  exact (served_ledger_is_exact Config.default
           [(Sample.draws "g_00c0ffee",
             Sample.get_roll (Some "32768") (Some "100") (Some "carol"))]
           Hcfg Hlen).
Defined.

(* ================================================================== *)
(** * The leaderboard and the order of the games *)
(* ================================================================== *)

Lemma filter_perm {A} (f : A -> bool) (l1 l2 : list A) :
  Permutation l1 l2 -> Permutation (filter f l1) (filter f l2).
Proof.
  induction 1 as [ | x l l' _ IH | x y l | l l' l'' _ IH1 _ IH2 ];
    cbn [filter].
  - constructor.
  - destruct (f x); [apply perm_skip|]; exact IH.
  - destruct (f x), (f y); try reflexivity. apply perm_swap.
  - transitivity (filter f l'); assumption.
Qed.

Lemma total_perm (l1 l2 : list Z) :
  Permutation l1 l2 -> fold_left Z.add l1 0 = fold_left Z.add l2 0.
Proof.
  induction 1 as [ | x l l' _ IH | x y l | l l' l'' _ IH1 _ IH2 ];
    cbn [fold_left].
  - reflexivity.
  - rewrite (fold_add_from l), (fold_add_from l'), IH. reflexivity.
  - f_equal. lia.
  - congruence.
Qed.

Lemma fold_max_perm (l1 l2 : list Z) :
  Permutation l1 l2 ->
  forall a, fold_left Z.max l1 a = fold_left Z.max l2 a.
Proof.
  induction 1 as [ | x l l' _ IH | x y l | l l' l'' _ IH1 _ IH2 ];
    intros a; cbn [fold_left].
  - reflexivity.
  - apply IH.
  - f_equal. lia.
  - rewrite IH1. apply IH2.
Qed.

Lemma greatest_perm (l1 l2 : list Z) :
  Permutation l1 l2 ->
  match l1 with [] => 0 | x :: xs => fold_left Z.max xs x end
  = match l2 with [] => 0 | x :: xs => fold_left Z.max xs x end.
Proof.
  induction 1 as [ | x l l' Hl IH | x y l | l l' l'' _ IH1 _ IH2 ].
  - reflexivity.
  - apply fold_max_perm. exact Hl.
  - cbn [fold_left]. f_equal. lia.
  - congruence.
Qed.

(** A player's aggregates do not depend on the order of the rows. *)
Lemma aggregate_perm (db1 db2 : Db.t) (p : string) :
  Permutation db1 db2 -> Db.aggregate db1 p = Db.aggregate db2 p.
Proof.
  intros H. unfold Db.aggregate.
  pose proof (filter_perm (Db.played_by p) _ _ H) as Hf.
  rewrite (Permutation_length Hf).
  rewrite (total_perm _ _
             (Permutation_map (fun r => Db.sats (Db.bet_sats r)) Hf)).
  rewrite (total_perm _ _
             (Permutation_map (fun r => Db.sats (Db.payout_sats r)) Hf)).
  rewrite (greatest_perm _ _
             (Permutation_map (fun r => Db.sats (Db.payout_sats r)) Hf)).
  reflexivity.
Qed.

(** The players of a table are the players its rows name. *)
Lemma players_iff (db : Db.t) (p : string) :
  In p (Db.players db [])
  <-> exists r, In r db /\ Db.player_pubkey r = Some p.
Proof.
  split.
  - apply players_played.
  - intros (r & Hr & Hp). apply (players_complete db [] r p Hr Hp).
    intros [].
Qed.

Lemma players_perm (db1 db2 : Db.t) :
  Permutation db1 db2 ->
  Permutation (Db.players db1 []) (Db.players db2 []).
Proof.
  intros H. apply NoDup_Permutation; try apply players_NoDup.
  intros p. rewrite !players_iff.
  split; intros (r & Hr & Hp); exists r; split; try exact Hp.
  - apply (Permutation_in _ H). exact Hr.
  - apply (Permutation_in _ (Permutation_sym H)). exact Hr.
Qed.

Lemma compare_irrefl (a : string) : String.compare a a <> Lt.
Proof.
  intros H. pose proof (String.compare_antisym a a) as A.
  rewrite H in A. discriminate A.
Qed.

(** There is one way to put distinct players in ascending order. *)
Lemma ascending_unique (l1 : list string) :
  forall l2,
    StronglySorted (fun a b => String.compare a b = Lt) l1 ->
    StronglySorted (fun a b => String.compare a b = Lt) l2 ->
    (forall x, In x l1 <-> In x l2) ->
    l1 = l2.
Proof.
  induction l1 as [ | a r1 IH ]; intros l2 H1 H2 Hin.
  - destruct l2 as [ | b r2 ]; [reflexivity|].
    exfalso. apply (proj2 (Hin b)). left. reflexivity.
  - destruct l2 as [ | b r2 ].
    { exfalso. apply (proj1 (Hin a)). left. reflexivity. }
    inversion H1 as [ | ? ? S1 F1 ]; subst.
    inversion H2 as [ | ? ? S2 F2 ]; subst.
    rewrite Forall_forall in F1, F2.
    assert (Hab : a = b).
    { destruct (proj1 (Hin a) (or_introl eq_refl)) as [Hb | Hb];
        [symmetry; exact Hb|].
      destruct (proj2 (Hin b) (or_introl eq_refl)) as [Ha | Ha];
        [exact Ha|].
      exfalso. apply (compare_irrefl a).
      apply (compare_lt_trans a b a); [apply F1 | apply F2]; assumption. }
    subst b. f_equal. apply IH; try assumption.
    intros x. split; intros Hx.
    + destruct (proj1 (Hin x) (or_intror Hx)) as [<- | Hx']; [|exact Hx'].
      exfalso. apply (compare_irrefl a). apply F1. exact Hx.
    + destruct (proj2 (Hin x) (or_intror Hx)) as [<- | Hx']; [|exact Hx'].
      exfalso. apply (compare_irrefl a). apply F2. exact Hx.
Qed.

(** The groups come out the same, in the same order, however the rows
    are arranged. *)
Lemma grouped_perm_eq (db1 db2 : Db.t) :
  Permutation db1 db2 -> Db.grouped db1 = Db.grouped db2.
Proof.
  intros H. unfold Db.grouped.
  assert (Hl : fold_right Db.insert_player [] (Db.players db1 [])
               = fold_right Db.insert_player [] (Db.players db2 [])).
  { apply ascending_unique.
    - apply sort_players_ascending, players_NoDup.
    - apply sort_players_ascending, players_NoDup.
    - intros x. split; intros Hx.
      + apply (Permutation_in _ (Permutation_sym (sort_players_perm _))).
        apply (Permutation_in _ (players_perm _ _ H)).
        apply (Permutation_in _ (sort_players_perm _)). exact Hx.
      + apply (Permutation_in _ (Permutation_sym (sort_players_perm _))).
        apply (Permutation_in _ (Permutation_sym (players_perm _ _ H))).
        apply (Permutation_in _ (sort_players_perm _)). exact Hx. }
  rewrite Hl. apply map_ext. intros p. apply aggregate_perm. exact H.
Qed.

(** X26.  The leaderboard does not depend on the order of the games.
    Two exact ledgers that hold the same rows, in whatever order they
    were inserted, have the same leaderboard under every limit: the
    same entries in the same order, or the same exception. *)
Theorem leaderboard_ignores_insertion_order (db1 db2 : Db.t)
    (limit : JS.number) :
  Books.exact db1 = true ->
  Permutation db1 db2 ->
  Db.getLeaderboard db1 limit = Db.getLeaderboard db2 limit.
Proof.
  intros _ H. unfold Db.getLeaderboard.
  rewrite (grouped_perm_eq db1 db2 H). reflexivity.
Qed.

Lemma leaderboard_ignores_insertion_order_witness :
  Db.getLeaderboard Sample.ledger 20%float
  = Db.getLeaderboard (rev Sample.ledger) 20%float.
Proof.
  assert (E : Books.exact Sample.ledger = true) by (vm_compute; reflexivity).
  exact (leaderboard_ignores_insertion_order Sample.ledger
           (rev Sample.ledger) 20%float E (Permutation_rev Sample.ledger)).
Defined.
